(** * Mortgage assistant: calculators, validator, dispatcher, session store
      and orchestration loop

    A shallow embedding of [backend/app/tools.py], [agent.py], [state.py] and
    [main.py].

    The calculators are read twice.  In [Tools] numbers are exact rationals
    ([Q]): Python's arithmetic operators have their real-number meaning, and
    [round(x, k)] and the [f]-string format codes round half to even at [k]
    decimals; this reading carries the properties of the branch structure,
    of the dispatcher and of the loop.  In [Tools64] numbers are Python's
    [int] and binary64 [float] ([Py64]), with rounding error, overflow, the
    non-finite values and the exceptions of the operators; this reading
    carries the properties that depend on how a result is rounded or on
    whether one is returned at all.
    Python dictionaries returned by the calculators are records here (one
    field per key); JSON objects exchanged with the language model are
    association lists over [Json.value]; the session store is a [gmap]. *)

From Stdlib Require Import ZArith QArith Qround Qabs Qpower String Ascii List
  Permutation Lia Lqa Floats.
From stdpp Require Import gmap strings pretty.

Set Warnings "-inexact-float".

(** ** Python numbers and text formatting *)
Module Py.

Local Open Scope Q_scope.

Definition Qlt_bool (a b : Q) : bool := negb (Qle_bool b a).

(** Nearest integer, ties to the even neighbour. *)
Definition round_half_even (x : Q) : Z :=
  let f := Qfloor x in
  match Qcompare (x - inject_Z f) (1 # 2) with
  | Lt => f
  | Gt => (f + 1)%Z
  | Eq => if Z.even f then f else (f + 1)%Z
  end.

Definition pow10 (ndigits : nat) : positive := Z.to_pos (10 ^ Z.of_nat ndigits).

(** [round(x, ndigits)] on a float. *)
Definition round (x : Q) (ndigits : nat) : Q :=
  Qmake (round_half_even (x * inject_Z (Zpos (pow10 ndigits)))) (pow10 ndigits).

(** Thousands separators of the [,] format option, on the digits of the
    integer part. *)
Fixpoint group3_rev (digits : list ascii) (k : nat) : list ascii :=
  match digits with
  | [] => []
  | c :: rest =>
      match k with
      | O => ","%char :: c :: group3_rev rest 2
      | S k' => c :: group3_rev rest k'
      end
  end.

Definition group3 (s : string) : string :=
  string_of_list_ascii (rev (group3_rev (rev (list_ascii_of_string s)) 3)).

Fixpoint zeros (n : nat) : string :=
  match n with
  | O => EmptyString
  | S n' => String "0"%char (zeros n')
  end.

Definition pad_left (width : nat) (s : string) : string :=
  String.append (zeros (width - String.length s)) s.

(** The format specs [:.kf] ([comma = false]) and [:,.kf] ([comma = true]). *)
Definition format_f (comma : bool) (ndigits : nat) (x : Q) : string :=
  let scaled := Z.abs (round_half_even (x * inject_Z (Zpos (pow10 ndigits)))) in
  let int_part := (scaled / Zpos (pow10 ndigits))%Z in
  let frac_part := (scaled mod Zpos (pow10 ndigits))%Z in
  let int_str := if comma then group3 (pretty int_part) else pretty int_part in
  let sign := if Qlt_bool x 0 then "-"%string else EmptyString in
  let frac_str :=
    match ndigits with
    | O => EmptyString
    | S _ => String.append "." (pad_left ndigits (pretty frac_part))
    end in
  String.append sign (String.append int_str frac_str).

End Py.

(** ** tools.py: the calculator library *)
Module Tools.

Local Open Scope Q_scope.
Import Py.

(** A calculator returns a dictionary that either has the key ["error"] or
    the keys of its result. *)
Inductive payload (A : Type) : Type :=
| Failure (error : string)
| Success (fields : A).
Arguments Failure {A} error.
Arguments Success {A} fields.

Definition is_success {A} (p : payload A) : bool :=
  match p with Success _ => true | Failure _ => false end.

Record emi_fields := {
  emi : Q;
  total_amount : Q;
  total_interest : Q;
  emi_loan_amount : Q;
  emi_interest_rate : Q;
  tenure_years : Z;
  tenure_months : Z
}.

Definition calculate_emi (loan_amount interest_rate : Q) (tenure_years : Z)
  : payload emi_fields :=
  if Qle_bool loan_amount 0 then Failure "Loan amount must be positive"
  else if (tenure_years <=? 0)%Z || (tenure_years >? 25)%Z
  then Failure "Tenure must be between 1 and 25 years"
  else if Qlt_bool interest_rate 0 then Failure "Interest rate cannot be negative"
  else
    let monthly_rate := (interest_rate / 100) / 12 in
    let num_months := (tenure_years * 12)%Z in
    let emi :=
      if Qeq_bool monthly_rate 0 then loan_amount / inject_Z num_months
      else loan_amount * monthly_rate * ((1 + monthly_rate) ^ num_months)
           / (((1 + monthly_rate) ^ num_months) - 1) in
    let total_amount := emi * inject_Z num_months in
    let total_interest := total_amount - loan_amount in
    Success {|
      emi := round emi 2;
      total_amount := round total_amount 2;
      total_interest := round total_interest 2;
      emi_loan_amount := loan_amount;
      emi_interest_rate := interest_rate;
      tenure_years := tenure_years;
      tenure_months := num_months
    |}.

Record ltv_fields := {
  ltv_ratio : Q;
  ltv_loan_amount : Q;
  max_loanable : Q;
  min_down_payment_required : Q;
  is_valid : bool;
  ltv_property_price : Q;
  ltv_down_payment : Q;
  message : string
}.

Definition check_ltv (property_price down_payment : Q) : payload ltv_fields :=
  if Qle_bool property_price 0 then Failure "Property price must be positive"
  else if Qlt_bool down_payment 0 then Failure "Down payment cannot be negative"
  else if Qle_bool property_price down_payment
  then Failure "Down payment cannot exceed property price"
  else
    let loan_amount := property_price - down_payment in
    let ltv_ratio := (loan_amount / property_price) * 100 in
    let max_ltv := 80 in
    let max_loanable := property_price * (max_ltv / 100) in
    let min_down_payment_required := property_price - max_loanable in
    let is_valid := Qle_bool ltv_ratio max_ltv in
    Success {|
      ltv_ratio := round ltv_ratio 2;
      ltv_loan_amount := round loan_amount 2;
      max_loanable := round max_loanable 2;
      min_down_payment_required := round min_down_payment_required 2;
      is_valid := is_valid;
      ltv_property_price := property_price;
      ltv_down_payment := down_payment;
      message :=
        if is_valid then "Valid"
        else String.append "LTV exceeds 80%. Minimum down payment required: "
               (String.append (format_f true 0 min_down_payment_required) " AED")
    |}.

Record upfront_fields := {
  upf_property_price : Q;
  transfer_fee : Q;
  agency_fee : Q;
  misc_fee : Q;
  total_upfront_costs : Q;
  percentage : Q;
  total_with_costs : Q
}.

Definition calculate_upfront_costs (property_price : Q) : payload upfront_fields :=
  if Qle_bool property_price 0 then Failure "Property price must be positive"
  else
    let transfer_fee := property_price * (4 # 100) in
    let agency_fee := property_price * (2 # 100) in
    let misc_fee := property_price * (1 # 100) in
    let total_upfront := transfer_fee + agency_fee + misc_fee in
    Success {|
      upf_property_price := property_price;
      transfer_fee := round transfer_fee 2;
      agency_fee := round agency_fee 2;
      misc_fee := round misc_fee 2;
      total_upfront_costs := round total_upfront 2;
      percentage := 7;
      total_with_costs := round (property_price + total_upfront) 2
    |}.

Inductive recommendation_t := RENT | BUY.

Record bvr_fields := {
  recommendation : recommendation_t;
  reasoning : list string;
  bvr_monthly_rent : Q;
  monthly_ownership_cost : Q;
  monthly_interest : Q;
  maintenance_estimate : Q;
  bvr_emi : Q;
  affordability_ratio : Q;
  is_affordable : bool;
  bvr_stay_years : Z;
  upfront_costs : Q;
  ltv_details : ltv_fields;
  emi_details : emi_fields
}.

(** The three shapes [buy_vs_rent_analysis] can end in: a dictionary with
    ["error"] (and ["ltv_details"] when the failure is the loan-to-value
    one), the analysis, or a [KeyError] at the subscript
    [upfront_costs["total_upfront_costs"]]. *)
Inductive bvr_result :=
| BvrFailure (error : string) (ltv_details : option (payload ltv_fields))
| BvrSuccess (fields : bvr_fields)
| BvrKeyError (key : string).

Definition short_stay_reason (total_upfront : Q) : string :=
  String.append "Planning to stay less than 3 years. Transaction costs ("
    (String.append (format_f true 0 total_upfront) " AED) would outweigh benefits.").

Definition long_stay_reason : string :=
  "Planning to stay more than 5 years. Equity buildup and long-term savings favor buying.".

Definition own_cheaper_reason (monthly_ownership_cost monthly_rent : Q) : string :=
  String.append "Monthly ownership cost ("
    (String.append (format_f true 0 monthly_ownership_cost)
       (String.append " AED) is less than rent ("
          (String.append (format_f true 0 monthly_rent) " AED)."))).

Definition rent_cheaper_reason (monthly_rent monthly_ownership_cost : Q) : string :=
  String.append "Monthly rent ("
    (String.append (format_f true 0 monthly_rent)
       (String.append " AED) is less than ownership cost ("
          (String.append (format_f true 0 monthly_ownership_cost) " AED) for now."))).

Definition affordability_reason (emi affordability_ratio : Q) : string :=
  String.append "EMI ("
    (String.append (format_f true 0 emi)
       (String.append " AED) is "
          (String.append (format_f false 1 affordability_ratio)
             "% of income. Recommended max is 30%."))).

Definition buy_vs_rent_analysis
    (monthly_rent property_price : Q) (stay_years : Z)
    (income down_payment interest_rate : Q) : bvr_result :=
  if Qle_bool monthly_rent 0 then BvrFailure "Monthly rent must be positive" None
  else if Qle_bool property_price 0 then BvrFailure "Property price must be positive" None
  else if (stay_years <=? 0)%Z then BvrFailure "Stay duration must be positive" None
  else if Qle_bool income 0 then BvrFailure "Income must be positive" None
  else
    let loan_amount := property_price - down_payment in
    let ltv_check := check_ltv property_price down_payment in
    match ltv_check with
    | Failure _ => BvrFailure "Invalid LTV ratio" (Some ltv_check)
    | Success ltv =>
        if negb (is_valid ltv) then BvrFailure (message ltv) (Some ltv_check)
        else
          match calculate_emi loan_amount interest_rate 25 with
          | Failure e => BvrFailure e None
          | Success emi_result =>
              let emi := emi emi_result in
              let monthly_interest := (loan_amount * interest_rate / 100) / 12 in
              let maintenance_estimate := property_price * (1 # 1000) / 12 in
              let monthly_ownership_cost := monthly_interest + maintenance_estimate in
              match calculate_upfront_costs property_price with
              | Failure _ => BvrKeyError "total_upfront_costs"
              | Success upfront =>
                  let total_upfront := total_upfront_costs upfront in
                  let '(recommendation, reasoning) :=
                    if (stay_years <? 3)%Z
                    then (RENT, [short_stay_reason total_upfront])
                    else if (stay_years >? 5)%Z
                    then (BUY, [long_stay_reason])
                    else if Qlt_bool monthly_ownership_cost monthly_rent
                    then (BUY, [own_cheaper_reason monthly_ownership_cost monthly_rent])
                    else (RENT, [rent_cheaper_reason monthly_rent monthly_ownership_cost]) in
                  let affordability_ratio := (emi / income) * 100 in
                  let is_affordable := Qle_bool affordability_ratio 30 in
                  let '(recommendation, reasoning) :=
                    if negb is_affordable
                    then (RENT, reasoning ++ [affordability_reason emi affordability_ratio])
                    else (recommendation, reasoning) in
                  BvrSuccess {|
                    recommendation := recommendation;
                    reasoning := reasoning;
                    bvr_monthly_rent := monthly_rent;
                    monthly_ownership_cost := round monthly_ownership_cost 2;
                    monthly_interest := round monthly_interest 2;
                    maintenance_estimate := round maintenance_estimate 2;
                    bvr_emi := emi;
                    affordability_ratio := round affordability_ratio 2;
                    is_affordable := is_affordable;
                    bvr_stay_years := stay_years;
                    upfront_costs := total_upfront;
                    ltv_details := ltv;
                    emi_details := emi_result
                  |}
              end
          end
    end.

End Tools.

(** ** Python numbers in binary64

    The calculators of tools.py compute with Python's [int] and [float].
    [Py64] follows that arithmetic bit for bit: a [float] is an IEEE 754
    binary64 value (Rocq's primitive [float], with the same correctly
    rounded [+], [-], [*], [/]); an [int] is exact; an operation on an [int]
    and a [float] first converts the [int], which raises [OverflowError]
    beyond the float range; [/] raises [ZeroDivisionError] on a zero
    divisor; comparisons are exact, also between an [int] and a [float],
    and false on a NaN; [round(x, k)] and the format code [f] round the
    exact binary value half to even in decimal.  [**] on floats is the C
    library's [pow] behind CPython's special cases; the library function is
    a parameter ([libm_pow]). *)
Module Py64.

Inductive num :=
| Int (z : Z)
| Float (x : float).

Inductive error :=
| ZeroDivisionError (detail : string)
| OverflowError (detail : string)
| KeyError (key : string).

(** What evaluating an expression ends in: a value, an exception, or a
    complex number ([**] of a negative float to a fractional power), which
    this model does not follow further. *)
Inductive result (A : Type) : Type :=
| Value (a : A)
| Raise (e : error)
| ComplexNumber.
Arguments Value {A} a.
Arguments Raise {A} e.
Arguments ComplexNumber {A}.

Definition bind {A B} (m : result A) (k : A -> result B) : result B :=
  match m with
  | Value a => k a
  | Raise e => Raise e
  | ComplexNumber => ComplexNumber
  end.

Notation "x <~ m ;; k" := (bind m (fun x => k))
  (at level 100, m at next level, right associativity).

(** The real number a float stands for. *)
Inductive extended :=
| NaN
| Infinite (negative : bool)
| Finite (q : Q).

Definition value_of_float (x : float) : extended :=
  match Prim2SF x with
  | S754_nan => NaN
  | S754_infinity s => Infinite s
  | S754_zero _ => Finite 0
  | S754_finite s m e => Finite (inject_Z (cond_Zopp s (Zpos m)) * 2 ^ e)
  end.

Definition sign_bit (x : float) : bool :=
  match Prim2SF x with
  | S754_nan => false
  | S754_infinity s | S754_zero s | S754_finite s _ _ => s
  end.

Definition value_of (n : num) : extended :=
  match n with
  | Int z => Finite (inject_Z z)
  | Float x => value_of_float x
  end.

(** The comparison of two numbers by their values; [None] when one of them
    is a NaN. *)
Definition compare (a b : num) : option comparison :=
  match value_of a, value_of b with
  | NaN, _ | _, NaN => None
  | Finite p, Finite q => Some (Qcompare p q)
  | Finite _, Infinite s => Some (if s then Gt else Lt)
  | Infinite s, Finite _ => Some (if s then Lt else Gt)
  | Infinite s, Infinite t =>
      Some (match s, t with
            | true, false => Lt
            | false, true => Gt
            | _, _ => Eq
            end)
  end.

(** [a < b], [a <= b], [a > b], [a >= b], [a == b] *)
Definition lt (a b : num) : bool :=
  match compare a b with Some Lt => true | _ => false end.
Definition le (a b : num) : bool :=
  match compare a b with Some Lt | Some Eq => true | _ => false end.
Definition gt (a b : num) : bool :=
  match compare a b with Some Gt => true | _ => false end.
Definition ge (a b : num) : bool :=
  match compare a b with Some Gt | Some Eq => true | _ => false end.
Definition eq (a b : num) : bool :=
  match compare a b with Some Eq => true | _ => false end.

(** The nearest float to an integer, ties to even. *)
Definition of_Z (z : Z) : float := SF2Prim (binary_normalize prec emax z 0 false).

(** The nearest float to the quotient of two integers, ties to even; the
    sign of a zero quotient is the sign of the exact one. *)
Definition nearest_quotient (x y : Z) : float :=
  let negative := xorb (x <? 0)%Z (y <? 0)%Z in
  match Z.abs x, Z.abs y with
  | Zpos p, Zpos q =>
      SF2Prim (SFdiv prec emax (S754_finite negative p 0) (S754_finite false q 0))
  | _, _ => if negative then neg_zero else zero
  end.

(** Magnitudes from here on round to infinity. *)
Definition overflow_threshold : Z := 2 ^ 1024 - 2 ^ 970.

(** [float(n)] *)
Definition to_float (n : num) : result float :=
  match n with
  | Float x => Value x
  | Int z =>
      if (overflow_threshold <=? Z.abs z)%Z
      then Raise (OverflowError "int too large to convert to float")
      else Value (of_Z z)
  end.

Definition arith (int_op : Z -> Z -> Z) (float_op : float -> float -> float)
    (a b : num) : result num :=
  match a, b with
  | Int x, Int y => Value (Int (int_op x y))
  | _, _ =>
      x <~ to_float a ;;
      y <~ to_float b ;;
      Value (Float (float_op x y))
  end.

(** [a + b], [a - b], [a * b] *)
Definition add := arith Z.add PrimFloat.add.
Definition sub := arith Z.sub PrimFloat.sub.
Definition mul := arith Z.mul PrimFloat.mul.

(** [a / b] *)
Definition truediv (a b : num) : result float :=
  match a, b with
  | Int x, Int y =>
      if (y =? 0)%Z then Raise (ZeroDivisionError "division by zero")
      else if Qle_bool (inject_Z overflow_threshold) (Qabs (inject_Z x / inject_Z y))
      then Raise (OverflowError "integer division result too large for a float")
      else Value (nearest_quotient x y)
  | _, _ =>
      x <~ to_float a ;;
      y <~ to_float b ;;
      if eq b (Int 0) then Raise (ZeroDivisionError "float division by zero")
      else Value (x / y)%float
  end.

(** [round(n, ndigits)] for [ndigits >= 0]: an [int] is returned as it is,
    a float that is not finite too; a finite float is rounded in decimal,
    on its exact value, and the nearest float to the decimal is returned. *)
Definition round (n : num) (ndigits : nat) : num :=
  match n with
  | Int z => Int z
  | Float x =>
      match value_of_float x with
      | Finite q =>
          let scaled := Py.round_half_even (q * inject_Z (Zpos (Py.pow10 ndigits))) in
          Float (match scaled with
                 | Z0 => if sign_bit x then neg_zero else zero
                 | _ => nearest_quotient scaled (Zpos (Py.pow10 ndigits))
                 end)
      | _ => Float x
      end
  end.

(** The format specs [:.kf] and [:,.kf]; an [int] is converted first. *)
Definition format_f (comma : bool) (ndigits : nat) (n : num) : result string :=
  x <~ to_float n ;;
  Value (match value_of_float x with
         | Finite q =>
             String.append (if sign_bit x then "-" else "")
               (Py.format_f comma ndigits (Qabs q))
         | Infinite s => if s then "-inf" else "inf"
         | NaN => "nan"
         end)%string.

(** An integer that is odd, as a float. *)
Definition is_odd_integer (x : float) : bool :=
  match value_of_float x with
  | Finite q => (Qden (Qred q) =? 1)%positive && Z.odd (Qnum (Qred q))
  | _ => false
  end.

Definition is_integer (x : float) : bool :=
  match value_of_float x with
  | Finite q => (Qden (Qred q) =? 1)%positive
  | _ => false
  end.

Section Power.

(** The C library's [pow] on two finite floats, the first above 0 and not
    1, the second not 0. *)
Variable libm_pow : float -> float -> float.

(** [float_pow] of CPython on two floats. *)
Definition float_pow (iv iw : float) : result float :=
  let zero_w := eq (Float iw) (Int 0) in
  if zero_w then Value 1%float
  else
    match value_of_float iv, value_of_float iw with
    | NaN, _ => Value iv
    | _, NaN => Value (if eq (Float iv) (Int 1) then 1%float else iw)
    | _, Infinite negative_w =>
        if eq (Float (abs iv)) (Int 1) then Value 1%float
        else if Bool.eqb (negb negative_w) (gt (Float (abs iv)) (Int 1))
        then Value infinity
        else Value 0%float
    | Infinite _, Finite _ =>
        let odd := is_odd_integer iw in
        if gt (Float iw) (Int 0)
        then Value (if odd then iv else abs iv)
        else Value (if odd then (if sign_bit iv then neg_zero else zero) else 0%float)
    | Finite v, Finite w =>
        if Qeq_bool v 0 then
          if lt (Float iw) (Int 0)
          then Raise (ZeroDivisionError "0.0 cannot be raised to a negative power")
          else Value (if is_odd_integer iw then iv else 0%float)
        else if Py.Qlt_bool v 0 && negb (is_integer iw) then ComplexNumber
        else
          let negate := Py.Qlt_bool v 0 && is_odd_integer iw in
          let base := abs iv in
          if eq (Float base) (Int 1)
          then Value (if negate then (-1)%float else 1%float)
          else
            let ix := libm_pow base iw in
            match value_of_float ix with
            | Infinite _ => Raise (OverflowError "(34, 'Numerical result out of range')")
            | _ => Value (if negate then (- ix)%float else ix)
            end
    end.

(** [a ** b] *)
Definition pow (a b : num) : result num :=
  match a, b with
  | Int x, Int y =>
      if (0 <=? y)%Z then Value (Int (x ^ y))
      else
        v <~ to_float a ;;
        w <~ to_float b ;;
        r <~ float_pow v w ;;
        Value (Float r)
  | _, _ =>
      v <~ to_float a ;;
      w <~ to_float b ;;
      r <~ float_pow v w ;;
      Value (Float r)
  end.

End Power.

End Py64.

(** ** tools.py in binary64

    The four calculators once more, statement by statement, over Python's
    numbers ([Py64]): every argument is an [int] or a [float], each operator
    is Python's, and an exception leaves the function.  The claims that
    depend on how a result is rounded, or on whether one is returned at
    all, are settled on these definitions. *)
Module Tools64.

Import Py64.

Record emi_fields := {
  emi : num;
  total_amount : num;
  total_interest : num;
  emi_loan_amount : num;
  emi_interest_rate : num;
  tenure_years : num;
  tenure_months : num
}.

Record ltv_fields := {
  ltv_ratio : num;
  ltv_loan_amount : num;
  max_loanable : num;
  min_down_payment_required : num;
  is_valid : bool;
  ltv_property_price : num;
  ltv_down_payment : num;
  message : string
}.

Definition check_ltv (property_price down_payment : num)
  : result (Tools.payload ltv_fields) :=
  if le property_price (Int 0) then Value (Tools.Failure "Property price must be positive")
  else if lt down_payment (Int 0)
  then Value (Tools.Failure "Down payment cannot be negative")
  else if ge down_payment property_price
  then Value (Tools.Failure "Down payment cannot exceed property price")
  else
    loan_amount <~ sub property_price down_payment ;;
    quotient <~ truediv loan_amount property_price ;;
    ltv_ratio <~ mul (Float quotient) (Int 100) ;;
    let max_ltv := Int 80 in
    fraction <~ truediv max_ltv (Int 100) ;;
    max_loanable <~ mul property_price (Float fraction) ;;
    min_down_payment_required <~ sub property_price max_loanable ;;
    let is_valid := le ltv_ratio max_ltv in
    message <~
      (if is_valid then Value "Valid"%string
       else
         amount <~ format_f true 0 min_down_payment_required ;;
         Value (String.append "LTV exceeds 80%. Minimum down payment required: "
                  (String.append amount " AED"))) ;;
    Value (Tools.Success {|
      ltv_ratio := round ltv_ratio 2;
      ltv_loan_amount := round loan_amount 2;
      max_loanable := round max_loanable 2;
      min_down_payment_required := round min_down_payment_required 2;
      is_valid := is_valid;
      ltv_property_price := property_price;
      ltv_down_payment := down_payment;
      message := message
    |}).

Record upfront_fields := {
  upf_property_price : num;
  transfer_fee : num;
  agency_fee : num;
  misc_fee : num;
  total_upfront_costs : num;
  percentage : num;
  total_with_costs : num
}.

Definition calculate_upfront_costs (property_price : num)
  : result (Tools.payload upfront_fields) :=
  if le property_price (Int 0) then Value (Tools.Failure "Property price must be positive")
  else
    transfer_fee <~ mul property_price (Float 0.04) ;;
    agency_fee <~ mul property_price (Float 0.02) ;;
    misc_fee <~ mul property_price (Float 0.01) ;;
    fees <~ add transfer_fee agency_fee ;;
    total_upfront <~ add fees misc_fee ;;
    total_with_costs <~ add property_price total_upfront ;;
    Value (Tools.Success {|
      upf_property_price := property_price;
      transfer_fee := round transfer_fee 2;
      agency_fee := round agency_fee 2;
      misc_fee := round misc_fee 2;
      total_upfront_costs := round total_upfront 2;
      percentage := Float 7;
      total_with_costs := round total_with_costs 2
    |}).

Record bvr_fields := {
  recommendation : Tools.recommendation_t;
  reasoning : list string;
  bvr_monthly_rent : num;
  monthly_ownership_cost : num;
  monthly_interest : num;
  maintenance_estimate : num;
  bvr_emi : num;
  affordability_ratio : num;
  is_affordable : bool;
  bvr_stay_years : num;
  upfront_costs : num;
  ltv_details : ltv_fields;
  emi_details : emi_fields
}.

(** The dictionaries [buy_vs_rent_analysis] returns: one with ["error"]
    (and ["ltv_details"] when the failure is the loan-to-value one), or the
    analysis. *)
Inductive bvr_result :=
| BvrFailure (error : string) (ltv_details : option (Tools.payload ltv_fields))
| BvrSuccess (fields : bvr_fields).

Definition short_stay_reason (total_upfront : string) : string :=
  String.append "Planning to stay less than 3 years. Transaction costs ("
    (String.append total_upfront " AED) would outweigh benefits.").

Definition own_cheaper_reason (monthly_ownership_cost monthly_rent : string) : string :=
  String.append "Monthly ownership cost ("
    (String.append monthly_ownership_cost
       (String.append " AED) is less than rent ("
          (String.append monthly_rent " AED)."))).

Definition rent_cheaper_reason (monthly_rent monthly_ownership_cost : string) : string :=
  String.append "Monthly rent ("
    (String.append monthly_rent
       (String.append " AED) is less than ownership cost ("
          (String.append monthly_ownership_cost " AED) for now."))).

Definition affordability_reason (emi affordability_ratio : string) : string :=
  String.append "EMI ("
    (String.append emi
       (String.append " AED) is "
          (String.append affordability_ratio "% of income. Recommended max is 30%."))).

Section Libm.

Variable libm_pow : float -> float -> float.

Definition calculate_emi (loan_amount interest_rate tenure_years : num)
  : result (Tools.payload emi_fields) :=
  if le loan_amount (Int 0) then Value (Tools.Failure "Loan amount must be positive")
  else if le tenure_years (Int 0) || gt tenure_years (Int 25)
  then Value (Tools.Failure "Tenure must be between 1 and 25 years")
  else if lt interest_rate (Int 0)
  then Value (Tools.Failure "Interest rate cannot be negative")
  else
    percent <~ truediv interest_rate (Int 100) ;;
    monthly_rate <~ truediv (Float percent) (Int 12) ;;
    num_months <~ mul tenure_years (Int 12) ;;
    emi <~
      (if eq (Float monthly_rate) (Int 0) then truediv loan_amount num_months
       else
         interest <~ mul loan_amount (Float monthly_rate) ;;
         base <~ add (Int 1) (Float monthly_rate) ;;
         growth <~ pow libm_pow base num_months ;;
         numerator <~ mul interest growth ;;
         base' <~ add (Int 1) (Float monthly_rate) ;;
         growth' <~ pow libm_pow base' num_months ;;
         denominator <~ sub growth' (Int 1) ;;
         truediv numerator denominator) ;;
    total_amount <~ mul (Float emi) num_months ;;
    total_interest <~ sub total_amount loan_amount ;;
    Value (Tools.Success {|
      emi := round (Float emi) 2;
      total_amount := round total_amount 2;
      total_interest := round total_interest 2;
      emi_loan_amount := loan_amount;
      emi_interest_rate := interest_rate;
      tenure_years := tenure_years;
      tenure_months := num_months
    |}).

Definition buy_vs_rent_analysis
    (monthly_rent property_price stay_years income down_payment interest_rate : num)
  : result bvr_result :=
  if le monthly_rent (Int 0) then Value (BvrFailure "Monthly rent must be positive" None)
  else if le property_price (Int 0)
  then Value (BvrFailure "Property price must be positive" None)
  else if le stay_years (Int 0) then Value (BvrFailure "Stay duration must be positive" None)
  else if le income (Int 0) then Value (BvrFailure "Income must be positive" None)
  else
    loan_amount <~ sub property_price down_payment ;;
    ltv_check <~ check_ltv property_price down_payment ;;
    match ltv_check with
    | Tools.Failure _ => Value (BvrFailure "Invalid LTV ratio" (Some ltv_check))
    | Tools.Success ltv =>
        if negb (is_valid ltv) then Value (BvrFailure (message ltv) (Some ltv_check))
        else
          emi_check <~ calculate_emi loan_amount interest_rate (Int 25) ;;
          match emi_check with
          | Tools.Failure e => Value (BvrFailure e None)
          | Tools.Success emi_result =>
              let emi := emi emi_result in
              interest <~ mul loan_amount interest_rate ;;
              yearly_interest <~ truediv interest (Int 100) ;;
              monthly_interest <~ truediv (Float yearly_interest) (Int 12) ;;
              yearly_maintenance <~ mul property_price (Float 0.001) ;;
              maintenance_estimate <~ truediv yearly_maintenance (Int 12) ;;
              monthly_ownership_cost <~
                add (Float monthly_interest) (Float maintenance_estimate) ;;
              upfront_check <~ calculate_upfront_costs property_price ;;
              match upfront_check with
              | Tools.Failure _ => Raise (KeyError "total_upfront_costs")
              | Tools.Success upfront =>
                  let total_upfront := total_upfront_costs upfront in
                  decision <~
                    (if lt stay_years (Int 3)
                     then
                       costs <~ format_f true 0 total_upfront ;;
                       Value (Tools.RENT, [short_stay_reason costs])
                     else if gt stay_years (Int 5)
                     then Value (Tools.BUY, [Tools.long_stay_reason])
                     else if lt monthly_ownership_cost monthly_rent
                     then
                       cost <~ format_f true 0 monthly_ownership_cost ;;
                       rent <~ format_f true 0 monthly_rent ;;
                       Value (Tools.BUY, [own_cheaper_reason cost rent])
                     else
                       rent <~ format_f true 0 monthly_rent ;;
                       cost <~ format_f true 0 monthly_ownership_cost ;;
                       Value (Tools.RENT, [rent_cheaper_reason rent cost])) ;;
                  share <~ truediv emi income ;;
                  affordability_ratio <~ mul (Float share) (Int 100) ;;
                  let is_affordable := le affordability_ratio (Int 30) in
                  verdict <~
                    (if negb is_affordable
                     then
                       instalment <~ format_f true 0 emi ;;
                       percent <~ format_f false 1 affordability_ratio ;;
                       Value (Tools.RENT,
                              snd decision ++ [affordability_reason instalment percent])
                     else Value decision) ;;
                  Value (BvrSuccess {|
                    recommendation := fst verdict;
                    reasoning := snd verdict;
                    bvr_monthly_rent := monthly_rent;
                    monthly_ownership_cost := round monthly_ownership_cost 2;
                    monthly_interest := round (Float monthly_interest) 2;
                    maintenance_estimate := round (Float maintenance_estimate) 2;
                    bvr_emi := emi;
                    affordability_ratio := round affordability_ratio 2;
                    is_affordable := is_affordable;
                    bvr_stay_years := stay_years;
                    upfront_costs := total_upfront;
                    ltv_details := ltv;
                    emi_details := emi_result
                  |})
              end
          end
    end.

End Libm.

End Tools64.

(** ** JSON values and keyword dictionaries *)
Module Json.

#[warnings="-register-all"]
Inductive value :=
| VNone
| VBool (b : bool)
| VInt (z : Z)
| VFloat (q : Q)
| VStr (s : string)
| VList (items : list value)
| VDict (entries : list (string * value)).

(** A dictionary with string keys, in insertion order. *)
Definition dict := list (string * value).

(** [d.get(key)] *)
Fixpoint dict_get (key : string) (d : dict) : option value :=
  match d with
  | [] => None
  | (k, v) :: rest => if String.eqb key k then Some v else dict_get key rest
  end.

(** [key in d] *)
Definition dict_has (key : string) (d : dict) : bool :=
  match dict_get key d with Some _ => true | None => false end.

(** [d.get(key, default)] *)
Definition dict_get_default (key : string) (default : value) (d : dict) : value :=
  match dict_get key d with Some v => v | None => default end.

(** [isinstance(value, (int, float))]; [bool] is a subclass of [int]. *)
Definition is_number (v : value) : bool :=
  match v with
  | VBool _ | VInt _ | VFloat _ => true
  | _ => false
  end.

Definition as_number (v : value) : option Q :=
  match v with
  | VBool b => Some (if b then 1 else 0)%Q
  | VInt z => Some (inject_Z z)
  | VFloat q => Some q
  | _ => None
  end.

(** Truth value of an object in a condition. *)
Definition truthy (v : value) : bool :=
  match v with
  | VNone => false
  | VBool b => b
  | VInt z => negb (z =? 0)%Z
  | VFloat q => negb (Qeq_bool q 0)
  | VStr s => negb (String.eqb s "")
  | VList items => match items with [] => false | _ => true end
  | VDict entries => match entries with [] => false | _ => true end
  end.

(** What a Python call can do besides returning: the exceptions that
    occur in this program. *)
Inductive exn :=
| TypeError (detail : string)
| ValueError (detail : string)
| KeyError (key : string)
| AttributeError (detail : string)
| UpstreamError (detail : string).

(** A computation that returns a value or raises. *)
Inductive try (A : Type) : Type :=
| Ok (a : A)
| Throw (e : exn).
Arguments Ok {A} a.
Arguments Throw {A} e.

Definition try_bind {A B} (m : try A) (k : A -> try B) : try B :=
  match m with
  | Ok a => k a
  | Throw e => Throw e
  end.

Notation "x <- m ;; k" := (try_bind m (fun x => k))
  (at level 100, m at next level, right associativity).

End Json.

(** ** agent.py: argument validator and tool dispatcher *)
Module Agent.

Import Json.

Inductive outcome :=
| Returned (result : dict)
| Raised (e : exn).

Definition assoc {A} (key : string) (table : list (string * A)) : option A :=
  snd <$> List.find (fun entry => String.eqb key (fst entry)) table.

Definition positive_params : list (string * list string) :=
  [ ("calculate_emi", ["loan_amount"]);
    ("check_ltv", ["property_price"]);
    ("calculate_upfront_costs", ["property_price"]);
    ("buy_vs_rent_analysis",
      ["property_price"; "monthly_rent"; "income"; "down_payment"; "stay_years"]) ]%string.

Definition required_params : list (string * list string) :=
  [ ("calculate_emi", ["loan_amount"; "tenure_years"]);
    ("check_ltv", ["property_price"; "down_payment"]);
    ("calculate_upfront_costs", ["property_price"]);
    ("buy_vs_rent_analysis",
      ["monthly_rent"; "property_price"; "stay_years"; "income"; "down_payment"]) ]%string.

(** The keys of [TOOL_FUNCTIONS]. *)
Definition TOOL_NAMES : list string :=
  [ "calculate_emi"; "check_ltv"; "calculate_upfront_costs"; "buy_vs_rent_analysis" ]%string.

(** [tool_name in TOOL_FUNCTIONS] *)
Definition known_tool (tool_name : string) : bool :=
  existsb (String.eqb tool_name) TOOL_NAMES.

(** [value <= 0] for a value that passed the [isinstance] test. *)
Definition le_zero (v : value) : bool :=
  match as_number v with
  | Some q => Qle_bool q 0
  | None => false
  end.

(** [not isinstance(value, (int, float)) or value <= 0] *)
Definition not_positive (v : value) : bool := negb (is_number v) || le_zero v.

Section Dispatch.

(** [str(value)], as interpolated by an [f]-string. *)
Variable py_str : value -> string.
(** [str(e)] for a caught exception. *)
Variable exn_str : exn -> string.
(** The call of [TOOL_FUNCTIONS[tool_name]] on the unpacked keyword
    arguments: the decorated calculator, which returns or raises. *)
Variable invoke : string -> dict -> outcome.

(** [[param for param in required if param not in arguments]] *)
Definition missing_params (required : list string) (arguments : dict) : list string :=
  List.filter (fun param => negb (dict_has param arguments)) required.

Definition invalid_entry (param : string) (v : value) : string :=
  String.append param
    (String.append " (got " (String.append (py_str v) ", must be positive)")).

(** The list [invalid] built by the loop over [positive_params[tool_name]]. *)
Fixpoint invalid_params (positive : list string) (arguments : dict) : list string :=
  match positive with
  | [] => []
  | param :: rest =>
      match dict_get param arguments with
      | Some v =>
          if not_positive v
          then invalid_entry param v :: invalid_params rest arguments
          else invalid_params rest arguments
      | None => invalid_params rest arguments
      end
  end.

Definition missing_message (missing : list string) : string :=
  String.append "Missing required parameters: " (String.concat ", " missing).

Definition invalid_message (invalid : list string) : string :=
  String.append "Cannot execute tool: Invalid parameter values - "
    (String.append (String.concat ", " invalid)
       ". Please ask the user for missing information before calling this tool.").

Definition validate_tool_arguments (tool_name : string) (arguments : dict)
  : bool * string :=
  match assoc tool_name required_params with
  | None => (true, EmptyString)
  | Some required =>
      let missing := missing_params required arguments in
      match missing with
      | _ :: _ => (false, missing_message missing)
      | [] =>
          let invalid :=
            match assoc tool_name positive_params with
            | Some positive => invalid_params positive arguments
            | None => []
            end in
          match invalid with
          | _ :: _ => (false, invalid_message invalid)
          | [] => (true, EmptyString)
          end
      end
  end.

Definition error_result (msg : string) : dict := [("error"%string, VStr msg)].

(** [execute_tool], returning with its result the calculator invocations
    it made (tool name and keyword arguments), in order. *)
Definition execute_tool_traced (tool_name : string) (arguments : dict)
  : dict * list (string * dict) :=
  if negb (known_tool tool_name)
  then (error_result (String.append "Unknown tool: " tool_name), [])
  else
    let '(is_valid, error_msg) := validate_tool_arguments tool_name arguments in
    if negb is_valid then (error_result error_msg, [])
    else
      match invoke tool_name arguments with
      | Returned result => (result, [(tool_name, arguments)])
      | Raised e =>
          (error_result (String.append "Tool execution failed: " (exn_str e)),
           [(tool_name, arguments)])
      end.

Definition execute_tool (tool_name : string) (arguments : dict) : dict :=
  fst (execute_tool_traced tool_name arguments).

End Dispatch.

End Agent.

(** ** The calculators as keyword-argument functions

    [Calculators.TOOL_FUNCTIONS] is the registry of agent.py applied to a
    keyword dictionary.  The call first matches the keywords against the
    signature ([TypeError] for a missing or an unexpected keyword), then the
    values are read at the annotated types.  A value that is not a number
    raises [TypeError]; CPython raises it at the first comparison or
    arithmetic operation that touches the value, so when an earlier guard
    of the calculator returns first it answers with that guard's error
    dictionary instead.  A float with a fractional part in an [int]
    parameter is reported the same way: the exact model has no fractional
    exponent. *)
Module Calculators.

Import Json Agent.

Definition as_int (v : value) : option Z :=
  match v with
  | VBool b => Some (if b then 1 else 0)%Z
  | VInt z => Some z
  | VFloat q => if Qeq_bool q (inject_Z (Qfloor q)) then Some (Qfloor q) else None
  | _ => None
  end.

Definition check_signature (func : string) (params required : list string)
    (arguments : dict) : try unit :=
  match List.find (fun kv => negb (existsb (String.eqb (fst kv)) params)) arguments with
  | Some (k, _) =>
      Throw (TypeError (String.append func
        (String.append "() got an unexpected keyword argument " k)))
  | None =>
      match missing_params required arguments with
      | [] => Ok tt
      | missing =>
          Throw (TypeError (String.append func
            (String.append "() missing required positional arguments: "
               (String.concat ", " missing))))
      end
  end.

Definition arg_float (param : string) (arguments : dict) (default : option Q) : try Q :=
  match dict_get param arguments with
  | Some v =>
      match as_number v with
      | Some q => Ok q
      | None => Throw (TypeError (String.append "unsupported operand type: " param))
      end
  | None =>
      match default with
      | Some q => Ok q
      | None => Throw (KeyError param)
      end
  end.

Definition arg_int (param : string) (arguments : dict) : try Z :=
  match dict_get param arguments with
  | Some v =>
      match as_int v with
      | Some z => Ok z
      | None => Throw (TypeError (String.append "unsupported operand type: " param))
      end
  | None => Throw (KeyError param)
  end.

Definition emi_dict (f : Tools.emi_fields) : dict :=
  [ ("emi", VFloat (Tools.emi f));
    ("total_amount", VFloat (Tools.total_amount f));
    ("total_interest", VFloat (Tools.total_interest f));
    ("loan_amount", VFloat (Tools.emi_loan_amount f));
    ("interest_rate", VFloat (Tools.emi_interest_rate f));
    ("tenure_years", VInt (Tools.tenure_years f));
    ("tenure_months", VInt (Tools.tenure_months f)) ]%string.

Definition ltv_dict (f : Tools.ltv_fields) : dict :=
  [ ("ltv_ratio", VFloat (Tools.ltv_ratio f));
    ("loan_amount", VFloat (Tools.ltv_loan_amount f));
    ("max_loanable", VFloat (Tools.max_loanable f));
    ("min_down_payment_required", VFloat (Tools.min_down_payment_required f));
    ("is_valid", VBool (Tools.is_valid f));
    ("property_price", VFloat (Tools.ltv_property_price f));
    ("down_payment", VFloat (Tools.ltv_down_payment f));
    ("message", VStr (Tools.message f)) ]%string.

Definition upfront_dict (f : Tools.upfront_fields) : dict :=
  [ ("property_price", VFloat (Tools.upf_property_price f));
    ("transfer_fee", VFloat (Tools.transfer_fee f));
    ("agency_fee", VFloat (Tools.agency_fee f));
    ("misc_fee", VFloat (Tools.misc_fee f));
    ("total_upfront_costs", VFloat (Tools.total_upfront_costs f));
    ("percentage", VFloat (Tools.percentage f));
    ("total_with_costs", VFloat (Tools.total_with_costs f)) ]%string.

Definition payload_dict {A} (fields_dict : A -> dict) (p : Tools.payload A) : dict :=
  match p with
  | Tools.Failure e => error_result e
  | Tools.Success f => fields_dict f
  end.

Definition recommendation_str (r : Tools.recommendation_t) : string :=
  match r with
  | Tools.RENT => "RENT"
  | Tools.BUY => "BUY"
  end.

Definition bvr_dict (f : Tools.bvr_fields) : dict :=
  [ ("recommendation", VStr (recommendation_str (Tools.recommendation f)));
    ("reasoning", VList (List.map VStr (Tools.reasoning f)));
    ("monthly_rent", VFloat (Tools.bvr_monthly_rent f));
    ("monthly_ownership_cost", VFloat (Tools.monthly_ownership_cost f));
    ("monthly_interest", VFloat (Tools.monthly_interest f));
    ("maintenance_estimate", VFloat (Tools.maintenance_estimate f));
    ("emi", VFloat (Tools.bvr_emi f));
    ("affordability_ratio", VFloat (Tools.affordability_ratio f));
    ("is_affordable", VBool (Tools.is_affordable f));
    ("stay_years", VInt (Tools.bvr_stay_years f));
    ("upfront_costs", VFloat (Tools.upfront_costs f));
    ("ltv_details", VDict (ltv_dict (Tools.ltv_details f)));
    ("emi_details", VDict (emi_dict (Tools.emi_details f))) ]%string.

Definition bvr_outcome (r : Tools.bvr_result) : outcome :=
  match r with
  | Tools.BvrFailure e None => Returned (error_result e)
  | Tools.BvrFailure e (Some ltv_check) =>
      Returned [ ("error"%string, VStr e);
                 ("ltv_details"%string, VDict (payload_dict ltv_dict ltv_check)) ]
  | Tools.BvrSuccess f => Returned (bvr_dict f)
  | Tools.BvrKeyError key => Raised (KeyError key)
  end.

Definition finish (m : try outcome) : outcome :=
  match m with
  | Ok o => o
  | Throw e => Raised e
  end.

Definition call_calculate_emi (arguments : dict) : outcome :=
  finish (
    _ <- check_signature "calculate_emi"
           ["loan_amount"; "interest_rate"; "tenure_years"]%string
           ["loan_amount"; "interest_rate"; "tenure_years"]%string arguments ;;
    loan_amount <- arg_float "loan_amount" arguments None ;;
    interest_rate <- arg_float "interest_rate" arguments None ;;
    tenure_years <- arg_int "tenure_years" arguments ;;
    Ok (Returned (payload_dict emi_dict
          (Tools.calculate_emi loan_amount interest_rate tenure_years)))).

Definition call_check_ltv (arguments : dict) : outcome :=
  finish (
    _ <- check_signature "check_ltv"
           ["property_price"; "down_payment"]%string
           ["property_price"; "down_payment"]%string arguments ;;
    property_price <- arg_float "property_price" arguments None ;;
    down_payment <- arg_float "down_payment" arguments None ;;
    Ok (Returned (payload_dict ltv_dict (Tools.check_ltv property_price down_payment)))).

Definition call_calculate_upfront_costs (arguments : dict) : outcome :=
  finish (
    _ <- check_signature "calculate_upfront_costs"
           ["property_price"]%string ["property_price"]%string arguments ;;
    property_price <- arg_float "property_price" arguments None ;;
    Ok (Returned (payload_dict upfront_dict (Tools.calculate_upfront_costs property_price)))).

Definition call_buy_vs_rent_analysis (arguments : dict) : outcome :=
  finish (
    _ <- check_signature "buy_vs_rent_analysis"
           ["monthly_rent"; "property_price"; "stay_years"; "income";
            "down_payment"; "interest_rate"]%string
           ["monthly_rent"; "property_price"; "stay_years"; "income";
            "down_payment"]%string arguments ;;
    monthly_rent <- arg_float "monthly_rent" arguments None ;;
    property_price <- arg_float "property_price" arguments None ;;
    stay_years <- arg_int "stay_years" arguments ;;
    income <- arg_float "income" arguments None ;;
    down_payment <- arg_float "down_payment" arguments None ;;
    interest_rate <- arg_float "interest_rate" arguments (Some (45 # 10)%Q) ;;
    Ok (bvr_outcome (Tools.buy_vs_rent_analysis monthly_rent property_price stay_years
                       income down_payment interest_rate))).

Definition TOOL_FUNCTIONS (tool_name : string) (arguments : dict) : outcome :=
  if String.eqb tool_name "calculate_emi" then call_calculate_emi arguments
  else if String.eqb tool_name "check_ltv" then call_check_ltv arguments
  else if String.eqb tool_name "calculate_upfront_costs"
  then call_calculate_upfront_costs arguments
  else if String.eqb tool_name "buy_vs_rent_analysis"
  then call_buy_vs_rent_analysis arguments
  else Raised (KeyError tool_name).

End Calculators.

(** ** state.py: the in-memory session store *)
Module State.

Import Json.

Record stored_message := {
  role : string;
  content : string;
  timestamp : string
}.

Record session := {
  messages : list stored_message;
  created_at : string;
  user_data : dict
}.

(** [ConversationState.conversations] *)
Abbreviation conversations := (gmap string session).

(** A message of the chat history as the completion API takes it.  Tool
    turns carry [tool_call_id]; the assistant turn that requested tools
    carries [tool_calls]. *)
Record tool_call := {
  id : string;
  name : string;
  arguments : string
}.

Record message := {
  msg_role : string;
  msg_content : string;
  tool_call_id : option string;
  tool_calls : option (list tool_call)
}.

Definition plain_message (role content : string) : message :=
  {| msg_role := role; msg_content := content;
     tool_call_id := None; tool_calls := None |}.

(** [create_session]; [session_id] is the fresh [uuid4] and [now] the clock
    reading. *)
Definition create_session (session_id now : string) (store : conversations)
  : conversations * string :=
  (<[session_id := {| messages := []; created_at := now; user_data := [] |}]> store,
   session_id).

Definition add_message (session_id role content now : string) (store : conversations)
  : try conversations :=
  match store !! session_id with
  | None =>
      Throw (ValueError (String.append "Session "
               (String.append session_id " not found")))
  | Some s =>
      Ok (<[session_id :=
              {| messages := messages s ++
                   [{| role := role; content := content; timestamp := now |}];
                 created_at := created_at s;
                 user_data := user_data s |}]> store)
  end.

Definition get_history (session_id : string) (store : conversations) : list message :=
  match store !! session_id with
  | None => []
  | Some s => List.map (fun msg => plain_message (role msg) (content msg)) (messages s)
  end.

(** [d[key] = v]: an existing key keeps its place, a new key goes last. *)
Fixpoint dict_set (key : string) (v : value) (d : dict) : dict :=
  match d with
  | [] => [(key, v)]
  | (k, w) :: rest =>
      if String.eqb key k then (k, v) :: rest else (k, w) :: dict_set key v rest
  end.

(** [d.update(data)] *)
Definition dict_update (d data : dict) : dict :=
  fold_left (fun acc kv => dict_set (fst kv) (snd kv) acc) data d.

Definition update_user_data (session_id : string) (data : dict) (store : conversations)
  : try conversations :=
  match store !! session_id with
  | None =>
      Throw (ValueError (String.append "Session "
               (String.append session_id " not found")))
  | Some s =>
      Ok (<[session_id :=
              {| messages := messages s;
                 created_at := created_at s;
                 user_data := dict_update (user_data s) data |}]> store)
  end.

Definition get_user_data (session_id : string) (store : conversations) : dict :=
  match store !! session_id with
  | None => []
  | Some s => user_data s
  end.

Definition session_exists (session_id : string) (store : conversations) : bool :=
  bool_decide (is_Some (store !! session_id)).

End State.

(** ** main.py: argument coercion and the fallback formatter *)
Module Main.

Import Json Agent State.

Definition nl : string := String "010"%char EmptyString.

Definition contains_dot (s : string) : bool :=
  existsb (Ascii.eqb "."%char) (list_ascii_of_string s).

(** An entry of [tool_results_list]. *)
Record tool_result := {
  tool_name : string;
  tr_arguments : dict;
  result : dict
}.

(** What the generator yields. *)
Inductive event :=
| ContentEvent (content : string)
| DoneEvent
| ErrorEvent (content : string).

(** The message of a completion: [content] may be [None], [tool_calls] is
    empty when the model requested no tool. *)
Record completion := {
  completion_content : option string;
  completion_tool_calls : list tool_call
}.

(** [range(0, len(text), chunk_size)] and the slices taken at its indices. *)
Definition chunk_starts (chunk_size len : nat) : list nat :=
  List.map (fun k => k * chunk_size) (seq 0 ((len + chunk_size - 1) / chunk_size)).

Definition chunks (chunk_size : nat) (text : string) : list string :=
  List.map (fun i => String.substring i chunk_size text)
    (chunk_starts chunk_size (String.length text)).

(** [for x in v]: lists give their items, strings their characters,
    dictionaries their keys; other values are not iterable. *)
Definition iterate (v : value) : try (list value) :=
  match v with
  | VList items => Ok items
  | VStr s => Ok (List.map (fun c => VStr (String c EmptyString)) (list_ascii_of_string s))
  | VDict entries => Ok (List.map (fun kv => VStr (fst kv)) entries)
  | _ => Throw (TypeError "object is not iterable")
  end.

(** [f"{v:,.kf}"] and [f"{v:.kf}"]: numbers only. *)
Definition format_value (comma : bool) (ndigits : nat) (v : value) : try string :=
  match as_number v with
  | Some q => Ok (Py.format_f comma ndigits q)
  | None =>
      match v with
      | VStr _ => Throw (ValueError "Unknown format code 'f' for object of type 'str'")
      | _ => Throw (TypeError "unsupported format string passed to __format__")
      end
  end.

Section Formatter.

Variable py_str : value -> string.
Variable py_int : string -> option Z.
Variable py_float : string -> option Q.

(** One value of [convert_strings_to_numbers]: [py_int] and [py_float] are
    the built-ins [int] and [float] on a string, [None] for [ValueError]. *)
Fixpoint convert_value (v : value) : value :=
  match v with
  | VStr s =>
      if contains_dot s
      then match py_float s with Some q => VFloat q | None => VStr s end
      else match py_int s with Some z => VInt z | None => VStr s end
  | VDict entries =>
      VDict (List.map (fun kv => (fst kv, convert_value (snd kv))) entries)
  | _ => v
  end.

Definition convert_strings_to_numbers (data : dict) : dict :=
  List.map (fun kv => (fst kv, convert_value (snd kv))) data.

Definition format_emi (result : dict) : try (list string) :=
  let emi := dict_get_default "emi" (VInt 0) result in
  let total_amount := dict_get_default "total_amount" (VInt 0) result in
  let total_interest := dict_get_default "total_interest" (VInt 0) result in
  let loan_amount := dict_get_default "loan_amount" (VInt 0) result in
  let tenure_years := dict_get_default "tenure_years" (VInt 0) result in
  loan_s <- format_value true 0 loan_amount ;;
  emi_s <- format_value true 2 emi ;;
  total_s <- format_value true 2 total_amount ;;
  interest_s <- format_value true 2 total_interest ;;
  Ok [ "For a loan of " +:+ loan_s +:+ " AED at 4.5% interest over "
       +:+ py_str tenure_years +:+ " years:" +:+ nl +:+ nl
       +:+ "• Monthly EMI: " +:+ emi_s +:+ " AED" +:+ nl
       +:+ "• Total amount payable: " +:+ total_s +:+ " AED" +:+ nl
       +:+ "• Total interest: " +:+ interest_s +:+ " AED" ].

Definition format_ltv (result : dict) : try (list string) :=
  let ltv_ratio := dict_get_default "ltv_ratio" (VInt 0) result in
  let is_valid := dict_get_default "is_valid" (VBool false) result in
  let min_down_payment := dict_get_default "min_down_payment_required" (VInt 0) result in
  if truthy is_valid then
    ratio_s <- format_value false 1 ltv_ratio ;;
    Ok [ "Your LTV ratio is " +:+ ratio_s
         +:+ "%, which meets UAE expat requirements (maximum 80%)." ]
  else
    ratio_s <- format_value false 1 ltv_ratio ;;
    down_s <- format_value true 0 min_down_payment ;;
    Ok [ "Your LTV ratio is " +:+ ratio_s
         +:+ "%, which exceeds the 80% limit for expats. "
         +:+ "You'll need a minimum down payment of " +:+ down_s +:+ " AED." ].

Definition format_upfront (result : dict) : try (list string) :=
  let total_costs := dict_get_default "total_upfront_costs" (VInt 0) result in
  let property_price := dict_get_default "property_price" (VInt 0) result in
  price_s <- format_value true 0 property_price ;;
  costs_s <- format_value true 0 total_costs ;;
  Ok [ "For a property worth " +:+ price_s
       +:+ " AED, the upfront costs are approximately " +:+ costs_s +:+ " AED "
       +:+ "(7% of property price: 4% transfer fee, 2% agency fee, 1% miscellaneous)." ].

Definition format_bvr (result : dict) : try (list string) :=
  let recommendation := dict_get_default "recommendation" (VStr "") result in
  let reasoning := dict_get_default "reasoning" (VList []) result in
  let emi := dict_get_default "emi" (VInt 0) result in
  let head :=
    "Based on your situation, I recommend: **" +:+ py_str recommendation
    +:+ "**" +:+ nl +:+ nl in
  reasons <-
    (if truthy reasoning then
       items <- iterate reasoning ;;
       Ok [String.concat nl (List.map (fun r => "• " +:+ py_str r) items)]
     else Ok []) ;;
  emi_part <-
    (if truthy emi then
       emi_s <- format_value true 2 emi ;;
       Ok [nl +:+ nl +:+ "Your estimated monthly EMI would be " +:+ emi_s +:+ " AED."]
     else Ok []) ;;
  Ok (head :: reasons ++ emi_part).

(** The parts one entry of [tool_results] adds to [response_parts]. *)
Definition format_entry (entry : tool_result) : try (list string) :=
  if dict_has "error" (result entry) then Ok []
  else if String.eqb (tool_name entry) "calculate_emi" then format_emi (result entry)
  else if String.eqb (tool_name entry) "check_ltv" then format_ltv (result entry)
  else if String.eqb (tool_name entry) "calculate_upfront_costs"
  then format_upfront (result entry)
  else if String.eqb (tool_name entry) "buy_vs_rent_analysis"
  then format_bvr (result entry)
  else Ok [].

Fixpoint response_parts (tool_results : list tool_result) : try (list string) :=
  match tool_results with
  | [] => Ok []
  | entry :: rest =>
      parts <- format_entry entry ;;
      more <- response_parts rest ;;
      Ok (parts ++ more)
  end.

Definition format_tool_results_response (tool_results : list tool_result) : try string :=
  match tool_results with
  | [] => Ok EmptyString
  | _ =>
      parts <- response_parts tool_results ;;
      Ok (String.concat (nl +:+ nl) parts)
  end.

End Formatter.

(** ** main.py: the orchestration loop *)
Section Orchestration.

Variable py_str : value -> string.
Variable exn_str : exn -> string.
Variable invoke : string -> dict -> outcome.
Variable py_int : string -> option Z.
Variable py_float : string -> option Q.
(** [json.loads], [None] for [JSONDecodeError]; [json.dumps]. *)
Variable json_loads : string -> option value.
Variable json_dumps : dict -> string.
(** The completion request sent with the transcript: the first choice's
    message, or the exception of a failed call. *)
Variable trace_groq_call : list message -> try completion.
Variable SYSTEM_PROMPT : string.

Definition max_iterations : nat := 5.
Definition chunk_size : nat := 10.

Definition basic_response : string :=
  "I've calculated the information you requested. Please let me know if you need any clarification.".

(** The local variables of [stream_chat_response] that the loop updates,
    the events yielded so far, and the transcripts sent to the model so far
    (oldest first). *)
Record loop_state := {
  messages : list message;
  full_response : string;
  tool_results_list : list tool_result;
  events : list event;
  iteration : nat;
  requests : list (list message)
}.

(** Two states at the same point of the loop: same iteration count, same
    requests sent. *)
Definition same_progress (st st' : loop_state) : Prop :=
  iteration st' = iteration st /\ requests st' = requests st.

(** [json.loads] followed by [convert_strings_to_numbers]; a decode error
    gives the empty dictionary, a JSON value that is not an object has no
    [items]. *)
Definition parse_arguments (raw : string) : try dict :=
  match json_loads raw with
  | None => Ok []
  | Some (VDict data) => Ok (convert_strings_to_numbers py_int py_float data)
  | Some _ => Throw (AttributeError "object has no attribute 'items'")
  end.

(** The first [for] loop: [valid_tool_calls] and [invalid_tool_calls]. *)
Fixpoint classify (calls : list tool_call)
  : try (list (tool_call * dict) * list (tool_call * dict * string)) :=
  match calls with
  | [] => Ok ([], [])
  | call :: rest =>
      args <- parse_arguments (arguments call) ;;
      later <- classify rest ;;
      let '(is_valid, error_msg) := validate_tool_arguments py_str (name call) args in
      Ok (if is_valid
          then ((call, args) :: fst later, snd later)
          else (fst later, (call, args, error_msg) :: snd later))
  end.

Definition skipped_result (error_msg : string) : dict :=
  [("error"%string, VStr error_msg); ("skipped"%string, VBool true)].

Definition tool_message (call : tool_call) (body : dict) : message :=
  {| msg_role := "tool"; msg_content := json_dumps body;
     tool_call_id := Some (id call); tool_calls := None |}.

Definition assistant_tool_message (assistant_content : string)
    (tool_calls_data : list tool_call) : message :=
  {| msg_role := "assistant"; msg_content := assistant_content;
     tool_call_id := None; tool_calls := Some tool_calls_data |}.

(** The results of the second [for] loop, one per valid call. *)
Definition executed (valid : list (tool_call * dict)) : list (tool_call * dict * dict) :=
  List.map (fun ca => (fst ca, snd ca, execute_tool py_str exn_str invoke (name (fst ca)) (snd ca)))
    valid.

(** The branch [if message.tool_calls:] after the first content event. *)
Definition run_tools (assistant_content : string) (calls : list tool_call)
    (st : loop_state) : try loop_state :=
  sorted <- classify calls ;;
  let valid := fst sorted in
  let invalid := snd sorted in
  let skipped_entries :=
    List.map (fun cam => {| tool_name := name (fst (fst cam));
                            tr_arguments := snd (fst cam);
                            result := skipped_result (snd cam) |}) invalid in
  let executed_entries :=
    List.map (fun car => {| tool_name := name (fst (fst car));
                            tr_arguments := snd (fst car);
                            result := snd car |}) (executed valid) in
  let tool_calls_data :=
    List.map fst valid ++ List.map (fun cam => fst (fst cam)) invalid in
  let tool_messages :=
    List.map (fun car => tool_message (fst (fst car)) (snd car)) (executed valid)
    ++ List.map (fun cam => tool_message (fst (fst cam)) (skipped_result (snd cam))) invalid in
  let assistant_messages :=
    match tool_calls_data with
    | [] => []
    | _ => [assistant_tool_message assistant_content tool_calls_data]
    end in
  Ok {| messages := messages st ++ tool_messages ++ assistant_messages;
        full_response := full_response st;
        tool_results_list := tool_results_list st ++ skipped_entries ++ executed_entries;
        events := events st;
        iteration := iteration st;
        requests := requests st |}.

(** Yield [text] as one event and add it to [full_response]. *)
Definition say (text : string) (st : loop_state) : loop_state :=
  {| messages := messages st;
     full_response := full_response st +:+ text;
     tool_results_list := tool_results_list st;
     events := events st ++ [ContentEvent text];
     iteration := iteration st;
     requests := requests st |}.

(** Yield [text] in slices of [chunk_size] characters, adding each to
    [full_response]. *)
Definition say_chunks (text : string) (st : loop_state) : loop_state :=
  fold_left (fun acc chunk => say chunk acc) (chunks chunk_size text) st.

Definition say_if_any (text : string) (say_it : string -> loop_state -> loop_state)
    (st : loop_state) : loop_state :=
  if String.eqb text "" then st else say_it text st.

Inductive step :=
| Continue (st : loop_state)
| Break (st : loop_state)
| Fault (st : loop_state) (e : exn).

(** One iteration of the [while] loop. *)
Definition loop_body (st : loop_state) : step :=
  let st :=
    {| messages := messages st;
       full_response := full_response st;
       tool_results_list := tool_results_list st;
       events := events st;
       iteration := S (iteration st);
       requests := requests st ++ [messages st] |} in
  match trace_groq_call (messages st) with
  | Throw e => Fault st e
  | Ok reply =>
      let assistant_content := default EmptyString (completion_content reply) in
      match completion_tool_calls reply with
      | [] => Break (say_if_any assistant_content say_chunks st)
      | calls =>
          let st := say_if_any assistant_content say st in
          match run_tools assistant_content calls st with
          | Ok st' => Continue st'
          | Throw e => Fault st e
          end
      end
  end.

Inductive loop_result :=
| Finished (st : loop_state)
| Faulted (st : loop_state) (e : exn).

Definition result_state (r : loop_result) : loop_state :=
  match r with
  | Finished st => st
  | Faulted st _ => st
  end.

(** [while iteration < max_iterations]; [None] when [fuel] runs out. *)
Fixpoint while_loop (fuel : nat) (st : loop_state) : option loop_result :=
  if iteration st <? max_iterations then
    match fuel with
    | O => None
    | S fuel' =>
        match loop_body st with
        | Continue st' => while_loop fuel' st'
        | Break st' => Some (Finished st')
        | Fault st' e => Some (Faulted st' e)
        end
    end
  else Some (Finished st).

Definition error_event (e : exn) : event :=
  ErrorEvent ("Error processing chat: " +:+ exn_str e).

Definition with_system_prompt (history : list message) : list message :=
  match history with
  | [] => [plain_message "system" SYSTEM_PROMPT]
  | first :: _ =>
      if String.eqb (msg_role first) "system" then history
      else plain_message "system" SYSTEM_PROMPT :: history
  end.

(** The statements after the loop: the fallback formatter, the save of the
    reply and the done signal. *)
Definition finalize (session_id now : string) (store : conversations)
    (st : loop_state) : conversations * list event :=
  let formatted :=
    if String.eqb (full_response st) ""
    then match tool_results_list st with
         | [] => Ok st
         | results =>
             text <- format_tool_results_response py_str results ;;
             Ok (say_if_any text say_chunks st)
         end
    else Ok st in
  match formatted with
  | Throw e => (store, events st ++ [error_event e])
  | Ok st =>
      if negb (String.eqb (full_response st) "") then
        match add_message session_id "assistant" (full_response st) now store with
        | Ok store' => (store', events st ++ [DoneEvent])
        | Throw e => (store, events st ++ [error_event e])
        end
      else
        match tool_results_list st with
        | [] => (store, events st ++ [DoneEvent])
        | _ =>
            match add_message session_id "assistant" basic_response now store with
            | Ok store' => (store', events st ++ [ContentEvent basic_response; DoneEvent])
            | Throw e => (store, events st ++ [error_event e])
            end
        end
  end.

Definition initial_state (transcript : list message) : loop_state :=
  {| messages := transcript;
     full_response := EmptyString;
     tool_results_list := [];
     events := [];
     iteration := 0;
     requests := [] |}.

(** [stream_chat_response]: the store after the call and the events
    yielded, in order.  [now_user] and [now_reply] are the clock readings
    of the two [add_message] calls. *)
Definition stream_chat_response_fuel (fuel : nat)
    (session_id user_message now_user now_reply : string) (store : conversations)
  : option (conversations * list event) :=
  match add_message session_id "user" user_message now_user store with
  | Throw e => Some (store, [error_event e])
  | Ok store =>
      let transcript := with_system_prompt (get_history session_id store) in
      match while_loop fuel (initial_state transcript) with
      | None => None
      | Some (Faulted st e) => Some (store, events st ++ [error_event e])
      | Some (Finished st) => Some (finalize session_id now_reply store st)
      end
  end.

Definition stream_chat_response :=
  stream_chat_response_fuel max_iterations.

(** The text of the model's reply to a transcript (empty when it has none
    or the call fails). *)
Definition reply_text (transcript : list message) : string :=
  match trace_groq_call transcript with
  | Ok reply => default EmptyString (completion_content reply)
  | Throw _ => EmptyString
  end.

(** The reply that closes a call, read off the state the loop ends in: the
    accumulated text of the model if there is any; otherwise, when tools
    were requested, the summary of their results, or the generic notice if
    that summary is empty; otherwise no reply at all. *)
Definition expected_reply (st : loop_state) : try (option string) :=
  if negb (String.eqb (full_response st) "") then Ok (Some (full_response st))
  else
    match tool_results_list st with
    | [] => Ok None
    | results =>
        summary <- format_tool_results_response py_str results ;;
        Ok (Some (if String.eqb summary "" then basic_response else summary))
    end.

End Orchestration.

End Main.

(** ** main.py: the HTTP endpoints *)
Module Endpoints.

Import Json Agent State Main.

(** What an endpoint answers: a response body or an [HTTPException]. *)
Inductive http (A : Type) : Type :=
| Response (body : A)
| HTTPException (status_code : nat) (detail : string).
Arguments Response {A} body.
Arguments HTTPException {A} status_code detail.

(** The file [leads.json] as [capture_lead] can find it: absent, not
    readable as JSON, or holding a JSON value. *)
Inductive leads_file :=
| Absent
| Unreadable
| Stored (content : value).

(** The dictionary [lead_data]. *)
Definition lead_data (session_id name email phone created : string) : value :=
  VDict [ ("session_id", VStr session_id);
          ("name", VStr name);
          ("email", VStr email);
          ("phone", VStr phone);
          ("captured_at", VStr created) ]%string.

(** What a call of [capture_lead] ends in, with the file it leaves: an
    answer, or the [AttributeError] of [leads.append] on a JSON value that
    is no list. *)
Inductive lead_outcome :=
| Answered (answer : http (bool * string)) (file : leads_file)
| Unhandled (e : exn) (file : leads_file).

(** [capture_lead]; when writing [leads.json] raises [IOError],
    [write_failure] is its message and what the failed write left of the
    file. *)
Definition capture_lead (session_id name email phone : string)
    (store : conversations) (file : leads_file)
    (write_failure : option (string * leads_file))
  : lead_outcome :=
  match store !! session_id with
  | None => Answered (HTTPException 404 "Session not found") file
  | Some s =>
      let loaded :=
        match file with
        | Absent | Unreadable => Ok []
        | Stored (VList leads) => Ok leads
        | Stored _ => Throw (AttributeError "object has no attribute 'append'")
        end in
      match loaded with
      | Throw e => Unhandled e file
      | Ok leads =>
          match write_failure with
          | None =>
              Answered (Response (true, "Lead captured successfully"%string))
                (Stored (VList (leads ++
                   [lead_data session_id name email phone (created_at s)])))
          | Some (e, remains) =>
              Answered (HTTPException 500 (String.append "Failed to save lead: " e)) remains
          end
      end
  end.

Section Chat.

Variable py_str : value -> string.
Variable exn_str : exn -> string.
Variable invoke : string -> dict -> outcome.
Variable py_int : string -> option Z.
Variable py_float : string -> option Q.
Variable json_loads : string -> option value.
Variable json_dumps : dict -> string.
Variable trace_groq_call : list message -> try completion.
Variable SYSTEM_PROMPT : string.

(** [create_new_session]; [session_id] is the fresh identifier. *)
Definition create_new_session (session_id now : string) (store : conversations)
  : conversations * string :=
  create_session session_id now store.

(** [chat]: the session check, then the event stream of
    [stream_chat_response]. *)
Definition chat (session_id message now_user now_reply : string)
    (store : conversations) : http (option (conversations * list event)) :=
  if session_exists session_id store
  then Response
         (stream_chat_response py_str exn_str invoke py_int py_float json_loads
            json_dumps trace_groq_call SYSTEM_PROMPT
            session_id message now_user now_reply store)
  else HTTPException 404 "Session not found".

End Chat.

End Endpoints.

(** ** A concrete environment

    Stand-ins for the Python built-ins and the model service, used to
    evaluate the functions above on concrete inputs. *)
Module Sample.

Import Json Agent State Main.

(** [str(value)] for the scalar values; floats are shown with two decimals
    and containers are elided. *)
Definition py_str (v : value) : string :=
  match v with
  | VNone => "None"
  | VBool true => "True"
  | VBool false => "False"
  | VInt z => pretty z
  | VFloat q => Py.format_f false 2 q
  | VStr s => s
  | VList _ => "[...]"
  | VDict _ => "{...}"
  end.

Definition exn_str (e : exn) : string :=
  match e with
  | TypeError detail | ValueError detail | AttributeError detail
  | UpstreamError detail => detail
  | KeyError key => "'" +:+ key +:+ "'"
  end.

Definition py_int (s : string) : option Z := None.
Definition py_float (s : string) : option Q := None.

Definition dq : string := String (ascii_of_nat 34) EmptyString.
Definition quote (s : string) : string := dq +:+ s +:+ dq.

(** The argument texts of two tool requests. *)
Definition emi_args_text : string :=
  "{" +:+ quote "loan_amount" +:+ ": 100000, " +:+ quote "interest_rate"
  +:+ ": 12, " +:+ quote "tenure_years" +:+ ": 1}".

Definition ltv_zero_args_text : string :=
  "{" +:+ quote "property_price" +:+ ": 0, " +:+ quote "down_payment" +:+ ": 300000}".

(** [json.loads] on the two texts above; any other text is a decode error. *)
Definition json_loads (raw : string) : option value :=
  if String.eqb raw emi_args_text
  then Some (VDict [ ("loan_amount", VInt 100000);
                     ("interest_rate", VInt 12);
                     ("tenure_years", VInt 1) ]%string)
  else if String.eqb raw ltv_zero_args_text
  then Some (VDict [ ("property_price", VInt 0);
                     ("down_payment", VInt 300000) ]%string)
  else None.

Definition json_dumps (d : dict) : string :=
  "{" +:+ String.concat ", "
            (List.map (fun kv => quote (fst kv) +:+ ": " +:+ py_str (snd kv)) d)
  +:+ "}".

Definition SYSTEM_PROMPT : string := "You are a mortgage advisor.".

(** A model that answers from a script: the reply is chosen by the number
    of tool passes already in the transcript; past the end of the script
    the call fails. *)
Definition scripted (script : list completion) (transcript : list message)
  : try completion :=
  let passes :=
    List.length (List.filter (fun m => match tool_calls m with
                                       | Some _ => true
                                       | None => false
                                       end) transcript) in
  match nth_error script passes with
  | Some reply => Ok reply
  | None => Throw (UpstreamError "service unavailable")
  end.

(** A model that requests the same tool on every round trip. *)
Definition insistent (request : tool_call) (transcript : list message) : try completion :=
  Ok {| completion_content := None; completion_tool_calls := [request] |}.

Definition emi_request : tool_call :=
  {| id := "call_1"; name := "calculate_emi"; arguments := emi_args_text |}.

Definition ltv_zero_request : tool_call :=
  {| id := "call_2"; name := "check_ltv"; arguments := ltv_zero_args_text |}.

(** The model requests two tools, then answers in text. *)
Definition tools_then_text : list completion :=
  [ {| completion_content := None;
       completion_tool_calls := [emi_request; ltv_zero_request] |};
    {| completion_content := Some "Your EMI is 8,884.88 AED."%string;
       completion_tool_calls := [] |} ].

(** The model requests a tool, then answers with no text. *)
Definition tools_then_silence : list completion :=
  [ {| completion_content := None; completion_tool_calls := [emi_request] |};
    {| completion_content := None; completion_tool_calls := [] |} ].

(** The model requests a tool that is skipped, then answers with no text. *)
Definition skipped_then_silence : list completion :=
  [ {| completion_content := None; completion_tool_calls := [ltv_zero_request] |};
    {| completion_content := None; completion_tool_calls := [] |} ].

(** The model answers with no text and requests no tool. *)
Definition silence : list completion :=
  [ {| completion_content := None; completion_tool_calls := [] |} ].

(** The model says something while requesting a tool, then answers. *)
Definition text_with_tools_then_text : list completion :=
  [ {| completion_content := Some "Let me check."%string;
       completion_tool_calls := [emi_request] |};
    {| completion_content := Some "Done."%string; completion_tool_calls := [] |} ].

Definition opening : list message :=
  [plain_message "system" SYSTEM_PROMPT; plain_message "user" "What is my EMI?"].

Definition run_tools (assistant_content : string) (calls : list tool_call)
    (st : loop_state) : try loop_state :=
  Main.run_tools py_str exn_str Calculators.TOOL_FUNCTIONS py_int py_float
    json_loads json_dumps assistant_content calls st.

Definition one_session : gmap string session :=
  fst (create_session "s1" "t0" ∅).

Definition run_loop (llm : list message -> try completion) (transcript : list message)
  : option loop_result :=
  while_loop py_str exn_str Calculators.TOOL_FUNCTIONS py_int py_float
    json_loads json_dumps llm max_iterations (initial_state transcript).

Definition chat (llm : list message -> try completion) (user_message : string)
  : option (gmap string session * list event) :=
  stream_chat_response py_str exn_str Calculators.TOOL_FUNCTIONS py_int py_float
    json_loads json_dumps llm SYSTEM_PROMPT "s1" user_message "t1" "t2" one_session.

(** A stand-in for the C library's [pow], for the examples whose evaluation
    does not reach it. *)
Definition libm_pow (x y : float) : float := nan.

End Sample.

(** * Properties *)

(** ** Worked values *)

Example round_ties_to_even :
  Py.round (1 # 8) 2 = (12 # 100)%Q /\ Py.round (3 # 8) 2 = (38 # 100)%Q.
Proof. split; reflexivity. Qed.

Example format_f_examples :
  Py.format_f true 0 (1234567 # 1) = "1,234,567"%string /\
  Py.format_f true 2 (555832 # 100) = "5,558.32"%string /\
  Py.format_f false 1 (8504 # 100) = "85.0"%string /\
  Py.format_f false 2 (- (1 # 1000)) = "-0.00"%string /\
  Py.format_f true 0 (5 # 2) = "2"%string.
Proof. repeat split; vm_compute; reflexivity. Qed.

Example emi_one_year :
  match Tools.calculate_emi 100000 12 1 with
  | Tools.Success f =>
      Tools.emi f = (888488 # 100)%Q /\
      Tools.total_amount f = (10661855 # 100)%Q /\
      Tools.total_interest f = (661855 # 100)%Q
  | Tools.Failure _ => False
  end.
Proof. vm_compute. repeat split. Qed.

Example ltv_scenario :
  match Tools.check_ltv 2000000 300000 with
  | Tools.Success f =>
      Tools.ltv_ratio f = (8500 # 100)%Q /\ Tools.is_valid f = false /\
      Tools.min_down_payment_required f = (40000000 # 100)%Q /\
      Tools.message f =
        "LTV exceeds 80%. Minimum down payment required: 400,000 AED"%string
  | Tools.Failure _ => False
  end.
Proof. vm_compute. repeat split. Qed.

Example upfront_scenario :
  match Tools.calculate_upfront_costs 1500000 with
  | Tools.Success f => Tools.total_upfront_costs f = (10500000 # 100)%Q
  | Tools.Failure _ => False
  end.
Proof. vm_compute. reflexivity. Qed.

(** ** Rounding *)
Section Rounding.

Local Open Scope Q_scope.

Lemma round_half_even_comp (x y : Q) :
  x == y -> Py.round_half_even x = Py.round_half_even y.
Proof.
  intros E. unfold Py.round_half_even.
  rewrite (Qfloor_comp _ _ E).
  assert (C : (x - inject_Z (Qfloor y) ?= 1 # 2) = (y - inject_Z (Qfloor y) ?= 1 # 2)).
  { apply Qcompare_comp; [rewrite E|]; reflexivity. }
  rewrite C. reflexivity.
Qed.

Lemma round_comp (x y : Q) (ndigits : nat) :
  x == y -> Py.round x ndigits = Py.round y ndigits.
Proof.
  intros E. unfold Py.round. f_equal.
  apply round_half_even_comp. rewrite E. reflexivity.
Qed.

(** The rounded integer is within one half of the argument. *)
Lemma round_half_even_error (x : Q) :
  Qabs (inject_Z (Py.round_half_even x) - x) <= 1 # 2.
Proof.
  unfold Py.round_half_even.
  pose proof (Qfloor_le x) as Hlo.
  pose proof (Qlt_floor x) as Hhi.
  rewrite inject_Z_plus in Hhi. change (inject_Z 1) with 1 in Hhi.
  apply Qabs_Qle_condition.
  destruct (Qcompare_spec (x - inject_Z (Qfloor x)) (1 # 2)) as [E | L | G].
  - destruct (Z.even (Qfloor x)).
    + split; lra.
    + rewrite inject_Z_plus. change (inject_Z 1) with 1. split; lra.
  - split; lra.
  - rewrite inject_Z_plus. change (inject_Z 1) with 1. split; lra.
Qed.

(** [round(x, 2)] is within half a cent of [x]. *)
Lemma round2_error (x : Q) : Qabs (Py.round x 2 - x) <= 1 # 200.
Proof.
  unfold Py.round.
  change (Py.pow10 2) with 100%positive.
  pose proof (round_half_even_error (x * inject_Z 100)) as H.
  apply Qabs_Qle_condition in H. destruct H as [H1 H2].
  set (z := Py.round_half_even (x * inject_Z 100)) in *.
  assert (Ez : z # 100 == inject_Z z / 100).
  { unfold Qeq, Qdiv, Qmult, Qinv, inject_Z. simpl. lia. }
  apply Qabs_Qle_condition. rewrite Ez.
  change (inject_Z 100) with 100 in *.
  assert (D : inject_Z z == inject_Z z / 100 * 100) by field.
  rewrite D in H1, H2.
  split; lra.
Qed.

(** A rounded amount is a whole number of hundredths. *)
Lemma round2_hundredths (x : Q) :
  Py.round x 2 * 100 == inject_Z (Py.round_half_even (x * 100)).
Proof.
  unfold Py.round. change (Py.pow10 2) with 100%positive.
  change (inject_Z 100) with 100.
  unfold Qeq, Qmult, inject_Z. simpl. lia.
Qed.

End Rounding.

(** ** Calculators *)
Section CalculatorFacts.

Local Open Scope Q_scope.
Import Tools.

Lemma Qle_bool_false (x y : Q) : Qle_bool x y = false <-> y < x.
Proof.
  split; intros H.
  - apply Qnot_le_lt. intros L. apply Qle_bool_iff in L. congruence.
  - destruct (Qle_bool x y) eqn:E; [|reflexivity].
    apply Qle_bool_iff in E. lra.
Qed.


Lemma Qlt_bool_false (x y : Q) : Py.Qlt_bool x y = false <-> y <= x.
Proof.
  unfold Py.Qlt_bool. rewrite negb_false_iff. apply Qle_bool_iff.
Qed.


(** The guards of [buy_vs_rent_analysis] leave no path to the [KeyError]. *)
Lemma buy_vs_rent_no_key_error (R V : Q) (y : Z) (I D r : Q) (key : string) :
  buy_vs_rent_analysis R V y I D r <> BvrKeyError key.
Proof.
  unfold buy_vs_rent_analysis.
  destruct (Qle_bool R 0); [discriminate|].
  destruct (Qle_bool V 0) eqn:GV; [discriminate|].
  destruct (y <=? 0)%Z; [discriminate|].
  destruct (Qle_bool I 0); [discriminate|].
  destruct (check_ltv V D) as [|ltv]; [discriminate|].
  destruct (negb (is_valid ltv)); [discriminate|].
  destruct (calculate_emi (V - D) r 25) as [|emi_result]; [discriminate|].
  unfold calculate_upfront_costs. rewrite GV.
  repeat match goal with
         | |- context [if ?c then _ else _] => destruct c
         end; discriminate.
Qed.





End CalculatorFacts.

(** * The calculators in binary64 *)
Section Binary64Facts.

Import Py64 Tools64.

Lemma Qcompare_inject_Z (a b : Z) : Qcompare (inject_Z a) (inject_Z b) = Z.compare a b.
Proof. unfold Qcompare. cbn. rewrite !Z.mul_1_r. reflexivity. Qed.

(** Swapping the operands of a comparison swaps its outcome. *)
Lemma compare_antisym (a b : num) : compare b a = option_map CompOpp (compare a b).
Proof.
  unfold compare.
  destruct (value_of a) as [| [|] | p], (value_of b) as [| [|] | q]; try reflexivity.
  cbn [option_map]. rewrite <- Qcompare_antisym. reflexivity.
Qed.

Lemma lt_excludes (a b : num) :
  lt a b = true -> le b a = false /\ ge a b = false /\ eq b a = false.
Proof.
  unfold lt, le, ge, eq. rewrite (compare_antisym a b).
  destruct (compare a b) as [[| |]|]; try discriminate. repeat split.
Qed.

Lemma le_excludes (a b : num) : le a b = true -> lt b a = false.
Proof.
  unfold lt, le. rewrite (compare_antisym a b).
  destruct (compare a b) as [[| |]|]; try discriminate; reflexivity.
Qed.

Lemma int_lt (a b : Z) : lt (Int a) (Int b) = true <-> (a < b)%Z.
Proof.
  unfold lt, compare. cbn [value_of]. rewrite Qcompare_inject_Z. unfold Z.lt.
  destruct (a ?= b)%Z; split; congruence.
Qed.

Lemma int_le (a b : Z) : le (Int a) (Int b) = true <-> (a <= b)%Z.
Proof.
  unfold le, compare. cbn [value_of]. rewrite Qcompare_inject_Z. unfold Z.le.
  destruct (a ?= b)%Z; split; congruence.
Qed.

Lemma int_gt (a b : Z) : gt (Int a) (Int b) = true <-> (b < a)%Z.
Proof.
  unfold gt, compare. cbn [value_of]. rewrite Qcompare_inject_Z.
  rewrite <- Z.compare_gt_iff.
  destruct (a ?= b)%Z; split; congruence.
Qed.

(** The quotient of two [int]s, the first not above the second, is within
    the float range. *)
Lemma small_quotient (x y : Z) :
  (0 < x <= y)%Z ->
  Qle_bool (inject_Z overflow_threshold) (Qabs (inject_Z x / inject_Z y)) = false.
Proof.
  intros [Hx Hxy]. apply Qle_bool_false.
  assert (Hy : (0 < inject_Z y)%Q) by (unfold Qlt; cbn; lia).
  assert (Hq : (0 <= inject_Z x / inject_Z y)%Q).
  { apply Qle_shift_div_l; [exact Hy|]. unfold Qle. cbn. lia. }
  rewrite (Qabs_pos _ Hq).
  apply Qle_lt_trans with (y := 1%Q).
  - apply Qle_shift_div_r; [exact Hy|]. unfold Qle. cbn. lia.
  - vm_compute. reflexivity.
Qed.

(** Operations with a float operand, once the other operand is converted. *)
Lemma arith_float_l (int_op : Z -> Z -> Z) (float_op : float -> float -> float)
    (x : float) (b : num) (y : float) :
  to_float b = Value y ->
  arith int_op float_op (Float x) b = Value (Float (float_op x y)).
Proof. intros Hb. unfold arith. rewrite Hb. reflexivity. Qed.

Lemma arith_float_r (int_op : Z -> Z -> Z) (float_op : float -> float -> float)
    (a : num) (x y : float) :
  to_float a = Value x ->
  arith int_op float_op a (Float y) = Value (Float (float_op x y)).
Proof. intros Ha. unfold arith. destruct a; rewrite Ha; reflexivity. Qed.

Lemma truediv_float_l (x : float) (b : num) (y : float) :
  to_float b = Value y -> eq b (Int 0) = false ->
  truediv (Float x) b = Value (x / y)%float.
Proof.
  intros Hb Hzero. unfold truediv. rewrite Hb. cbn [to_float bind].
  rewrite Hzero. reflexivity.
Qed.

(** Formatting a float raises nothing. *)
Lemma format_f_float (comma : bool) (ndigits : nat) (x : float) :
  exists text, format_f comma ndigits (Float x) = Value text.
Proof. unfold format_f. cbn [to_float bind]. eexists. reflexivity. Qed.

(** The payload of [check_ltv] for a price above 0 and a down payment from
    0 up to, but not including, the price. *)
Lemma check_ltv_payload (V D : num) (v d : float) :
  to_float V = Value v -> to_float D = Value d ->
  lt (Int 0) V = true -> le (Int 0) D = true -> lt D V = true ->
  exists loan quotient amount,
    sub V D = Value loan /\
    truediv loan V = Value quotient /\
    format_f true 0 (Float (v - v * 0.8)) = Value amount /\
    check_ltv V D
    = Value (Tools.Success {|
        ltv_ratio := round (Float (quotient * 100)) 2;
        ltv_loan_amount := round loan 2;
        max_loanable := round (Float (v * 0.8)) 2;
        min_down_payment_required := round (Float (v - v * 0.8)) 2;
        is_valid := le (Float (quotient * 100)) (Int 80);
        ltv_property_price := V;
        ltv_down_payment := D;
        message :=
          if le (Float (quotient * 100)) (Int 80) then "Valid"%string
          else String.append "LTV exceeds 80%. Minimum down payment required: "
                 (String.append amount " AED")
      |}).
Proof.
  intros Hv Hd HV HD HDV.
  destruct (lt_excludes _ _ HV) as (G1 & _ & Hzero).
  pose proof (le_excludes _ _ HD) as G2.
  destruct (lt_excludes _ _ HDV) as (_ & G3 & _).
  assert (Hloan : exists loan, sub V D = Value loan /\
            exists quotient, truediv loan V = Value quotient).
  { destruct V as [zv | xv], D as [zd | xd].
    - eexists. split; [reflexivity|]. cbn [truediv].
      apply int_lt in HV, HDV. apply int_le in HD.
      destruct (Z.eqb_spec zv 0) as [E | _]; [lia|].
      rewrite small_quotient by lia. eauto.
    - eexists. split; [apply (arith_float_r _ _ _ _ _ Hv)|].
      eexists. apply (truediv_float_l _ _ _ Hv Hzero).
    - eexists. split; [apply (arith_float_l _ _ _ _ _ Hd)|].
      eexists. apply (truediv_float_l _ _ _ Hv Hzero).
    - eexists. split; [apply (arith_float_l _ _ _ _ _ Hd)|].
      eexists. apply (truediv_float_l _ _ _ Hv Hzero). }
  destruct Hloan as (loan & Hsub & quotient & Hdiv).
  destruct (format_f_float true 0 (v - v * 0.8)) as [amount Hamount].
  exists loan, quotient, amount.
  split; [exact Hsub|]. split; [exact Hdiv|]. split; [exact Hamount|].
  unfold check_ltv. rewrite G1, G2, G3, Hsub. cbn [bind]. rewrite Hdiv. cbn [bind].
  change (mul (Float quotient) (Int 100)) with (Value (Float (quotient * 100))).
  cbn [bind].
  change (truediv (Int 80) (Int 100)) with (Value 0.8%float). cbn [bind].
  assert (Hmax : mul V (Float 0.8) = Value (Float (v * 0.8))).
  { apply (arith_float_r _ _ _ _ _ Hv). }
  rewrite Hmax. cbn [bind].
  assert (Hmin : sub V (Float (v * 0.8)) = Value (Float (v - v * 0.8))).
  { apply (arith_float_r _ _ _ _ _ Hv). }
  rewrite Hmin. cbn [bind]. rewrite Hamount.
  destruct (le (Float (quotient * 100)) (Int 80)); reflexivity.
Qed.

(** C5, as the code computes it.  For a price above 0 and a down payment
    from 0 up to, but not including, the price (each a float, or an int
    that a float can hold), [check_ltv] returns a success payload in which,
    every operation being Python's: [ltv_ratio] is [(V - D) / V * 100]
    rounded to 2 places; [is_valid] holds exactly when that product, before
    rounding, is at most 80; [max_loanable] is [V * 0.8] rounded to 2
    places and [min_down_payment_required] is [V - V * 0.8] rounded to 2
    places, where [0.8] is the float [80 / 100]. *)
Theorem check_ltv_binary64 (V D : num) (v d : float) :
  to_float V = Value v -> to_float D = Value d ->
  lt (Int 0) V = true -> le (Int 0) D = true -> lt D V = true ->
  exists loan quotient f,
    sub V D = Value loan /\
    truediv loan V = Value quotient /\
    check_ltv V D = Value (Tools.Success f) /\
    ltv_ratio f = round (Float (quotient * 100)) 2 /\
    (is_valid f = true <-> le (Float (quotient * 100)) (Int 80) = true) /\
    max_loanable f = round (Float (v * 0.8)) 2 /\
    min_down_payment_required f = round (Float (v - v * 0.8)) 2.
Proof.
  intros Hv Hd HV HD HDV.
  destruct (check_ltv_payload V D v d Hv Hd HV HD HDV)
    as (loan & quotient & amount & Hsub & Hdiv & _ & Hpayload).
  exists loan, quotient. eexists.
  split; [exact Hsub|]. split; [exact Hdiv|]. split; [exact Hpayload|].
  cbn [ltv_ratio is_valid max_loanable min_down_payment_required].
  repeat split; auto.
Qed.

Lemma tenure_in_range (n : Z) :
  (1 <= n <= 25)%Z -> le (Int n) (Int 0) || gt (Int n) (Int 25) = false.
Proof.
  intros Hn. apply orb_false_iff. split.
  - destruct (le (Int n) (Int 0)) eqn:E; [|reflexivity]. apply int_le in E. lia.
  - destruct (gt (Int n) (Int 25)) eqn:E; [|reflexivity]. apply int_gt in E. lia.
Qed.

(** An [int] of a few digits converts to the float of the same value. *)
Lemma to_float_small (z : Z) :
  (Z.abs z <= 1000)%Z -> to_float (Int z) = Value (of_Z z).
Proof.
  intros Hz. unfold to_float.
  assert (Hbig : (1000 < overflow_threshold)%Z) by (vm_compute; reflexivity).
  destruct (Z.leb_spec overflow_threshold (Z.abs z)); [lia | reflexivity].
Qed.

Section Libm.

Variable libm_pow : float -> float -> float.

(** [1.0 ** w] is [1.0] for every [w], without a call of the C library. *)
Lemma one_to_any_power (w : float) : float_pow libm_pow 1 w = Value 1%float.
Proof.
  unfold float_pow. destruct (eq (Float w) (Int 0)); [reflexivity|].
  change (value_of_float 1) with (Finite (inject_Z 4503599627370496 * 2 ^ (-52))).
  destruct (value_of_float w) as [| s | q]; reflexivity.
Qed.

(** C4, where the code leaves it.  For a principal above 0 (a float, or an
    int that a float can hold), a tenure of 1 to 25 years and a rate that is
    not negative: when the monthly rate [r / 100 / 12] is not zero but so
    small that adding it to 1 gives 1, [calculate_emi] returns no payload;
    the denominator [(1 + i) ** m - 1] is zero and the division raises
    [ZeroDivisionError].  This holds whatever the C library's [pow] is. *)
Theorem tiny_rate_divides_by_zero (P : num) (p r : float) (n : Z) :
  to_float P = Value p ->
  lt (Int 0) P = true -> (1 <= n <= 25)%Z -> le (Int 0) (Float r) = true ->
  eq (Float (r / 100 / 12)) (Int 0) = false ->
  (1 + r / 100 / 12)%float = 1%float ->
  calculate_emi libm_pow P (Float r) (Int n)
  = Raise (ZeroDivisionError "float division by zero").
Proof.
  intros Hp HP Hn Hr Hrate Hone.
  unfold calculate_emi.
  rewrite (proj1 (lt_excludes _ _ HP)), (tenure_in_range n Hn), (le_excludes _ _ Hr).
  rewrite (truediv_float_l r (Int 100) 100 eq_refl eq_refl). cbn [bind].
  rewrite (truediv_float_l (r / 100) (Int 12) 12 eq_refl eq_refl). cbn [bind].
  change (mul (Int n) (Int 12)) with (Value (Int (n * 12))). cbn [bind].
  rewrite Hrate.
  unfold mul at 1. rewrite (arith_float_r _ _ P p _ Hp). cbn [bind].
  unfold add. rewrite (arith_float_r _ _ (Int 1) 1 _ eq_refl). cbn [bind].
  rewrite Hone.
  assert (Hpow : pow libm_pow (Float 1) (Int (n * 12)) = Value (Float 1)).
  { unfold pow. rewrite (to_float_small (n * 12)) by lia.
    cbn [to_float bind]. rewrite one_to_any_power. reflexivity. }
  rewrite Hpow. cbn [bind].
  unfold mul. rewrite (arith_float_l _ _ _ (Float 1) 1 eq_refl). cbn [bind].
  unfold sub. rewrite (arith_float_l _ _ 1 (Int 1) 1 eq_refl). cbn [bind].
  reflexivity.
Qed.

End Libm.

End Binary64Facts.

Lemma tiny_rate_divides_by_zero_witness :
  Tools64.calculate_emi Sample.libm_pow (Py64.Int 1000000) (Py64.Float 1e-20) (Py64.Int 25)
  = Py64.Raise (Py64.ZeroDivisionError "float division by zero").
Proof.
  apply (tiny_rate_divides_by_zero Sample.libm_pow (Py64.Int 1000000) 1000000 1e-20 25);
    try reflexivity; lia.
Defined.

(** The same call, whatever the C library's [pow] is. *)
Example tiny_rate_scenario :
  forall libm_pow : float -> float -> float,
    Tools64.calculate_emi libm_pow (Py64.Int 1000000) (Py64.Float 1e-20) (Py64.Int 25)
    = Py64.Raise (Py64.ZeroDivisionError "float division by zero").
Proof. intros libm_pow. vm_compute. reflexivity. Qed.

Lemma check_ltv_binary64_witness :
  exists loan quotient f,
    Py64.sub (Py64.Int 800) (Py64.Int 691) = Py64.Value loan /\
    Py64.truediv loan (Py64.Int 800) = Py64.Value quotient /\
    Tools64.check_ltv (Py64.Int 800) (Py64.Int 691) = Py64.Value (Tools.Success f) /\
    Tools64.ltv_ratio f = Py64.round (Py64.Float (quotient * 100)) 2 /\
    (Tools64.is_valid f = true
     <-> Py64.le (Py64.Float (quotient * 100)) (Py64.Int 80) = true) /\
    Tools64.max_loanable f = Py64.round (Py64.Float (800 * 0.8)) 2 /\
    Tools64.min_down_payment_required f = Py64.round (Py64.Float (800 - 800 * 0.8)) 2.
Proof.
  apply (check_ltv_binary64 (Py64.Int 800) (Py64.Int 691) 800 691); reflexivity.
Defined.

(** C5 as stated fails.  At a price of 100.03 with no down payment the
    payload has [max_loanable] 80.02 and [min_down_payment_required] 20.01,
    the values rounded to 2 places: they are neither the floats [0.8 * V]
    and [0.2 * V] (80.024 and 20.006) nor, as exact values, 0.8 and 0.2
    times the price.  And the rounded value is that of [V - V * 0.8], not
    of [0.2 * V]: at a price of 0.375 the payload has 0.07 where [0.2 * V]
    rounds to 0.08. *)
Lemma check_ltv_rounds_the_limits :
  (exists f,
     Tools64.check_ltv (Py64.Float 100.03) (Py64.Int 0) = Py64.Value (Tools.Success f) /\
     Tools64.max_loanable f = Py64.Float 80.02 /\
     Tools64.min_down_payment_required f = Py64.Float 20.01 /\
     Py64.mul (Py64.Float 0.8) (Py64.Float 100.03) = Py64.Value (Py64.Float 80.024) /\
     Py64.mul (Py64.Float 0.2) (Py64.Float 100.03) = Py64.Value (Py64.Float 20.006) /\
     Py64.eq (Tools64.max_loanable f) (Py64.Float 80.024) = false /\
     Py64.eq (Tools64.min_down_payment_required f) (Py64.Float 20.006) = false /\
     match Py64.value_of (Tools64.max_loanable f),
           Py64.value_of (Tools64.min_down_payment_required f),
           Py64.value_of (Py64.Float 100.03) with
     | Py64.Finite most, Py64.Finite least, Py64.Finite price =>
         ~ (most == (8 # 10) * price)%Q /\ ~ (least == (2 # 10) * price)%Q
     | _, _, _ => False
     end) /\
  (exists f,
     Tools64.check_ltv (Py64.Float 0.375) (Py64.Int 0) = Py64.Value (Tools.Success f) /\
     Tools64.min_down_payment_required f = Py64.Float 0.07 /\
     Py64.round (Py64.Float (0.2 * 0.375)) 2 = Py64.Float 0.08 /\
     Py64.eq (Tools64.min_down_payment_required f) (Py64.Float 0.08) = false).
Proof.
  split.
  - eexists. split; [vm_compute; reflexivity|].
    do 6 (split; [vm_compute; reflexivity|]).
    vm_compute. split; discriminate.
  - eexists. split; [vm_compute; reflexivity|].
    repeat split; vm_compute; reflexivity.
Qed.

(** The ratio is rounded on its binary64 value: for a price of 800 and a
    down payment of 691 the quotient times 100 is just above 13.625 and the
    payload has 13.63. *)
Example ltv_ratio_of_800_691 :
  option_map Tools64.ltv_ratio
    (match Tools64.check_ltv (Py64.Int 800) (Py64.Int 691) with
     | Py64.Value (Tools.Success f) => Some f
     | _ => None
     end)
  = Some (Py64.Float 13.63).
Proof. vm_compute. reflexivity. Qed.

(** The limit of 80 is tested on the computed ratio: a down payment just
    below a fifth of the price is accepted when the ratio rounds to 80. *)
Example ltv_at_the_limit :
  option_map (fun f => (Tools64.ltv_ratio f, Tools64.is_valid f))
    (match Tools64.check_ltv (Py64.Float 1) (Py64.Float 0.19999999999999998) with
     | Py64.Value (Tools.Success f) => Some f
     | _ => None
     end)
  = Some (Py64.Float 80, true)
  /\ Py64.lt (Py64.Float 0.19999999999999998) (Py64.Float 0.2) = true.
Proof. split; vm_compute; reflexivity. Qed.

(** ** Argument validator *)
Section ValidatorFacts.

Import Json Agent.

Variable py_str : value -> string.

Lemma missing_params_spec (required : list string) (arguments : dict) (p : string) :
  In p (missing_params required arguments)
  <-> In p required /\ dict_has p arguments = false.
Proof.
  unfold missing_params. rewrite filter_In, negb_true_iff. reflexivity.
Qed.

Lemma invalid_params_echo (positive : list string) (arguments : dict)
    (p : string) (v : value) :
  In p positive -> dict_get p arguments = Some v -> not_positive v = true ->
  In (invalid_entry py_str p v) (invalid_params py_str positive arguments).
Proof.
  induction positive as [|q rest IH]; intros Hin Hget Hbad; [destruct Hin|].
  cbn [invalid_params].
  destruct Hin as [-> | Hin].
  - rewrite Hget, Hbad. left. reflexivity.
  - specialize (IH Hin Hget Hbad).
    destruct (dict_get q arguments) as [w|]; [|exact IH].
    destruct (not_positive w); [right|]; exact IH.
Qed.

(** Every entry of the list comes from a flagged argument that is present
    and not a positive number. *)
Lemma invalid_params_sound (positive : list string) (arguments : dict) (entry : string) :
  In entry (invalid_params py_str positive arguments) ->
  exists p v, In p positive /\ dict_get p arguments = Some v /\
              not_positive v = true /\ entry = invalid_entry py_str p v.
Proof.
  induction positive as [|q rest IH]; cbn [invalid_params]; [intros []|].
  destruct (dict_get q arguments) as [w|] eqn:Hget.
  - destruct (not_positive w) eqn:Hbad.
    + intros [<- | Hin].
      * exists q, w. repeat split; try assumption. left; reflexivity.
      * destruct (IH Hin) as (p & v & Hp & ?). exists p, v. split; [right|]; assumption.
    + intros Hin. destruct (IH Hin) as (p & v & Hp & ?).
      exists p, v. split; [right|]; assumption.
  - intros Hin. destruct (IH Hin) as (p & v & Hp & ?).
    exists p, v. split; [right|]; assumption.
Qed.

(** Every tool with required parameters also has flagged parameters, and
    each flagged parameter is a required one. *)
Lemma positive_params_known (tool_name : string) (required : list string) :
  assoc tool_name required_params = Some required ->
  exists positive,
    assoc tool_name positive_params = Some positive /\
    forall p, In p positive -> In p required.
Proof.
  unfold assoc, required_params, positive_params. cbn [List.find fst].
  destruct (String.eqb tool_name "calculate_emi").
  { intros [= <-]. eexists. split; [reflexivity|]. cbn. intuition. }
  destruct (String.eqb tool_name "check_ltv").
  { intros [= <-]. eexists. split; [reflexivity|]. cbn. intuition. }
  destruct (String.eqb tool_name "calculate_upfront_costs").
  { intros [= <-]. eexists. split; [reflexivity|]. cbn. intuition. }
  destruct (String.eqb tool_name "buy_vs_rent_analysis").
  { intros [= <-]. eexists. split; [reflexivity|]. cbn. intuition. }
  discriminate.
Qed.

(** C8, as the code has it: a tool name outside the validator's tables is
    valid; if required fields are absent the answer is invalid and the
    reason names exactly the absent required fields; otherwise the answer
    is invalid exactly when some flagged argument is not a number or is at
    most 0, and the reason then carries, for each such argument, its name
    with the offending value. *)
Theorem validate_tool_arguments_cases (tool_name : string) (arguments : dict) :
  (assoc tool_name required_params = None ->
   validate_tool_arguments py_str tool_name arguments = (true, EmptyString)) /\
  (forall required,
     assoc tool_name required_params = Some required ->
     let missing := missing_params required arguments in
     (forall p, In p missing <-> In p required /\ dict_has p arguments = false) /\
     (missing <> [] ->
      validate_tool_arguments py_str tool_name arguments
      = (false, missing_message missing)) /\
     (missing = [] ->
      exists positive,
        assoc tool_name positive_params = Some positive /\
        let invalid := invalid_params py_str positive arguments in
        (forall p v, In p positive -> dict_get p arguments = Some v ->
                     not_positive v = true -> In (invalid_entry py_str p v) invalid) /\
        (invalid <> [] ->
         validate_tool_arguments py_str tool_name arguments
         = (false, invalid_message invalid)) /\
        (invalid = [] ->
         validate_tool_arguments py_str tool_name arguments = (true, EmptyString)))).
Proof.
  split.
  - intros Hnone. unfold validate_tool_arguments. rewrite Hnone. reflexivity.
  - intros required Hreq missing. split; [|split].
    + intros p. apply missing_params_spec.
    + intros Hmiss. unfold validate_tool_arguments. rewrite Hreq.
      fold missing. destruct missing; [congruence | reflexivity].
    + intros Hmiss.
      destruct (positive_params_known tool_name required Hreq) as (positive & Hpos & _).
      exists positive. split; [exact Hpos|]. intros invalid.
      split; [|split].
      * intros p v. apply invalid_params_echo.
      * intros Hinv. unfold validate_tool_arguments. rewrite Hreq.
        fold missing. rewrite Hmiss, Hpos. fold invalid.
        destruct invalid; [congruence | reflexivity].
      * intros Hinv. unfold validate_tool_arguments. rewrite Hreq.
        fold missing. rewrite Hmiss, Hpos. fold invalid. rewrite Hinv. reflexivity.
Qed.

End ValidatorFacts.

(** C8 as stated fails: with [down_payment] absent, the zero
    [property_price] of a [check_ltv] request is not echoed; the reason
    names the missing field only. *)
Lemma validator_reports_missing_only :
  Agent.not_positive (Json.VInt 0) = true /\
  Agent.validate_tool_arguments Sample.py_str "check_ltv"
    [("property_price"%string, Json.VInt 0)]
  = (false, "Missing required parameters: down_payment"%string) /\
  String.index 0
    (Agent.invalid_entry Sample.py_str "property_price" (Json.VInt 0))
    "Missing required parameters: down_payment" = None.
Proof. repeat split; vm_compute; reflexivity. Qed.

(** The scenario of the specification: a [check_ltv] request with a zero
    price is rejected with the value echoed. *)
Example validator_rejects_zero_price :
  Agent.validate_tool_arguments Sample.py_str "check_ltv"
    [("property_price"%string, Json.VInt 0); ("down_payment"%string, Json.VInt 300000)]
  = (false,
     "Cannot execute tool: Invalid parameter values - property_price (got 0, must be positive). Please ask the user for missing information before calling this tool."%string).
Proof. vm_compute. reflexivity. Qed.

(** ** Tool dispatcher *)
Section DispatcherFacts.

Import Json Agent.

Variable py_str : value -> string.
Variable exn_str : exn -> string.
Variable invoke : string -> dict -> outcome.

(** C9: [execute_tool] returns a dictionary for every tool name and
    argument mapping, whatever the calculators do.  An unknown name gives
    the unknown-tool failure; a validation failure gives the validator's
    reason and no calculator is invoked; otherwise the calculator is
    invoked once, its result is returned as it is, and an exception it
    raises becomes a failure carrying the exception's message. *)
Theorem execute_tool_total (tool_name : string) (arguments : dict) :
  exists result calls,
    execute_tool_traced py_str exn_str invoke tool_name arguments = (result, calls) /\
    execute_tool py_str exn_str invoke tool_name arguments = result /\
    (known_tool tool_name = false ->
     result = error_result ("Unknown tool: " +:+ tool_name) /\ calls = []) /\
    (known_tool tool_name = true ->
     forall reason,
       validate_tool_arguments py_str tool_name arguments = (false, reason) ->
       result = error_result reason /\ calls = []) /\
    (known_tool tool_name = true ->
     fst (validate_tool_arguments py_str tool_name arguments) = true ->
     calls = [(tool_name, arguments)] /\
     (forall e, invoke tool_name arguments = Raised e ->
                result = error_result ("Tool execution failed: " +:+ exn_str e)) /\
     (forall returned, invoke tool_name arguments = Returned returned ->
                       result = returned)).
Proof.
  unfold execute_tool, execute_tool_traced.
  destruct (known_tool tool_name) eqn:Hknown; cbn [negb].
  - destruct (validate_tool_arguments py_str tool_name arguments)
      as [is_valid error_msg] eqn:Hval.
    destruct is_valid; cbn [negb fst].
    + destruct (invoke tool_name arguments) as [returned | e] eqn:Hcall.
      * do 2 eexists. split; [reflexivity|]. split; [reflexivity|].
        split; [discriminate|]. split; [intros _ reason; discriminate|].
        intros _ _. split; [reflexivity|].
        split; [discriminate | intros ? [= <-]; reflexivity].
      * do 2 eexists. split; [reflexivity|]. split; [reflexivity|].
        split; [discriminate|]. split; [intros _ reason; discriminate|].
        intros _ _. split; [reflexivity|].
        split; [intros ? [= <-]; reflexivity | discriminate].
    + do 2 eexists. split; [reflexivity|]. split; [reflexivity|].
      split; [discriminate|].
      split; [intros _ reason [= <-]; split; reflexivity|].
      intros _ ?. discriminate.
  - do 2 eexists. split; [reflexivity|]. split; [reflexivity|].
    split; [intros _; split; reflexivity|].
    split; intros ?; discriminate.
Qed.

(** Every failure of [execute_tool] that does not come from the calculator
    itself is a dictionary with the key ["error"]. *)
Lemma error_result_has_error (msg : string) : dict_has "error" (error_result msg) = true.
Proof. reflexivity. Qed.

End DispatcherFacts.

(** The calculators never see the zero price of the specification's
    scenario. *)
Example execute_tool_skips_zero_price :
  Agent.execute_tool_traced Sample.py_str Sample.exn_str Calculators.TOOL_FUNCTIONS
    "check_ltv"
    [("property_price"%string, Json.VInt 0); ("down_payment"%string, Json.VInt 300000)]
  = (Agent.error_result
       "Cannot execute tool: Invalid parameter values - property_price (got 0, must be positive). Please ask the user for missing information before calling this tool.",
     []).
Proof. vm_compute. reflexivity. Qed.

(** A request without [interest_rate] passes the validator and fails in the
    call: the exception is converted. *)
Example execute_tool_converts_exception :
  Agent.execute_tool Sample.py_str Sample.exn_str Calculators.TOOL_FUNCTIONS
    "calculate_emi"
    [("loan_amount"%string, Json.VInt 1000000); ("tenure_years"%string, Json.VInt 25)]
  = Agent.error_result
      "Tool execution failed: calculate_emi() missing required positional arguments: interest_rate".
Proof. vm_compute. reflexivity. Qed.

Example execute_tool_runs_calculator :
  Json.dict_get "emi"
    (Agent.execute_tool Sample.py_str Sample.exn_str Calculators.TOOL_FUNCTIONS
       "calculate_emi"
       [("loan_amount"%string, Json.VInt 100000);
        ("interest_rate"%string, Json.VInt 12);
        ("tenure_years"%string, Json.VInt 1)])
  = Some (Json.VFloat (888488 # 100)).
Proof. vm_compute. reflexivity. Qed.

(** ** Session store *)
Section StoreFacts.

Import Json State.

(** C10: for a session id that is not in the store, [get_history] returns
    the empty list, [add_message] raises the session-not-found error, and
    the history read is the one a freshly created session gives. *)
Theorem unknown_session_reads_empty
    (store : gmap string session) (session_id role content now : string) :
  store !! session_id = None ->
  get_history session_id store = [] /\
  add_message session_id role content now store
  = Throw (ValueError ("Session " +:+ session_id +:+ " not found")) /\
  forall fresh_id created (other : gmap string session),
    get_history session_id store
    = get_history fresh_id (fst (create_session fresh_id created other)).
Proof.
  intros Hnone. unfold get_history, add_message. rewrite Hnone.
  split; [reflexivity|]. split; [reflexivity|].
  intros fresh_id created other. cbn [create_session fst].
  rewrite lookup_insert_eq. reflexivity.
Qed.

Lemma unknown_session_reads_empty_witness :
  get_history "absent" (∅ : gmap string session) = [] /\
  add_message "absent" "user" "hello" "t0" (∅ : gmap string session)
  = Throw (ValueError ("Session " +:+ "absent" +:+ " not found")) /\
  forall fresh_id created (other : gmap string session),
    get_history "absent" (∅ : gmap string session)
    = get_history fresh_id (fst (create_session fresh_id created other)).
Proof.
  apply (unknown_session_reads_empty ∅ "absent" "user" "hello" "t0").
  apply lookup_empty.
Defined.

(** A session that exists takes the message at the end of its history. *)
Lemma add_message_appends
    (store : gmap string session) (session_id role content now : string) (s : session) :
  store !! session_id = Some s ->
  exists store',
    add_message session_id role content now store = Ok store' /\
    get_history session_id store'
    = get_history session_id store ++ [plain_message role content] /\
    forall other, other <> session_id -> store' !! other = store !! other.
Proof.
  intros Hs. unfold add_message. rewrite Hs. eexists. split; [reflexivity|].
  split.
  - unfold get_history. rewrite lookup_insert_eq, Hs. cbn [messages].
    rewrite List.map_app. reflexivity.
  - intros other Hne. apply lookup_insert_ne. congruence.
Qed.

End StoreFacts.

(** ** Orchestration loop *)
Section LoopFacts.

Import Json Agent State Main.

Variable py_str : value -> string.
Variable exn_str : exn -> string.
Variable invoke : string -> dict -> outcome.
Variable py_int : string -> option Z.
Variable py_float : string -> option Q.
Variable json_loads : string -> option value.
Variable json_dumps : dict -> string.
Variable trace_groq_call : list message -> try completion.
Variable SYSTEM_PROMPT : string.

Local Abbreviation classify := (classify py_str py_int py_float json_loads).
Local Abbreviation run_tools :=
  (run_tools py_str exn_str invoke py_int py_float json_loads json_dumps).
Local Abbreviation loop_body :=
  (loop_body py_str exn_str invoke py_int py_float json_loads json_dumps trace_groq_call).
Local Abbreviation while_loop :=
  (while_loop py_str exn_str invoke py_int py_float json_loads json_dumps trace_groq_call).
Local Abbreviation stream_chat_response_fuel :=
  (stream_chat_response_fuel py_str exn_str invoke py_int py_float json_loads
     json_dumps trace_groq_call SYSTEM_PROMPT).
Local Abbreviation stream_chat_response :=
  (stream_chat_response py_str exn_str invoke py_int py_float json_loads
     json_dumps trace_groq_call SYSTEM_PROMPT).

Lemma say_chunks_progress (pieces : list string) (st : loop_state) :
  same_progress st (fold_left (fun acc chunk => say chunk acc) pieces st).
Proof.
  revert st. induction pieces as [|piece rest IH]; intros st; cbn [fold_left].
  - split; reflexivity.
  - destruct (IH (say piece st)) as [Hi Hr]. split; [rewrite Hi | rewrite Hr]; reflexivity.
Qed.

Lemma say_if_any_progress (text : string) (st : loop_state) :
  same_progress st (say_if_any text say st)
  /\ same_progress st (say_if_any text say_chunks st).
Proof.
  unfold say_if_any. destruct (String.eqb text "").
  - split; split; reflexivity.
  - split; [split; reflexivity | apply say_chunks_progress].
Qed.

Lemma run_tools_progress (assistant_content : string) (calls : list tool_call)
    (st st' : loop_state) :
  run_tools assistant_content calls st = Ok st' -> same_progress st st'.
Proof.
  unfold Main.run_tools. destruct (classify calls) as [sorted | e]; cbn [try_bind].
  - intros [= <-]. split; reflexivity.
  - discriminate.
Qed.

(** Each iteration sends the transcript once and counts once. *)
Lemma loop_body_progress (st : loop_state) :
  let st' := match loop_body st with
             | Continue s | Break s | Fault s _ => s
             end in
  iteration st' = S (iteration st) /\ requests st' = requests st ++ [messages st].
Proof.
  unfold Main.loop_body. cbv zeta. cbn [messages].
  destruct (trace_groq_call (messages st)) as [reply | e]; [|split; reflexivity].
  destruct (completion_tool_calls reply) as [|call calls].
  - match goal with
    | |- context [say_if_any ?t say_chunks ?s] =>
        destruct (proj2 (say_if_any_progress t s)) as [Hi Hr]
    end.
    cbn zeta. rewrite Hi, Hr. split; reflexivity.
  - match goal with
    | |- context [say_if_any ?t say ?s] =>
        destruct (proj1 (say_if_any_progress t s)) as [Hi Hr];
        set (said := say_if_any t say s) in *
    end.
    destruct (run_tools _ (call :: calls) said) as [st2 | e] eqn:Hrun; cbn zeta.
    + destruct (run_tools_progress _ _ _ _ Hrun) as [Hi2 Hr2].
      rewrite Hi2, Hr2, Hi, Hr. split; reflexivity.
    + rewrite Hi, Hr. split; reflexivity.
Qed.

Lemma while_loop_counts (fuel : nat) (st : loop_state) (r : loop_result) :
  while_loop fuel st = Some r ->
  length (requests (result_state r)) + iteration st
  = length (requests st) + iteration (result_state r)
  /\ (iteration st <= max_iterations -> iteration (result_state r) <= max_iterations).
Proof.
  revert st. induction fuel as [|fuel IH]; intros st; cbn [Main.while_loop].
  - destruct (iteration st <? max_iterations) eqn:G; [discriminate|].
    intros [= <-]. cbn [result_state]. split; [lia | intros; assumption].
  - destruct (iteration st <? max_iterations) eqn:G.
    + apply Nat.ltb_lt in G.
      pose proof (loop_body_progress st) as P. cbn zeta in P.
      destruct (loop_body st) as [s | s | s e]; destruct P as [Pi Pr].
      * intros Hloop. destruct (IH s Hloop) as [Hc Hb].
        rewrite Pi, Pr, length_app in Hc. cbn [length] in Hc.
        split; [lia | intros _; apply Hb; lia].
      * intros [= <-]. cbn [result_state]. rewrite Pi, Pr, length_app. cbn [length].
        split; lia.
      * intros [= <-]. cbn [result_state]. rewrite Pi, Pr, length_app. cbn [length].
        split; lia.
    + intros [= <-]. cbn [result_state]. split; [lia | intros; assumption].
Qed.

(** The loop ends within the iterations that are left. *)
Lemma while_loop_terminates (fuel : nat) (st : loop_state) :
  max_iterations - iteration st <= fuel ->
  exists r, while_loop fuel st = Some r.
Proof.
  revert st. induction fuel as [|fuel IH]; intros st Hfuel; cbn [Main.while_loop].
  - destruct (iteration st <? max_iterations) eqn:G; [|eauto].
    apply Nat.ltb_lt in G. lia.
  - destruct (iteration st <? max_iterations) eqn:G; [|eauto].
    pose proof (loop_body_progress st) as P. cbn zeta in P.
    destruct (loop_body st) as [s | s | s e]; destruct P as [Pi Pr]; eauto.
    apply IH. lia.
Qed.

(** More fuel does not change the result. *)
Lemma while_loop_fuel_irrelevant (fuel fuel' : nat) (st : loop_state) (r : loop_result) :
  while_loop fuel st = Some r -> fuel <= fuel' -> while_loop fuel' st = Some r.
Proof.
  revert fuel' st. induction fuel as [|fuel IH]; intros fuel' st; cbn [Main.while_loop].
  - destruct (iteration st <? max_iterations) eqn:G; [discriminate|].
    intros [= <-] _. destruct fuel'; cbn [Main.while_loop]; rewrite G; reflexivity.
  - intros Hloop Hle. destruct fuel' as [|fuel']; [lia|]. cbn [Main.while_loop].
    destruct (iteration st <? max_iterations); [|exact Hloop].
    destruct (loop_body st) as [s | s | s e]; try exact Hloop.
    apply IH; [exact Hloop | lia].
Qed.

(** C2: for every call of [stream_chat_response] the loop ends, having
    sent at most 5 requests to the model, one per iteration; a state that
    has used its 5 iterations leaves the loop unchanged, with the text and
    the tool results gathered so far; and the call returns. *)
Theorem at_most_five_round_trips (transcript : list message) :
  (exists r,
     while_loop max_iterations (initial_state transcript) = Some r /\
     length (requests (result_state r)) <= 5 /\
     length (requests (result_state r)) = iteration (result_state r) /\
     forall fuel, max_iterations <= fuel ->
                  while_loop fuel (initial_state transcript) = Some r) /\
  (forall fuel st, iteration st = max_iterations ->
                   while_loop fuel st = Some (Finished st)) /\
  (forall session_id user_message now_user now_reply store,
     exists out,
       stream_chat_response session_id user_message now_user now_reply store = Some out).
Proof.
  split; [|split].
  - destruct (while_loop_terminates max_iterations (initial_state transcript))
      as [r Hr]; [cbn [initial_state iteration]; lia|].
    exists r. split; [exact Hr|].
    destruct (while_loop_counts _ _ _ Hr) as [Hc Hb].
    cbn [initial_state iteration requests length] in Hc, Hb.
    specialize (Hb ltac:(unfold max_iterations; lia)). unfold max_iterations in Hb.
    split; [lia|]. split; [lia|].
    intros fuel Hfuel. apply (while_loop_fuel_irrelevant _ _ _ _ Hr Hfuel).
  - intros fuel st Hst.
    destruct fuel; cbn [Main.while_loop]; rewrite Hst; reflexivity.
  - intros session_id user_message now_user now_reply store.
    unfold Main.stream_chat_response, Main.stream_chat_response_fuel.
    destruct (add_message session_id "user" user_message now_user store)
      as [store1 | e]; [|eauto].
    match goal with
    | |- context [Main.while_loop _ _ _ _ _ _ _ _ ?f ?s] =>
        destruct (while_loop_terminates f s) as [r Hr];
          [cbn [initial_state iteration]; lia|]
    end.
    rewrite Hr. destruct r; eauto.
Qed.

(** The two lists of the first loop hold the requested calls, each once. *)
Lemma classify_partition (calls : list tool_call)
    (sorted : list (tool_call * dict) * list (tool_call * dict * string)) :
  classify calls = Ok sorted ->
  Permutation
    (List.map fst (fst sorted) ++ List.map (fun cam => fst (fst cam)) (snd sorted))
    calls.
Proof.
  revert sorted. induction calls as [|call rest IH]; intros sorted; cbn [Main.classify].
  - intros [= <-]. constructor.
  - destruct (parse_arguments py_int py_float json_loads (arguments call))
      as [args | e]; cbn [try_bind]; [|discriminate].
    destruct (classify rest) as [later | e]; cbn [try_bind]; [|discriminate].
    specialize (IH later eq_refl).
    destruct (validate_tool_arguments py_str (name call) args) as [is_valid error_msg].
    destruct is_valid; intros [= <-]; cbn [fst snd List.map].
    + cbn [app]. constructor. exact IH.
    + symmetry. apply Permutation_cons_app. symmetry. exact IH.
Qed.

(** C1, what the code does in a tool-executing pass: it appends one
    tool-result turn per requested invocation, with the invocation's
    correlation id, and only then the assistant turn that lists the
    invocations (in the same order as the tool-result turns).  The
    assistant turn is the last message of the transcript sent on the next
    round trip; the tool-result turns precede it. *)
Theorem tool_results_precede_assistant_turn
    (assistant_content : string) (calls : list tool_call) (st st' : loop_state) :
  calls <> [] ->
  run_tools assistant_content calls st = Ok st' ->
  exists tool_turns tool_calls_data,
    messages st'
    = messages st ++ tool_turns
      ++ [assistant_tool_message assistant_content tool_calls_data] /\
    Permutation tool_calls_data calls /\
    List.map tool_call_id tool_turns = List.map (fun c => Some (id c)) tool_calls_data /\
    Forall (fun m => msg_role m = "tool"%string /\ tool_calls m = None) tool_turns.
Proof.
  intros Hcalls. unfold Main.run_tools.
  destruct (classify calls) as [[valid invalid] | e] eqn:Hsort; cbn [try_bind];
    [|discriminate].
  pose proof (classify_partition _ _ Hsort) as Hperm. cbn [fst snd] in *.
  intros [= <-]. cbn [messages].
  set (data := List.map fst valid ++ List.map (fun cam => fst (fst cam)) invalid) in *.
  assert (Hdata : data <> []).
  { intros E. rewrite E in Hperm. apply Permutation_nil in Hperm. contradiction. }
  eexists. exists data.
  split; [|split; [exact Hperm|split]].
  - destruct data; [contradiction | reflexivity].
  - unfold data, executed. rewrite !List.map_app, !List.map_map. reflexivity.
  - apply Forall_app. split; apply List.Forall_forall; intros m Hin;
      apply in_map_iff in Hin; destruct Hin as (x & <- & _); split; reflexivity.
Qed.

End LoopFacts.

Lemma tool_results_precede_assistant_turn_witness :
  exists st',
    Sample.run_tools "" [Sample.emi_request; Sample.ltv_zero_request]
      (Main.initial_state Sample.opening) = Json.Ok st' /\
    exists tool_turns tool_calls_data,
      Main.messages st'
      = Sample.opening ++ tool_turns
        ++ [Main.assistant_tool_message "" tool_calls_data] /\
      Permutation tool_calls_data [Sample.emi_request; Sample.ltv_zero_request] /\
      List.map State.tool_call_id tool_turns
      = List.map (fun c => Some (State.id c)) tool_calls_data /\
      Forall (fun m => State.msg_role m = "tool"%string /\ State.tool_calls m = None)
        tool_turns.
Proof.
  eexists. split; [vm_compute; reflexivity|].
  apply (tool_results_precede_assistant_turn Sample.py_str Sample.exn_str
           Calculators.TOOL_FUNCTIONS Sample.py_int Sample.py_float
           Sample.json_loads Sample.json_dumps
           "" [Sample.emi_request; Sample.ltv_zero_request]
           (Main.initial_state Sample.opening)).
  - discriminate.
  - vm_compute. reflexivity.
Defined.

(** The transcripts a two-tool exchange sends to the model: the second one
    has the two tool-result turns before the assistant turn that requested
    them. *)
Example second_request_order :
  option_map
    (fun r => List.map (List.map (fun m => (State.msg_role m, State.tool_call_id m)))
                (Main.requests (Main.result_state r)))
    (Sample.run_loop (Sample.scripted Sample.tools_then_text) Sample.opening)
  = Some [ [ ("system", None); ("user", None) ];
           [ ("system", None); ("user", None);
             ("tool", Some "call_1"); ("tool", Some "call_2");
             ("assistant", None) ] ]%string.
Proof. vm_compute. reflexivity. Qed.

(** A model that keeps requesting tools is asked exactly 5 times. *)
Example insistent_model_is_asked_five_times :
  option_map (fun r => length (Main.requests (Main.result_state r)))
    (Sample.run_loop (Sample.insistent Sample.emi_request) Sample.opening)
  = Some 5.
Proof. vm_compute. reflexivity. Qed.

(** ** Text yielded in slices *)
Section Chunks.

Import Main.

Lemma append_nil_r (s : string) : s +:+ "" = s.
Proof.
  induction s as [|c s IH]; [reflexivity|].
  change (String c (s +:+ "") = String c s). f_equal. exact IH.
Qed.

Lemma append_assoc (a b c : string) : (a +:+ b) +:+ c = a +:+ (b +:+ c).
Proof.
  induction a as [|x a IH]; [reflexivity|].
  change (String x ((a +:+ b) +:+ c) = String x (a +:+ (b +:+ c))). f_equal. exact IH.
Qed.

Lemma concat_empty_sep_cons (x : string) (xs : list string) :
  String.concat "" (x :: xs) = x +:+ String.concat "" xs.
Proof. destruct xs; cbn [String.concat]; [rewrite append_nil_r|]; reflexivity. Qed.

Lemma substring_empty (a b : nat) : substring a b "" = ""%string.
Proof. destruct a, b; reflexivity. Qed.

Lemma substring_no_length (s : string) (a : nat) : substring a 0 s = ""%string.
Proof.
  revert a. induction s as [|ch s IH]; intros a; [apply substring_empty|].
  destruct a as [|a]; [reflexivity|]. simpl. apply IH.
Qed.

Lemma substring_split (s : string) (a b c : nat) :
  substring a (b + c) s = substring a b s +:+ substring (a + b) c s.
Proof.
  revert a b. induction s as [|ch s IH]; intros a b.
  - rewrite !substring_empty. reflexivity.
  - destruct a as [|a].
    + destruct b as [|b]; [reflexivity|].
      simpl. rewrite (IH 0 b). reflexivity.
    + simpl. apply IH.
Qed.

Lemma substring_whole (s : string) (m : nat) :
  String.length s <= m -> substring 0 m s = s.
Proof.
  revert m. induction s as [|ch s IH]; intros m Hm.
  - apply substring_empty.
  - destruct m as [|m]; cbn [String.length] in Hm; [lia|].
    cbn [substring]. rewrite IH; [reflexivity | lia].
Qed.

Lemma slices_concat (text : string) (size count start : nat) :
  String.concat ""
    (List.map (fun i => substring i size text)
       (List.map (fun k => k * size) (seq start count)))
  = substring (start * size) (count * size) text.
Proof.
  revert start. induction count as [|count IH]; intros start.
  - simpl. symmetry. apply substring_no_length.
  - cbn [seq List.map]. rewrite concat_empty_sep_cons, IH.
    replace (S count * size) with (size + count * size) by lia.
    rewrite substring_split.
    replace (S start * size) with (start * size + size) by lia. reflexivity.
Qed.

(** The slices of a text, put together again, are the text. *)
Lemma chunks_concat (text : string) :
  String.concat "" (chunks chunk_size text) = text.
Proof.
  unfold chunks, chunk_starts. rewrite slices_concat.
  apply substring_whole. unfold chunk_size.
  pose proof (Nat.div_mod_eq (String.length text + 10 - 1) 10) as D.
  pose proof (Nat.mod_upper_bound (String.length text + 10 - 1) 10 ltac:(lia)) as U.
  lia.
Qed.

Lemma say_fold_text (pieces : list string) (st : loop_state) :
  full_response (fold_left (fun acc chunk => say chunk acc) pieces st)
  = full_response st +:+ String.concat "" pieces
  /\ tool_results_list (fold_left (fun acc chunk => say chunk acc) pieces st)
     = tool_results_list st
  /\ messages (fold_left (fun acc chunk => say chunk acc) pieces st) = messages st.
Proof.
  revert st. induction pieces as [|piece rest IH]; intros st; cbn [fold_left].
  - cbn. rewrite append_nil_r. repeat split.
  - destruct (IH (say piece st)) as (Hf & Ht & Hm).
    rewrite Hf, Ht, Hm, concat_empty_sep_cons. cbn [say full_response tool_results_list messages].
    rewrite append_assoc. repeat split.
Qed.

(** Yielding a text, whole or in slices, adds exactly that text to
    [full_response] and leaves the tool results and the transcript alone. *)
Lemma say_if_any_text (text : string) (st : loop_state) :
  (full_response (say_if_any text say st) = full_response st +:+ text
   /\ tool_results_list (say_if_any text say st) = tool_results_list st
   /\ messages (say_if_any text say st) = messages st)
  /\ (full_response (say_if_any text say_chunks st) = full_response st +:+ text
      /\ tool_results_list (say_if_any text say_chunks st) = tool_results_list st
      /\ messages (say_if_any text say_chunks st) = messages st).
Proof.
  unfold say_if_any. destruct (String.eqb_spec text "") as [-> | Hne].
  - rewrite append_nil_r. repeat split.
  - split; [repeat split|]. unfold say_chunks.
    destruct (say_fold_text (chunks chunk_size text) st) as (Hf & Ht & Hm).
    rewrite Hf, Ht, Hm, chunks_concat. repeat split.
Qed.

End Chunks.

(** ** The reply that closes a call *)
Section ReplyFacts.

Import Json Agent State Main.

Variable py_str : value -> string.
Variable exn_str : exn -> string.
Variable invoke : string -> dict -> outcome.
Variable py_int : string -> option Z.
Variable py_float : string -> option Q.
Variable json_loads : string -> option value.
Variable json_dumps : dict -> string.
Variable trace_groq_call : list message -> try completion.
Variable SYSTEM_PROMPT : string.

Local Abbreviation run_tools :=
  (run_tools py_str exn_str invoke py_int py_float json_loads json_dumps).
Local Abbreviation loop_body :=
  (loop_body py_str exn_str invoke py_int py_float json_loads json_dumps trace_groq_call).
Local Abbreviation while_loop :=
  (while_loop py_str exn_str invoke py_int py_float json_loads json_dumps trace_groq_call).
Local Abbreviation stream_chat_response :=
  (stream_chat_response py_str exn_str invoke py_int py_float json_loads
     json_dumps trace_groq_call SYSTEM_PROMPT).
Local Abbreviation finalize := (finalize py_str exn_str).
Local Abbreviation expected_reply := (expected_reply py_str).
Local Abbreviation reply_text := (reply_text trace_groq_call).
Local Abbreviation error_event := (error_event exn_str).

Lemma run_tools_text (assistant_content : string) (calls : list tool_call)
    (st st' : loop_state) :
  run_tools assistant_content calls st = Ok st' -> full_response st' = full_response st.
Proof.
  unfold Main.run_tools.
  destruct (classify py_str py_int py_float json_loads calls); cbn [try_bind];
    [intros [= <-]; reflexivity | discriminate].
Qed.

(** Each iteration adds the text of the model's reply to [full_response]. *)
Lemma loop_body_text (st : loop_state) :
  let st' := match loop_body st with
             | Continue s | Break s | Fault s _ => s
             end in
  full_response st' = full_response st +:+ reply_text (messages st).
Proof.
  unfold Main.loop_body, Main.reply_text. cbv zeta. cbn [messages].
  destruct (trace_groq_call (messages st)) as [reply | e];
    [|cbn [full_response]; rewrite append_nil_r; reflexivity].
  set (text := default EmptyString (completion_content reply)).
  destruct (completion_tool_calls reply) as [|call calls].
  - match goal with
    | |- context [say_if_any text say_chunks ?s] =>
        destruct (proj2 (say_if_any_text text s)) as (Hf & _)
    end.
    rewrite Hf. reflexivity.
  - match goal with
    | |- context [say_if_any text say ?s] =>
        destruct (proj1 (say_if_any_text text s)) as (Hf & _);
        set (said := say_if_any text say s) in *
    end.
    destruct (run_tools text (call :: calls) said) as [st2 | e] eqn:Hrun.
    + rewrite (run_tools_text _ _ _ _ Hrun), Hf. reflexivity.
    + rewrite Hf. reflexivity.
Qed.

Lemma while_loop_text (fuel : nat) (st : loop_state) (r : loop_result) :
  while_loop fuel st = Some r ->
  exists sent,
    requests (result_state r) = requests st ++ sent /\
    full_response (result_state r)
    = full_response st +:+ String.concat "" (List.map reply_text sent).
Proof.
  revert st. induction fuel as [|fuel IH]; intros st; cbn [Main.while_loop].
  - destruct (iteration st <? max_iterations); [discriminate|].
    intros [= <-]. exists []. cbn [result_state List.map String.concat].
    rewrite app_nil_r, append_nil_r. split; reflexivity.
  - destruct (iteration st <? max_iterations).
    + pose proof (loop_body_text st) as T.
      pose proof (loop_body_progress py_str exn_str invoke py_int py_float
                    json_loads json_dumps trace_groq_call st) as [_ P].
      cbv zeta in T.
      destruct (loop_body st) as [s | s | s e].
      * intros Hloop. destruct (IH s Hloop) as (sent & Hs & Hf).
        exists (messages st :: sent). rewrite Hs, Hf, P, T.
        cbn [List.map]. rewrite concat_empty_sep_cons, append_assoc, <- app_assoc.
        split; reflexivity.
      * intros [= <-]. exists [messages st]. cbn [result_state List.map String.concat].
        rewrite P, T. split; reflexivity.
      * intros [= <-]. exists [messages st]. cbn [result_state List.map String.concat].
        rewrite P, T. split; reflexivity.
    + intros [= <-]. exists []. cbn [result_state List.map String.concat].
      rewrite app_nil_r, append_nil_r. split; reflexivity.
Qed.

(** What the statements after the loop do with the state the loop ends
    in. *)
Lemma finalize_reply (session_id now : string) (store : gmap string session)
    (s : session) (st : loop_state) :
  store !! session_id = Some s ->
  match expected_reply st with
  | Ok (Some reply) =>
      exists store' yielded,
        finalize session_id now store st = (store', yielded ++ [DoneEvent]) /\
        add_message session_id "assistant" reply now store = Ok store'
  | Ok None => finalize session_id now store st = (store, events st ++ [DoneEvent])
  | Throw e => finalize session_id now store st = (store, events st ++ [error_event e])
  end.
Proof.
  intros Hs.
  assert (Hadd : forall reply, exists store',
             add_message session_id "assistant" reply now store = Ok store').
  { intros reply. destruct (add_message_appends store session_id "assistant" reply now s Hs)
      as (store' & H & _). eauto. }
  unfold Main.finalize, Main.expected_reply.
  destruct (String.eqb_spec (full_response st) "") as [Hempty | Hfull]; cbn [negb].
  - destruct (tool_results_list st) as [|entry rest] eqn:Hresults.
    + destruct (String.eqb_spec (full_response st) "") as [_ | C]; [|contradiction].
      cbn [negb]. rewrite Hresults. reflexivity.
    + destruct (format_tool_results_response py_str (entry :: rest)) as [summary | e];
        cbn [try_bind]; [|reflexivity].
      destruct (say_if_any_text summary st) as (_ & Hf & Ht & _).
      rewrite Hempty in Hf. change ("" +:+ summary) with summary in Hf.
      destruct (String.eqb_spec summary "") as [-> | Hsummary].
      * unfold say_if_any. cbn [String.eqb].
        destruct (String.eqb_spec (full_response st) "") as [_ | C]; [|contradiction].
        cbn [negb]. rewrite Hresults.
        destruct (Hadd basic_response) as (store' & ->).
        exists store', (events st ++ [ContentEvent basic_response]).
        rewrite <- app_assoc. split; reflexivity.
      * rewrite Hf.
        destruct (String.eqb_spec summary "") as [C | _]; [contradiction|].
        cbn [negb]. destruct (Hadd summary) as (store' & ->). eauto.
  - destruct (String.eqb_spec (full_response st) "") as [C | _]; [contradiction|].
    cbn [negb]. destruct (Hadd (full_response st)) as (store' & ->). eauto.
Qed.

(** C3, as the code has it: a call on an existing session appends the
    user's message and then at most one assistant reply.  When the loop
    ends without a fault, the reply is the text the model supplied over all
    round trips, if there is any; otherwise, if tool results were recorded,
    it is the summary that the fixed templates give for them, or the
    generic notice when that summary is empty; with neither text nor tool
    results no reply is appended.  A fault appends no reply and ends the
    events with an error event. *)
Theorem finalized_reply
    (session_id user_message now_user now_reply : string)
    (store : gmap string session) (s : session) :
  store !! session_id = Some s ->
  exists store1 r store' yielded,
    add_message session_id "user" user_message now_user store = Ok store1 /\
    while_loop max_iterations
      (initial_state (with_system_prompt SYSTEM_PROMPT (get_history session_id store1)))
    = Some r /\
    stream_chat_response session_id user_message now_user now_reply store
    = Some (store', yielded) /\
    let said := get_history session_id store ++ [plain_message "user" user_message] in
    match r with
    | Faulted st e =>
        get_history session_id store' = said /\ yielded = events st ++ [error_event e]
    | Finished st =>
        full_response st = String.concat "" (List.map reply_text (requests st)) /\
        match expected_reply st with
        | Ok (Some reply) =>
            get_history session_id store' = said ++ [plain_message "assistant" reply] /\
            exists before, yielded = before ++ [DoneEvent]
        | Ok None =>
            get_history session_id store' = said /\ yielded = events st ++ [DoneEvent]
        | Throw e =>
            get_history session_id store' = said /\ yielded = events st ++ [error_event e]
        end
    end.
Proof.
  intros Hs.
  destruct (add_message_appends store session_id "user" user_message now_user s Hs)
    as (store1 & Hadd & Hhist & _).
  assert (Hs1 : exists s1, store1 !! session_id = Some s1).
  { unfold add_message in Hadd. rewrite Hs in Hadd. injection Hadd as <-.
    rewrite lookup_insert_eq. eauto. }
  destruct Hs1 as [s1 Hs1].
  set (start := initial_state (with_system_prompt SYSTEM_PROMPT (get_history session_id store1))).
  destruct (while_loop_terminates py_str exn_str invoke py_int py_float json_loads
              json_dumps trace_groq_call max_iterations start) as [r Hr];
    [cbn [start initial_state iteration]; lia|].
  exists store1, r.
  unfold Main.stream_chat_response, Main.stream_chat_response_fuel.
  rewrite Hadd. fold start. rewrite Hr.
  destruct r as [st | st e].
  - destruct (finalize session_id now_reply store1 st) as [store' yielded] eqn:Hfin.
    exists store', yielded. split; [reflexivity|]. split; [reflexivity|].
    split; [reflexivity|]. cbv zeta. split.
    + destruct (while_loop_text _ _ _ Hr) as (sent & Hsent & Htext).
      cbn [result_state start initial_state requests full_response app] in Hsent, Htext.
      rewrite Hsent. exact Htext.
    + pose proof (finalize_reply session_id now_reply store1 s1 st Hs1) as F.
      destruct (expected_reply st) as [[reply|] | e].
      * destruct F as (store2 & before & Hfin2 & Hadd2).
        rewrite Hfin in Hfin2. injection Hfin2 as -> ->.
        split; [|eauto].
        destruct (add_message_appends store1 session_id "assistant" reply now_reply s1 Hs1)
          as (store3 & Hadd3 & Hhist3 & _).
        rewrite Hadd2 in Hadd3. injection Hadd3 as <-.
        rewrite Hhist3, Hhist. reflexivity.
      * rewrite Hfin in F. injection F as -> ->. split; [exact Hhist | reflexivity].
      * rewrite Hfin in F. injection F as -> ->. split; [exact Hhist | reflexivity].
  - exists store1, (events st ++ [error_event e]).
    split; [reflexivity|]. split; [reflexivity|]. split; [reflexivity|].
    cbv zeta. split; [exact Hhist | reflexivity].
Qed.

End ReplyFacts.

Lemma finalized_reply_witness :
  exists store1 r store' yielded,
    State.add_message "s1" "user" "What is my EMI?" "t1" Sample.one_session
    = Json.Ok store1 /\
    Sample.run_loop (Sample.scripted Sample.tools_then_silence)
      (Main.with_system_prompt Sample.SYSTEM_PROMPT (State.get_history "s1" store1))
    = Some r /\
    Sample.chat (Sample.scripted Sample.tools_then_silence) "What is my EMI?"
    = Some (store', yielded) /\
    let said := State.get_history "s1" Sample.one_session
                ++ [State.plain_message "user" "What is my EMI?"] in
    match r with
    | Main.Faulted st e =>
        State.get_history "s1" store' = said /\
        yielded = Main.events st ++ [Main.error_event Sample.exn_str e]
    | Main.Finished st =>
        Main.full_response st
        = String.concat ""
            (List.map (Main.reply_text (Sample.scripted Sample.tools_then_silence))
               (Main.requests st)) /\
        match Main.expected_reply Sample.py_str st with
        | Json.Ok (Some reply) =>
            State.get_history "s1" store'
            = said ++ [State.plain_message "assistant" reply] /\
            exists before, yielded = before ++ [Main.DoneEvent]
        | Json.Ok None =>
            State.get_history "s1" store' = said /\
            yielded = Main.events st ++ [Main.DoneEvent]
        | Json.Throw e =>
            State.get_history "s1" store' = said /\
            yielded = Main.events st ++ [Main.error_event Sample.exn_str e]
        end
    end.
Proof.
  apply (finalized_reply Sample.py_str Sample.exn_str Calculators.TOOL_FUNCTIONS
           Sample.py_int Sample.py_float Sample.json_loads Sample.json_dumps
           (Sample.scripted Sample.tools_then_silence) Sample.SYSTEM_PROMPT
           "s1" "What is my EMI?" "t1" "t2" Sample.one_session
           {| State.messages := []; State.created_at := "t0"; State.user_data := [] |}).
  apply lookup_insert_eq.
Defined.

(** C3 as stated fails: when the model answers with no text and requests
    no tool, the call completes without an error and appends no assistant
    reply; no fallback notice is produced. *)
Lemma silent_model_gets_no_reply :
  exists store',
    Sample.chat (Sample.scripted Sample.silence) "hello"
    = Some (store', [Main.DoneEvent]) /\
    State.get_history "s1" store' = [State.plain_message "user" "hello"].
Proof. eexists. split; vm_compute; reflexivity. Qed.

(** The summary of a successful calculation, by the template of its tool
    (the template prints 4.5% whatever the rate of the request was). *)
Example summary_reply :
  option_map (fun out => State.get_history "s1" (fst out))
    (Sample.chat (Sample.scripted Sample.tools_then_silence) "What is my EMI?")
  = Some [ State.plain_message "user" "What is my EMI?";
           State.plain_message "assistant"
             ("For a loan of 100,000 AED at 4.5% interest over 1 years:"
              +:+ Main.nl +:+ Main.nl
              +:+ "• Monthly EMI: 8,884.88 AED" +:+ Main.nl
              +:+ "• Total amount payable: 106,618.55 AED" +:+ Main.nl
              +:+ "• Total interest: 6,618.55 AED") ].
Proof. vm_compute. reflexivity. Qed.

(** Tool results exist but all are failures: the summary is empty and the
    generic notice is the reply. *)
Example generic_notice_reply :
  option_map (fun out => (State.get_history "s1" (fst out), snd out))
    (Sample.chat (Sample.scripted Sample.skipped_then_silence) "Check my LTV")
  = Some ([ State.plain_message "user" "Check my LTV";
            State.plain_message "assistant" Main.basic_response ],
          [ Main.ContentEvent Main.basic_response; Main.DoneEvent ]).
Proof. vm_compute. reflexivity. Qed.

(** Text that accompanies a tool request is part of the reply. *)
Example accumulated_text_reply :
  option_map (fun out => State.get_history "s1" (fst out))
    (Sample.chat (Sample.scripted Sample.text_with_tools_then_text) "What is my EMI?")
  = Some [ State.plain_message "user" "What is my EMI?";
           State.plain_message "assistant" "Let me check.Done." ].
Proof. vm_compute. reflexivity. Qed.

(** A failed call of the model ends the events with an error and commits
    no reply. *)
Example upstream_failure_reply :
  option_map (fun out => (State.get_history "s1" (fst out), snd out))
    (Sample.chat (Sample.scripted []) "hello")
  = Some ([ State.plain_message "user" "hello" ],
          [ Main.ErrorEvent "Error processing chat: service unavailable" ]).
Proof. vm_compute. reflexivity. Qed.

(** * Further properties of the calculators *)
Section LoanToValueFacts.

Local Open Scope Q_scope.
Import Tools.

(** What a success of [check_ltv] tells about its arguments and its
    result. *)
Lemma check_ltv_success (V D : Q) (f : ltv_fields) :
  check_ltv V D = Success f ->
  0 < V /\ 0 <= D /\ D < V /\
  is_valid f = Qle_bool ((V - D) / V * 100) 80 /\
  ltv_loan_amount f = Py.round (V - D) 2 /\
  max_loanable f = Py.round (V * (80 / 100)) 2 /\
  min_down_payment_required f = Py.round (V - V * (80 / 100)) 2 /\
  message f =
    (if is_valid f then "Valid"%string
     else String.append "LTV exceeds 80%. Minimum down payment required: "
            (String.append (Py.format_f true 0 (V - V * (80 / 100))) " AED")).
Proof.
  unfold check_ltv.
  destruct (Qle_bool V 0) eqn:G1; [discriminate|]. apply Qle_bool_false in G1.
  destruct (Py.Qlt_bool D 0) eqn:G2; [discriminate|]. apply Qlt_bool_false in G2.
  destruct (Qle_bool V D) eqn:G3; [discriminate|]. apply Qle_bool_false in G3.
  intros [= <-]. cbn. repeat split; assumption.
Qed.


End LoanToValueFacts.

Section BuyVersusRentFacts.

Local Open Scope Q_scope.
Import Tools.

(** The estimate of the monthly cost of owning. *)
Local Abbreviation ownership_cost V D r :=
  ((V - D) * r / 100 / 12 + V * (1 # 1000) / 12).

(** Walks the guards of [buy_vs_rent_analysis] on the path to an analysis:
    every failing guard contradicts the hypothesis. *)
Ltac bvr_success_path R V y I D r ltv emi_result :=
  unfold buy_vs_rent_analysis;
  destruct (Qle_bool R 0) eqn:GR; [discriminate|]; apply Qle_bool_false in GR;
  destruct (Qle_bool V 0) eqn:GV; [discriminate|];
  destruct (y <=? 0)%Z eqn:Gy; [discriminate|]; apply Z.leb_gt in Gy;
  destruct (Qle_bool I 0) eqn:GI; [discriminate|]; apply Qle_bool_false in GI;
  destruct (check_ltv V D) as [|ltv] eqn:Hltv; [discriminate|];
  destruct (is_valid ltv) eqn:Hvalid; cbn [negb]; [|discriminate];
  destruct (calculate_emi (V - D) r 25) as [|emi_result] eqn:Hemi; [discriminate|];
  unfold calculate_upfront_costs; rewrite GV; apply Qle_bool_false in GV.



(** A stay of less than 3 years is always answered RENT, and the first
    reason given is the short-stay one, quoting the upfront costs. *)
Theorem short_stay_rents (R V : Q) (y : Z) (I D r : Q) (f : bvr_fields) :
  buy_vs_rent_analysis R V y I D r = BvrSuccess f ->
  (y < 3)%Z ->
  recommendation f = RENT /\
  hd_error (reasoning f) = Some (short_stay_reason (upfront_costs f)).
Proof.
  bvr_success_path R V y I D r ltv emi_result.
  intros Hf Hy. apply Z.ltb_lt in Hy. rewrite Hy in Hf.
  destruct (negb (Qle_bool (emi emi_result / I * 100) 30));
    injection Hf as <-; split; reflexivity.
Qed.

Lemma short_stay_rents_witness :
  exists f,
    buy_vs_rent_analysis 5000 2000000 2 100000 500000 0 = BvrSuccess f /\
    recommendation f = RENT /\
    hd_error (reasoning f) = Some (short_stay_reason (upfront_costs f)).
Proof.
  eexists. split; [vm_compute; reflexivity|].
  apply (short_stay_rents 5000 2000000 2 100000 500000 0);
    [vm_compute; reflexivity | lia].
Defined.





End BuyVersusRentFacts.

(** ** The loan-to-value check inside the analysis, in binary64 *)
Section LoanToValueInAnalysis.

Import Py64 Tools64.

Variable libm_pow : float -> float -> float.

(** With rent, stay and income that pass the guards, a price above 0 and a
    down payment from 0 up to the price: when the ratio that [check_ltv]
    computes, [(V - D) / V * 100] in Python's arithmetic, exceeds 80, the
    analysis fails with the message of the loan-to-value check, which names
    [V - V * 0.8] in whole dirhams, and attaches the result of the check. *)
Theorem low_down_payment_surfaces_ltv
    (R V y I D r : num) (v d : float) (loan : num) (quotient : float) :
  le R (Int 0) = false -> le y (Int 0) = false -> le I (Int 0) = false ->
  to_float V = Value v -> to_float D = Value d ->
  lt (Int 0) V = true -> le (Int 0) D = true -> lt D V = true ->
  sub V D = Value loan -> truediv loan V = Value quotient ->
  le (Float (quotient * 100)) (Int 80) = false ->
  exists ltv amount,
    check_ltv V D = Value (Tools.Success ltv) /\
    is_valid ltv = false /\
    ltv_ratio ltv = round (Float (quotient * 100)) 2 /\
    format_f true 0 (Float (v - v * 0.8)) = Value amount /\
    buy_vs_rent_analysis libm_pow R V y I D r
    = Value (BvrFailure
               (String.append "LTV exceeds 80%. Minimum down payment required: "
                  (String.append amount " AED"))
               (Some (Tools.Success ltv))).
Proof.
  intros GR Gy GI Hv Hd HV HD HDV Hsub Hdiv Hratio.
  destruct (check_ltv_payload V D v d Hv Hd HV HD HDV)
    as (loan' & quotient' & amount & Hsub' & Hdiv' & Hamount & Hpayload).
  rewrite Hsub in Hsub'. injection Hsub' as <-.
  rewrite Hdiv in Hdiv'. injection Hdiv' as <-.
  rewrite Hratio in Hpayload.
  eexists. exists amount.
  split; [exact Hpayload|]. split; [reflexivity|]. split; [reflexivity|].
  split; [exact Hamount|].
  unfold buy_vs_rent_analysis.
  rewrite GR, (proj1 (lt_excludes _ _ HV)), Gy, GI, Hsub. cbn [bind].
  rewrite Hpayload. cbn [bind is_valid negb message]. reflexivity.
Qed.

End LoanToValueInAnalysis.

Lemma low_down_payment_surfaces_ltv_witness :
  exists ltv amount,
    Tools64.check_ltv (Py64.Int 2000000) (Py64.Int 300000)
    = Py64.Value (Tools.Success ltv) /\
    Tools64.is_valid ltv = false /\
    Tools64.ltv_ratio ltv = Py64.round (Py64.Float (0.85 * 100)) 2 /\
    Py64.format_f true 0 (Py64.Float (2000000 - 2000000 * 0.8)) = Py64.Value amount /\
    Tools64.buy_vs_rent_analysis Sample.libm_pow (Py64.Int 5000) (Py64.Int 2000000)
      (Py64.Int 10) (Py64.Int 10000) (Py64.Int 300000) (Py64.Float 4.5)
    = Py64.Value
        (Tools64.BvrFailure
           (String.append "LTV exceeds 80%. Minimum down payment required: "
              (String.append amount " AED"))
           (Some (Tools.Success ltv))).
Proof.
  apply (low_down_payment_surfaces_ltv Sample.libm_pow (Py64.Int 5000) (Py64.Int 2000000)
           (Py64.Int 10) (Py64.Int 10000) (Py64.Int 300000) (Py64.Float 4.5)
           2000000 300000 (Py64.Int 1700000) 0.85);
    vm_compute; reflexivity.
Defined.

(** The analysis of the scenario: 300,000 down on 2,000,000. *)
Example low_down_payment_scenario :
  forall libm_pow : float -> float -> float,
    Tools64.buy_vs_rent_analysis libm_pow (Py64.Int 5000) (Py64.Int 2000000)
      (Py64.Int 10) (Py64.Int 10000) (Py64.Int 300000) (Py64.Float 4.5)
    = Py64.Value
        (Tools64.BvrFailure "LTV exceeds 80%. Minimum down payment required: 400,000 AED"
           (Some (Tools.Success {|
              Tools64.ltv_ratio := Py64.Float 85;
              Tools64.ltv_loan_amount := Py64.Int 1700000;
              Tools64.max_loanable := Py64.Float 1600000;
              Tools64.min_down_payment_required := Py64.Float 400000;
              Tools64.is_valid := false;
              Tools64.ltv_property_price := Py64.Int 2000000;
              Tools64.ltv_down_payment := Py64.Int 300000;
              Tools64.message :=
                "LTV exceeds 80%. Minimum down payment required: 400,000 AED"
            |}))).
Proof. intros libm_pow. vm_compute. reflexivity. Qed.

(** A loan that the subtraction rounds to zero: the price is an [int] one
    above the down payment, a float, and the difference of the two as
    floats is 0.0.  The loan-to-value check accepts it and the instalment
    calculator's guard answers. *)
Example loan_guard_behind_the_analysis :
  forall libm_pow : float -> float -> float,
    Tools64.buy_vs_rent_analysis libm_pow (Py64.Int 5000) (Py64.Int 9007199254740993)
      (Py64.Int 10) (Py64.Int 10000) (Py64.Float 9007199254740992) (Py64.Float 4.5)
    = Py64.Value (Tools64.BvrFailure "Loan amount must be positive" None).
Proof. intros libm_pow. vm_compute. reflexivity. Qed.

(** * Further properties of the validator and the dispatcher *)
Section DispatchedCalls.

Import Json Agent Calculators.
Local Open Scope Q_scope.

Variable py_str : value -> string.
Variable exn_str : exn -> string.

(** A value that passes the positivity test is a number above 0. *)
Lemma positive_number (v : value) :
  not_positive v = false -> exists q, as_number v = Some q /\ 0 < q.
Proof.
  unfold not_positive, le_zero. intros H.
  apply orb_false_elim in H as [Hn Hz].
  destruct (as_number v) as [q|] eqn:E.
  - exists q. split; [reflexivity|]. apply Qle_bool_false. exact Hz.
  - destruct v; cbn in *; discriminate.
Qed.

(** The four tools of the registry are the tools of the validator's
    tables. *)
Lemma known_tool_cases (tool_name : string) :
  known_tool tool_name = true ->
  tool_name = "calculate_emi"%string \/ tool_name = "check_ltv"%string \/
  tool_name = "calculate_upfront_costs"%string \/
  tool_name = "buy_vs_rent_analysis"%string.
Proof.
  unfold known_tool, TOOL_NAMES. cbn [existsb].
  destruct (String.eqb_spec tool_name "calculate_emi"); [auto|].
  destruct (String.eqb_spec tool_name "check_ltv"); [auto|].
  destruct (String.eqb_spec tool_name "calculate_upfront_costs"); [auto|].
  destruct (String.eqb_spec tool_name "buy_vs_rent_analysis"); [auto 6|].
  discriminate.
Qed.

Lemma known_tool_tables (tool_name : string) :
  known_tool tool_name = true ->
  exists required positive,
    assoc tool_name required_params = Some required /\
    assoc tool_name positive_params = Some positive.
Proof.
  intros K. destruct (known_tool_cases _ K) as [-> | [-> | [-> | ->]]];
    do 2 eexists; split; reflexivity.
Qed.

(** What an accepted argument mapping is known to satisfy: the required
    parameters are present, and the listed ones pass the validator's test. *)
Lemma validated_arguments (tool_name : string) (arguments : dict) (reason : string)
    (required positive : list string) :
  validate_tool_arguments py_str tool_name arguments = (true, reason) ->
  assoc tool_name required_params = Some required ->
  assoc tool_name positive_params = Some positive ->
  (forall p, In p required -> dict_has p arguments = true) /\
  (forall p v, In p positive -> dict_get p arguments = Some v -> not_positive v = false).
Proof.
  unfold validate_tool_arguments. intros Hval Hreq Hpos. rewrite Hreq, Hpos in Hval.
  destruct (missing_params required arguments) eqn:Hmiss; [|discriminate].
  destruct (invalid_params py_str positive arguments) eqn:Hinv; [|discriminate].
  split.
  - intros p Hin. destruct (dict_has p arguments) eqn:E; [reflexivity|].
    assert (Hp : In p (missing_params required arguments))
      by (apply missing_params_spec; split; assumption).
    rewrite Hmiss in Hp. destruct Hp.
  - intros p v Hin Hget.
    destruct (not_positive v) eqn:E; [|reflexivity].
    pose proof (invalid_params_echo py_str positive arguments p v Hin Hget E) as Hp.
    rewrite Hinv in Hp. destruct Hp.
Qed.

(** The reason of a rejection is one of the validator's two messages. *)
Lemma rejection_reason (tool_name : string) (arguments : dict) (reason : string) :
  validate_tool_arguments py_str tool_name arguments = (false, reason) ->
  exists items, reason = missing_message items \/ reason = invalid_message items.
Proof.
  unfold validate_tool_arguments.
  destruct (assoc tool_name required_params) as [required|]; [|discriminate].
  destruct (missing_params required arguments) as [|m ms].
  - match goal with
    | |- context [match ?inv with [] => _ | _ :: _ => _ end] => destruct inv as [|item others]
    end; [discriminate|].
    intros [= <-]. eexists. right. reflexivity.
  - intros [= <-]. eexists. left. reflexivity.
Qed.

(** Whenever [execute_tool] calls a calculator, whatever the calculator
    does, the tool is one of the registry, the call is made with the
    request's own arguments, every required parameter of the validator's
    table is among them, and every argument the table lists as positive
    has passed the validator's test: it is an [int] or a [float], and
    [value <= 0] is false for it. *)
Theorem calculators_get_validated_arguments
    (invoke : string -> dict -> outcome)
    (tool_name : string) (arguments : dict) (name : string) (args : dict) :
  In (name, args) (snd (execute_tool_traced py_str exn_str invoke tool_name arguments)) ->
  name = tool_name /\ args = arguments /\ known_tool name = true /\
  exists required positive,
    assoc name required_params = Some required /\
    assoc name positive_params = Some positive /\
    (forall p, In p required -> dict_has p args = true) /\
    (forall p v, In p positive -> dict_get p args = Some v ->
                 is_number v = true /\ le_zero v = false).
Proof.
  unfold execute_tool_traced.
  destruct (known_tool tool_name) eqn:K; cbn [negb snd]; [|intros []].
  destruct (validate_tool_arguments py_str tool_name arguments) as [[|] reason] eqn:Hval;
    cbn [negb snd]; [|intros []].
  intros Hin.
  assert (E : (name, args) = (tool_name, arguments)).
  { destruct (invoke tool_name arguments); cbn [snd] in Hin;
      destruct Hin as [Hin | []]; symmetry; exact Hin. }
  injection E as -> ->.
  split; [reflexivity|]. split; [reflexivity|]. split; [exact K|].
  destruct (known_tool_tables _ K) as (required & positive & Hreq & Hpos).
  exists required, positive. split; [exact Hreq|]. split; [exact Hpos|].
  destruct (validated_arguments _ _ _ _ _ Hval Hreq Hpos) as [Hpresent Hpassed].
  split; [exact Hpresent|].
  intros p v Hin' Hget. specialize (Hpassed p v Hin' Hget).
  unfold not_positive in Hpassed. apply orb_false_elim in Hpassed as [Hn Hz].
  split; [|exact Hz]. destruct (is_number v); [reflexivity | discriminate].
Qed.

Lemma missing_interest_rate (arguments : dict) :
  dict_get "interest_rate" arguments = None ->
  exists detail, call_calculate_emi arguments = Raised (TypeError detail).
Proof.
  intros Hrate. unfold call_calculate_emi, check_signature.
  destruct (List.find _ arguments) as [[k v]|]; cbn [try_bind finish]; [eauto|].
  assert (Hhas : dict_has "interest_rate" arguments = false)
    by (unfold dict_has; rewrite Hrate; reflexivity).
  unfold missing_params. cbn [List.filter]. rewrite Hhas. cbn [negb].
  destruct (negb (dict_has "loan_amount" arguments));
    destruct (negb (dict_has "tenure_years" arguments));
    cbn [try_bind finish]; eauto.
Qed.

(** A [calculate_emi] request that leaves out [interest_rate] is never
    computed: the validator does not ask for the rate, the function has no
    default for it, and the dispatcher answers with a failure (the
    validator's, or the [TypeError] of the call). *)
Theorem emi_request_without_rate_fails (arguments : dict) :
  dict_get "interest_rate" arguments = None ->
  exists msg,
    execute_tool py_str exn_str TOOL_FUNCTIONS "calculate_emi" arguments
    = error_result msg /\
    (fst (validate_tool_arguments py_str "calculate_emi" arguments) = true ->
     exists detail,
       msg = String.append "Tool execution failed: " (exn_str (TypeError detail))).
Proof.
  intros Hrate. unfold execute_tool, execute_tool_traced.
  change (known_tool "calculate_emi") with true. cbn [negb].
  destruct (validate_tool_arguments py_str "calculate_emi" arguments)
    as [[|] reason]; cbn [negb fst].
  - change (TOOL_FUNCTIONS "calculate_emi" arguments) with (call_calculate_emi arguments).
    destruct (missing_interest_rate arguments Hrate) as [detail ->].
    eexists. split; [reflexivity|]. intros _. exists detail. reflexivity.
  - eexists. split; [reflexivity|]. discriminate.
Qed.

End DispatchedCalls.

Lemma calculators_get_validated_arguments_witness :
  "check_ltv"%string = "check_ltv"%string /\
  [("property_price"%string, Json.VInt 1000000);
   ("down_payment"%string, Json.VInt 300000)]
  = [("property_price"%string, Json.VInt 1000000);
     ("down_payment"%string, Json.VInt 300000)] /\
  Agent.known_tool "check_ltv" = true /\
  exists required positive,
    Agent.assoc "check_ltv" Agent.required_params = Some required /\
    Agent.assoc "check_ltv" Agent.positive_params = Some positive /\
    (forall p, In p required ->
       Json.dict_has p [("property_price"%string, Json.VInt 1000000);
                        ("down_payment"%string, Json.VInt 300000)] = true) /\
    (forall p v, In p positive ->
       Json.dict_get p [("property_price"%string, Json.VInt 1000000);
                        ("down_payment"%string, Json.VInt 300000)] = Some v ->
       Json.is_number v = true /\ Agent.le_zero v = false).
Proof.
  apply (calculators_get_validated_arguments Sample.py_str Sample.exn_str
           Calculators.TOOL_FUNCTIONS "check_ltv"
           [("property_price"%string, Json.VInt 1000000);
            ("down_payment"%string, Json.VInt 300000)]
           "check_ltv"
           [("property_price"%string, Json.VInt 1000000);
            ("down_payment"%string, Json.VInt 300000)]).
  vm_compute. left. reflexivity.
Defined.

Lemma emi_request_without_rate_fails_witness :
  exists msg,
    Agent.execute_tool Sample.py_str Sample.exn_str Calculators.TOOL_FUNCTIONS
      "calculate_emi"
      [("loan_amount"%string, Json.VInt 1000000); ("tenure_years"%string, Json.VInt 25)]
    = Agent.error_result msg /\
    (fst (Agent.validate_tool_arguments Sample.py_str "calculate_emi"
            [("loan_amount"%string, Json.VInt 1000000);
             ("tenure_years"%string, Json.VInt 25)]) = true ->
     exists detail,
       msg = String.append "Tool execution failed: "
               (Sample.exn_str (Json.TypeError detail))).
Proof.
  apply (emi_request_without_rate_fails Sample.py_str Sample.exn_str
           [("loan_amount"%string, Json.VInt 1000000);
            ("tenure_years"%string, Json.VInt 25)]).
  reflexivity.
Defined.

(** ** Guards of the calculators that the dispatcher never reaches *)
Section UnreachableGuards.

Import Json Agent Calculators.
Local Open Scope Q_scope.

Variable py_str : value -> string.
Variable exn_str : exn -> string.

(** The messages of the guards that test an argument the validator has
    tested before. *)
Local Abbreviation own_guard_errors :=
  ["Property price must be positive"; "Monthly rent must be positive";
   "Stay duration must be positive"; "Income must be positive"]%string.

Ltac not_listed :=
  let H := fresh "Hlisted" in
  intros H; cbn in H;
  repeat (destruct H as [H | H]; [discriminate H|]); exact H.

(** Neither one of [own_guard_errors] nor the message of the loan guard. *)
Ltac other_message :=
  split; [not_listed | let H := fresh "Hloan" in intros _ H; cbn in H; discriminate H].

(** The three failures of [calculate_emi]. *)
Lemma emi_failure_messages (P r : Q) (n : Z) (e : string) :
  Tools.calculate_emi P r n = Tools.Failure e ->
  (Qle_bool P 0 = true /\ e = "Loan amount must be positive"%string) \/
  e = "Tenure must be between 1 and 25 years"%string \/
  e = "Interest rate cannot be negative"%string.
Proof.
  unfold Tools.calculate_emi.
  destruct (Qle_bool P 0); [intros [= <-]; auto|].
  destruct ((n <=? 0)%Z || (n >? 25)%Z); [intros [= <-]; auto|].
  destruct (Py.Qlt_bool r 0); [intros [= <-]; auto|].
  cbv zeta. discriminate.
Qed.

(** The failures of [check_ltv] on a price that passes the first guard. *)
Lemma ltv_failure_messages (V D : Q) (e : string) :
  Qle_bool V 0 = false -> Tools.check_ltv V D = Tools.Failure e ->
  e = "Down payment cannot be negative"%string \/
  e = "Down payment cannot exceed property price"%string.
Proof.
  intros GV. unfold Tools.check_ltv. rewrite GV.
  destruct (Py.Qlt_bool D 0); [intros [= <-]; auto|].
  destruct (Qle_bool V D); [intros [= <-]; auto|].
  cbv zeta. discriminate.
Qed.

(** With rent, price, stay and income that pass the four guards, a failure
    of the analysis is the loan-to-value one or a failure of
    [calculate_emi]. *)
Lemma bvr_failure_of_positive_inputs (R V : Q) (y : Z) (I D r : Q)
    (e : string) (details : option (Tools.payload Tools.ltv_fields)) :
  0 < R -> 0 < V -> (0 < y)%Z -> 0 < I ->
  Tools.buy_vs_rent_analysis R V y I D r = Tools.BvrFailure e details ->
  ~ In e own_guard_errors.
Proof.
  intros HR HV Hy HI. unfold Tools.buy_vs_rent_analysis.
  rewrite (proj2 (Qle_bool_false R 0) HR), (proj2 (Qle_bool_false V 0) HV),
    (proj2 (Z.leb_gt y 0) Hy), (proj2 (Qle_bool_false I 0) HI).
  destruct (Tools.check_ltv V D) as [e0 | ltv] eqn:Hltv; [intros [= <- <-]; not_listed|].
  destruct (check_ltv_success V D ltv Hltv) as (_ & _ & _ & _ & _ & _ & _ & Hmsg).
  destruct (Tools.is_valid ltv); cbn [negb].
  - destruct (Tools.calculate_emi (V - D) r 25) as [e1 | emi_result] eqn:Hemi.
    + intros [= <- <-].
      destruct (emi_failure_messages _ _ _ _ Hemi) as [[_ ->] | [-> | ->]]; not_listed.
    + destruct (Tools.calculate_upfront_costs V); [discriminate|].
      repeat match goal with
             | |- context [if ?c then _ else _] => destruct c
             end; discriminate.
  - intros [= <- <-]. rewrite Hmsg. not_listed.
Qed.

(** An [int] read from a number above 0 is above 0. *)
Lemma as_int_positive (v : value) (q : Q) (z : Z) :
  as_number v = Some q -> 0 < q -> as_int v = Some z -> (0 < z)%Z.
Proof.
  destruct v as [|b|z0|q0| | |]; cbn [as_number as_int]; try discriminate.
  - destruct b; intros [= <-] Hq [= <-]; [lia | lra].
  - intros [= <-] Hq [= <-]. unfold Qlt in Hq. cbn in Hq. lia.
  - intros [= <-] Hq. destruct (Qeq_bool q0 (inject_Z (Qfloor q0))) eqn:E; [|discriminate].
    intros [= <-]. apply Qeq_bool_iff in E. rewrite E in Hq.
    unfold Qlt in Hq. cbn in Hq. lia.
Qed.

(** A parameter that passed the validator's test is read as a number for
    which the calculator's guard [value <= 0] is false. *)
Lemma arg_float_positive (param : string) (arguments : dict) (default : option Q) :
  (forall v, dict_get param arguments = Some v -> not_positive v = false) ->
  dict_has param arguments = true ->
  exists q, arg_float param arguments default = Ok q /\ 0 < q.
Proof.
  unfold dict_has, arg_float. intros Hpos Hhas.
  destruct (dict_get param arguments) as [v|]; [|discriminate].
  destruct (positive_number v (Hpos v eq_refl)) as (q & -> & Hq). eauto.
Qed.

Ltac read_positive param q Hq :=
  match goal with
  | Hreq : forall p, In p _ -> dict_has p ?args = true,
    Hpos : forall p v, In p _ -> dict_get p ?args = Some v -> _ |- _ =>
      let H := fresh in
      destruct (arg_float_positive param args None) as (q & H & Hq);
      [ intros v; apply Hpos; cbn; tauto
      | apply Hreq; cbn; tauto
      | rewrite H; cbn [try_bind] ]
  end.

Ltac raised_is_other :=
  cbn [try_bind finish fst]; cbn; intros [= <-]; other_message.

Ltac raised_is_not_listed :=
  cbn [try_bind finish fst]; cbn; intros [= <-]; not_listed.

(** The validator makes a calculator's guard dead code behind the
    dispatcher where both test the same argument: whatever the request,
    the failure that [execute_tool] reports is never "Property price must
    be positive", "Monthly rent must be positive", "Stay duration must be
    positive" or "Income must be positive", and for [calculate_emi] (whose
    loan amount the validator tests) never "Loan amount must be positive".
    The loan of [buy_vs_rent_analysis] is computed, not validated, and
    nothing is said of its guard. *)
Theorem positivity_guards_unreachable (tool_name : string) (arguments : dict)
    (msg : string) :
  dict_get "error" (execute_tool py_str exn_str TOOL_FUNCTIONS tool_name arguments)
  = Some (VStr msg) ->
  ~ In msg own_guard_errors /\
  (tool_name <> "buy_vs_rent_analysis"%string ->
   msg <> "Loan amount must be positive"%string).
Proof.
  unfold execute_tool, execute_tool_traced.
  destruct (known_tool tool_name) eqn:K; cbn [negb];
    [|cbn; intros [= <-]; other_message].
  destruct (validate_tool_arguments py_str tool_name arguments) as [[|] reason] eqn:Hval;
    cbn [negb].
  2: { destruct (rejection_reason _ _ _ _ Hval) as [items [-> | ->]];
       unfold missing_message, invalid_message; cbn; intros [= <-]; other_message. }
  destruct (known_tool_tables _ K) as (required & positive & Hreq & Hpos).
  destruct (validated_arguments _ _ _ _ _ _ Hval Hreq Hpos) as [Hpresent Hpositive].
  clear Hval.
  destruct (known_tool_cases _ K) as [-> | [-> | [-> | ->]]];
    injection Hreq as <-; injection Hpos as <-.
  - change (TOOL_FUNCTIONS "calculate_emi" arguments) with (call_calculate_emi arguments).
    unfold call_calculate_emi.
    destruct (check_signature _ _ _ arguments); [|raised_is_other].
    cbn [try_bind].
    read_positive "loan_amount"%string P HP.
    destruct (arg_float "interest_rate" arguments None) as [r|]; [|raised_is_other].
    cbn [try_bind].
    destruct (arg_int "tenure_years" arguments) as [n|]; [|raised_is_other].
    cbn [try_bind finish fst].
    destruct (Tools.calculate_emi P r n) as [e | f] eqn:Hcalc; cbn; [|discriminate].
    intros [= <-].
    destruct (emi_failure_messages _ _ _ _ Hcalc) as [[GP _] | [-> | ->]];
      [|other_message..].
    apply Qle_bool_iff in GP. lra.
  - change (TOOL_FUNCTIONS "check_ltv" arguments) with (call_check_ltv arguments).
    unfold call_check_ltv.
    destruct (check_signature _ _ _ arguments); [|raised_is_other].
    cbn [try_bind].
    read_positive "property_price"%string V HV.
    destruct (arg_float "down_payment" arguments None) as [D|]; [|raised_is_other].
    cbn [try_bind finish fst].
    destruct (Tools.check_ltv V D) as [e | f] eqn:Hcalc; cbn; [|discriminate].
    intros [= <-].
    destruct (ltv_failure_messages V D e (proj2 (Qle_bool_false V 0) HV) Hcalc)
      as [-> | ->]; other_message.
  - change (TOOL_FUNCTIONS "calculate_upfront_costs" arguments)
      with (call_calculate_upfront_costs arguments).
    unfold call_calculate_upfront_costs.
    destruct (check_signature _ _ _ arguments); [|raised_is_other].
    cbn [try_bind].
    read_positive "property_price"%string V HV.
    cbn [try_bind finish fst]. unfold Tools.calculate_upfront_costs.
    rewrite (proj2 (Qle_bool_false V 0) HV). cbn. discriminate.
  - intros Herr. split; [|intros Hname; contradiction Hname; reflexivity].
    revert Herr.
    change (TOOL_FUNCTIONS "buy_vs_rent_analysis" arguments)
      with (call_buy_vs_rent_analysis arguments).
    unfold call_buy_vs_rent_analysis.
    destruct (check_signature _ _ _ arguments); [|raised_is_not_listed].
    cbn [try_bind].
    read_positive "monthly_rent"%string R HR.
    read_positive "property_price"%string V HV.
    assert (Hstay : forall y, arg_int "stay_years" arguments = Ok y -> (0 < y)%Z).
    { unfold arg_int. intros y.
      destruct (dict_get "stay_years" arguments) as [v|] eqn:Hget; [|discriminate].
      destruct (positive_number v (Hpositive "stay_years"%string v ltac:(cbn; tauto) Hget))
        as (q & Hq & Hq0).
      destruct (as_int v) as [z|] eqn:Hz; [|discriminate].
      intros [= <-]. exact (as_int_positive v q z Hq Hq0 Hz). }
    destruct (arg_int "stay_years" arguments) as [y|]; [|raised_is_not_listed].
    specialize (Hstay y eq_refl). cbn [try_bind].
    read_positive "income"%string income HI.
    destruct (arg_float "down_payment" arguments None) as [D|]; [|raised_is_not_listed].
    cbn [try_bind].
    destruct (arg_float "interest_rate" arguments (Some (45 # 10))) as [r|];
      [|raised_is_not_listed].
    cbn [try_bind finish].
    destruct (Tools.buy_vs_rent_analysis R V y income D r) as [e details | f | key] eqn:Hcalc.
    + pose proof (bvr_failure_of_positive_inputs _ _ _ _ _ _ _ _ HR HV Hstay HI Hcalc)
        as Hnot.
      destruct details; cbn; intros [= <-]; exact Hnot.
    + cbn. discriminate.
    + raised_is_not_listed.
Qed.

End UnreachableGuards.

Lemma positivity_guards_unreachable_witness :
  Json.dict_get "error"
    (Agent.execute_tool Sample.py_str Sample.exn_str Calculators.TOOL_FUNCTIONS
       "check_ltv"
       [("property_price"%string, Json.VInt 1000000);
        ("down_payment"%string, Json.VInt (-5))])
  = Some (Json.VStr "Down payment cannot be negative") /\
  ~ In "Down payment cannot be negative"%string
      ["Property price must be positive"; "Monthly rent must be positive";
       "Stay duration must be positive"; "Income must be positive"]%string /\
  ("check_ltv"%string <> "buy_vs_rent_analysis"%string ->
   "Down payment cannot be negative"%string <> "Loan amount must be positive"%string).
Proof.
  split; [vm_compute; reflexivity|].
  apply (positivity_guards_unreachable Sample.py_str Sample.exn_str "check_ltv"
           [("property_price"%string, Json.VInt 1000000);
            ("down_payment"%string, Json.VInt (-5))]).
  vm_compute. reflexivity.
Defined.

(** * Further properties of the session store *)
Section SessionFacts.

Import Json State.

(** The [add_message] calls of a list of messages (role, content and clock
    reading), one after the other. *)
Local Abbreviation add_all session_id msgs start :=
  (fold_left
     (fun acc m =>
        store <- acc ;; add_message session_id (fst (fst m)) (snd (fst m)) (snd m) store)
     msgs start).

Lemma add_all_existing (session_id : string) (msgs : list (string * string * string))
    (store : gmap string session) (s : session) :
  store !! session_id = Some s ->
  exists store' s',
    add_all session_id msgs (Ok store) = Ok store' /\
    store' !! session_id = Some s' /\
    messages s'
    = messages s ++
      List.map (fun m => {| role := fst (fst m); content := snd (fst m);
                            timestamp := snd m |}) msgs /\
    created_at s' = created_at s /\ user_data s' = user_data s /\
    forall other, other <> session_id -> store' !! other = store !! other.
Proof.
  revert store s. induction msgs as [|m rest IH]; intros store s Hs; cbn [fold_left].
  - exists store, s. rewrite app_nil_r. repeat split; assumption.
  - cbn [try_bind]. unfold add_message at 2. rewrite Hs.
    match goal with
    | |- context [Ok (<[session_id := ?new]> store)] =>
        destruct (IH (<[session_id := new]> store) new (lookup_insert_eq _ _ _))
          as (store' & s' & Hfold & Hs' & Hm & Hc & Hu & Hother)
    end.
    exists store', s'. split; [exact Hfold|]. split; [exact Hs'|].
    cbn [messages created_at user_data] in Hm, Hc, Hu.
    split; [rewrite Hm, <- app_assoc; reflexivity|].
    split; [exact Hc|]. split; [exact Hu|].
    intros other Hne. rewrite (Hother other Hne). apply lookup_insert_ne. congruence.
Qed.

(** Create, add, read: the history of a session is the list of the
    messages added to it since it was created, in the order of the calls,
    with their roles and contents (the timestamps are not returned).  The
    session exists, its user data is still empty, and no other session has
    changed. *)
Theorem history_is_what_was_added
    (session_id created : string) (msgs : list (string * string * string))
    (store : gmap string session) :
  exists store',
    add_all session_id msgs (Ok (fst (create_session session_id created store)))
    = Ok store' /\
    get_history session_id store'
    = List.map (fun m => plain_message (fst (fst m)) (snd (fst m))) msgs /\
    session_exists session_id store' = true /\
    get_user_data session_id store' = [] /\
    forall other, other <> session_id -> store' !! other = store !! other.
Proof.
  cbn [create_session fst].
  match goal with
  | |- context [Ok (<[session_id := ?new]> store)] =>
      destruct (add_all_existing session_id msgs (<[session_id := new]> store) new
                  (lookup_insert_eq _ _ _))
        as (store' & s' & Hfold & Hs' & Hm & _ & Hu & Hother)
  end.
  exists store'. split; [exact Hfold|].
  cbn [messages user_data app] in Hm, Hu.
  unfold get_history, session_exists, get_user_data. rewrite Hs', Hm, Hu.
  split; [rewrite List.map_map; reflexivity|].
  split; [apply bool_decide_eq_true; eauto|].
  split; [reflexivity|].
  intros other Hne. rewrite (Hother other Hne). apply lookup_insert_ne. congruence.
Qed.

Lemma dict_get_set (key k : string) (v : value) (d : dict) :
  dict_get k (dict_set key v d) = if String.eqb k key then Some v else dict_get k d.
Proof.
  induction d as [|[k0 w] rest IH]; cbn [dict_set dict_get].
  - destruct (String.eqb k key); reflexivity.
  - destruct (String.eqb_spec key k0) as [-> | Hne]; cbn [dict_get].
    + destruct (String.eqb k k0); reflexivity.
    + rewrite IH. destruct (String.eqb_spec k k0) as [-> | Hk]; [|reflexivity].
      destruct (String.eqb_spec k0 key) as [<- | _]; [contradiction | reflexivity].
Qed.

Lemma dict_get_app (k : string) (d e : dict) :
  dict_get k (d ++ e)
  = match dict_get k d with Some v => Some v | None => dict_get k e end.
Proof.
  induction d as [|[k0 w] rest IH]; cbn [app dict_get]; [reflexivity|].
  destruct (String.eqb k k0); [reflexivity | exact IH].
Qed.

(** [d.update(data)]: a key of [data] reads its value in [data] (the last
    one, should [data] name it twice), any other key reads as before. *)
Lemma dict_get_update (k : string) (d data : dict) :
  dict_get k (dict_update d data)
  = match dict_get k (rev data) with Some v => Some v | None => dict_get k d end.
Proof.
  unfold dict_update. revert d.
  induction data as [|[k0 w] rest IH]; intros d; cbn [fold_left rev fst snd].
  - reflexivity.
  - rewrite IH, dict_get_app, dict_get_set. cbn [dict_get].
    destruct (dict_get k (rev rest)); [reflexivity|].
    destruct (String.eqb k k0); reflexivity.
Qed.

(** Update, read: after [update_user_data] on an existing session, a key of
    [data] reads its value in [data] and every other key reads as before, so
    no key is lost; the history of the session and all other sessions are
    as they were.  On a session that does not exist the update raises,
    while [get_user_data] answers with the empty dictionary. *)
Theorem user_data_after_update
    (session_id : string) (data : dict) (store : gmap string session) :
  match store !! session_id with
  | Some _ =>
      exists store',
        update_user_data session_id data store = Ok store' /\
        (forall k,
           dict_get k (get_user_data session_id store')
           = match dict_get k (rev data) with
             | Some v => Some v
             | None => dict_get k (get_user_data session_id store)
             end) /\
        get_history session_id store' = get_history session_id store /\
        forall other, other <> session_id -> store' !! other = store !! other
  | None =>
      update_user_data session_id data store
      = Throw (ValueError ("Session " +:+ session_id +:+ " not found")) /\
      get_user_data session_id store = []
  end.
Proof.
  unfold update_user_data, get_user_data, get_history.
  destruct (store !! session_id) as [s|] eqn:Hs; [|split; reflexivity].
  eexists. split; [reflexivity|]. rewrite lookup_insert_eq. cbn [user_data messages].
  split; [intros k; apply dict_get_update|].
  split; [reflexivity|].
  intros other Hne. apply lookup_insert_ne. congruence.
Qed.

End SessionFacts.

(** * Further properties of the argument coercion and the summary *)
Section CoercionFacts.

Import Json Main.

Variable py_int : string -> option Z.
Variable py_float : string -> option Q.

Local Abbreviation convert_value := (convert_value py_int py_float).
Local Abbreviation convert_strings_to_numbers := (convert_strings_to_numbers py_int py_float).

(** [convert_strings_to_numbers] neither adds, drops nor reorders keys;
    reading a key of the converted dictionary gives the conversion of what
    the key held; and a value that is neither a string nor a dictionary is
    left as it is: numbers, booleans, [None], and lists, whose strings are
    not converted. *)
Theorem conversion_keeps_keys (data : dict) :
  List.map fst (convert_strings_to_numbers data) = List.map fst data /\
  (forall k, dict_get k (convert_strings_to_numbers data)
             = option_map convert_value (dict_get k data)) /\
  (forall k v, dict_get k data = Some v ->
               (forall s, v <> VStr s) -> (forall entries, v <> VDict entries) ->
               dict_get k (convert_strings_to_numbers data) = Some v).
Proof.
  assert (Hget : forall k, dict_get k (convert_strings_to_numbers data)
                           = option_map convert_value (dict_get k data)).
  { intros k. unfold Main.convert_strings_to_numbers.
    induction data as [|[k0 v0] rest IH]; cbn [List.map dict_get fst snd]; [reflexivity|].
    destruct (String.eqb k k0); [reflexivity | exact IH]. }
  split; [|split; [exact Hget|]].
  - unfold Main.convert_strings_to_numbers. rewrite List.map_map. reflexivity.
  - intros k v Hk Hstr Hdict. rewrite Hget, Hk. cbn [option_map]. f_equal.
    destruct v; try reflexivity; [destruct (Hstr s) | destruct (Hdict entries)]; reflexivity.
Qed.

End CoercionFacts.

Section SummaryFacts.

Import Json Agent Main.

Variable py_str : value -> string.

Local Abbreviation format_entry := (format_entry py_str).
Local Abbreviation response_parts := (response_parts py_str).
Local Abbreviation format_tool_results_response := (format_tool_results_response py_str).

(** The successful entries of a list of tool results. *)
Local Abbreviation successes results :=
  (List.filter (fun entry : tool_result => negb (dict_has "error" (result entry))) results).

Lemma response_parts_successes (results : list tool_result) :
  response_parts results = response_parts (successes results).
Proof.
  induction results as [|entry rest IH]; [reflexivity|].
  cbn [Main.response_parts List.filter].
  destruct (dict_has "error" (result entry)) eqn:E; cbn [negb].
  - unfold Main.format_entry at 1. rewrite E. cbn [try_bind]. rewrite IH.
    destruct (response_parts (successes rest)); reflexivity.
  - cbn [Main.response_parts]. rewrite IH. reflexivity.
Qed.

(** Failed and skipped results are invisible to the summary: it is the
    summary of the successful entries alone, and when every entry is a
    failure, or names no tool of the registry, it is empty. *)
Theorem summary_ignores_failures (results : list tool_result) :
  format_tool_results_response results
  = format_tool_results_response (successes results) /\
  (Forall (fun entry => dict_has "error" (result entry) = true \/
                        known_tool (tool_name entry) = false) results ->
   format_tool_results_response results = Ok EmptyString).
Proof.
  split.
  - unfold Main.format_tool_results_response.
    destruct results as [|entry rest]; [reflexivity|].
    rewrite response_parts_successes.
    destruct (successes (entry :: rest)); reflexivity.
  - intros Hall. unfold Main.format_tool_results_response.
    destruct results as [|entry rest]; [reflexivity|].
    assert (Hparts : response_parts (entry :: rest) = Ok []).
    { induction Hall as [|e l He _ IH]; [reflexivity|].
      cbn [Main.response_parts]. rewrite IH.
      assert (Hentry : format_entry e = Ok []).
      { unfold Main.format_entry. destruct (dict_has "error" (result e)); [reflexivity|].
        destruct He as [He | He]; [discriminate|].
        unfold known_tool, TOOL_NAMES in He. cbn [existsb] in He.
        destruct (String.eqb (tool_name e) "calculate_emi"); [discriminate|].
        destruct (String.eqb (tool_name e) "check_ltv"); [discriminate|].
        destruct (String.eqb (tool_name e) "calculate_upfront_costs"); [discriminate|].
        destruct (String.eqb (tool_name e) "buy_vs_rent_analysis"); [discriminate|].
        reflexivity. }
      rewrite Hentry. reflexivity. }
    rewrite Hparts. reflexivity.
Qed.

End SummaryFacts.

Lemma summary_ignores_failures_witness :
  Main.format_tool_results_response Sample.py_str
    [ {| Main.tool_name := "check_ltv";
         Main.tr_arguments := [];
         Main.result := Main.skipped_result "Missing required parameters: down_payment" |} ]
  = Json.Ok EmptyString.
Proof.
  apply (summary_ignores_failures Sample.py_str).
  repeat constructor.
Defined.

(** ** The record of tool results *)
Section RecordedResults.

Import Json Agent Calculators State Main.

Variable py_str : value -> string.
Variable exn_str : exn -> string.
Variable py_int : string -> option Z.
Variable py_float : string -> option Q.
Variable json_loads : string -> option value.
Variable json_dumps : dict -> string.
Variable trace_groq_call : list message -> try completion.

(** An entry of [tool_results_list] as the loop writes it: the validator's
    reason of a skipped call, or the dispatcher's answer to the recorded
    name and arguments. *)
Local Abbreviation recorded_by invoke entry :=
  ((exists reason, result entry = skipped_result reason) \/
   result entry = execute_tool py_str exn_str invoke (tool_name entry) (tr_arguments entry)).

Lemma run_tools_records
    (invoke : string -> dict -> outcome)
    (assistant_content : string) (calls : list tool_call) (st st' : loop_state) :
  run_tools py_str exn_str invoke py_int py_float json_loads json_dumps
    assistant_content calls st = Ok st' ->
  exists added,
    tool_results_list st' = tool_results_list st ++ added /\
    Forall (fun entry => recorded_by invoke entry) added.
Proof.
  unfold Main.run_tools.
  destruct (classify py_str py_int py_float json_loads calls) as [[valid invalid] | e];
    cbn [try_bind]; [|discriminate].
  intros [= <-]. cbn [tool_results_list fst snd].
  eexists. split; [reflexivity|].
  apply Forall_app. split; apply List.Forall_forall; intros entry Hin;
    apply in_map_iff in Hin; destruct Hin as (x & <- & Hx); cbn [result].
  - left. eauto.
  - right. unfold executed in Hx. apply in_map_iff in Hx.
    destruct Hx as (ca & <- & _). reflexivity.
Qed.

(** A requested call with its parsed arguments is accepted when the
    validator passes it. *)
Local Abbreviation accepted request :=
  (fst (validate_tool_arguments py_str (name (fst request)) (snd request))).

(** The entry recorded for a call that the validator rejects. *)
Local Abbreviation skipped_entry request :=
  {| tool_name := name (fst request);
     tr_arguments := snd request;
     result :=
       skipped_result
         (snd (validate_tool_arguments py_str (name (fst request)) (snd request))) |}.

(** The entry recorded for a call that is run. *)
Local Abbreviation executed_entry invoke request :=
  {| tool_name := name (fst request);
     tr_arguments := snd request;
     result := execute_tool py_str exn_str invoke (name (fst request)) (snd request) |}.

(** The first loop parses every call and sorts the calls by the validator's
    verdict, keeping their order. *)
Lemma classify_sorts (calls : list tool_call)
    (valid : list (tool_call * dict)) (invalid : list (tool_call * dict * string)) :
  classify py_str py_int py_float json_loads calls = Ok (valid, invalid) ->
  exists parsed,
    Forall2 (fun call args =>
               parse_arguments py_int py_float json_loads (arguments call) = Ok args)
      calls parsed /\
    valid = List.filter (fun request => accepted request) (combine calls parsed) /\
    invalid
    = List.map (fun request =>
                  (fst request, snd request,
                   snd (validate_tool_arguments py_str (name (fst request)) (snd request))))
        (List.filter (fun request => negb (accepted request)) (combine calls parsed)).
Proof.
  revert valid invalid.
  induction calls as [|call rest IH]; intros valid invalid; cbn [Main.classify].
  - intros [= <- <-]. exists []. repeat split. constructor.
  - destruct (parse_arguments py_int py_float json_loads (arguments call))
      as [args | e] eqn:Hparse; cbn [try_bind]; [|discriminate].
    destruct (classify py_str py_int py_float json_loads rest) as [[later_valid later_invalid] | e];
      cbn [try_bind]; [|discriminate].
    destruct (IH later_valid later_invalid eq_refl) as (parsed & Hparsed & -> & ->).
    intros Hsorted. exists (args :: parsed).
    split; [constructor; assumption|].
    cbn [combine List.filter fst snd].
    destruct (validate_tool_arguments py_str (name call) args) as [[|] error_msg] eqn:Hv;
      cbn [fst snd negb List.map] in *; rewrite ?Hv; cbn [snd];
      injection Hsorted as <- <-; split; reflexivity.
Qed.

(** One pass over the requested calls parses the arguments of every call
    and records every call once, under its tool name and with its parsed
    arguments: first the calls that the validator rejects, each with the
    validator's reason (marked [skipped]), then the calls that it accepts,
    each with the dispatcher's answer to the parsed arguments; both groups
    are in the order of the request.  Nothing recorded before is changed. *)
Theorem every_call_is_recorded
    (invoke : string -> dict -> outcome)
    (assistant_content : string) (calls : list tool_call) (st st' : loop_state) :
  run_tools py_str exn_str invoke py_int py_float json_loads json_dumps
    assistant_content calls st = Ok st' ->
  exists parsed,
    Forall2 (fun call args =>
               parse_arguments py_int py_float json_loads (arguments call) = Ok args)
      calls parsed /\
    tool_results_list st'
    = tool_results_list st
      ++ List.map (fun request => skipped_entry request)
           (List.filter (fun request => negb (accepted request)) (combine calls parsed))
      ++ List.map (fun request => executed_entry invoke request)
           (List.filter (fun request => accepted request) (combine calls parsed)).
Proof.
  unfold Main.run_tools.
  destruct (classify py_str py_int py_float json_loads calls) as [[valid invalid] | e]
    eqn:Hsort; cbn [try_bind]; [|discriminate].
  destruct (classify_sorts _ _ _ Hsort) as (parsed & Hparsed & -> & ->).
  intros [= <-]. cbn [tool_results_list fst snd].
  exists parsed. split; [exact Hparsed|].
  unfold executed. rewrite !List.map_map. reflexivity.
Qed.

(** The summary templates accept whatever the dispatcher returns for the
    calculators of the registry. *)
Lemma dispatcher_answer_formats (tool_name : string) (arguments : dict) (entry : tool_result) :
  Main.tool_name entry = tool_name ->
  result entry = execute_tool py_str exn_str TOOL_FUNCTIONS tool_name arguments ->
  exists parts, format_entry py_str entry = Ok parts.
Proof.
  intros Hname Hresult. unfold format_entry. rewrite Hresult, Hname.
  unfold execute_tool, execute_tool_traced.
  destruct (known_tool tool_name) eqn:K; cbn [negb fst]; [|eexists; reflexivity].
  destruct (validate_tool_arguments py_str tool_name arguments) as [[|] reason];
    cbn [negb fst]; [|eexists; reflexivity].
  destruct (known_tool_cases _ K) as [-> | [-> | [-> | ->]]].
  - change (TOOL_FUNCTIONS "calculate_emi" arguments) with (call_calculate_emi arguments).
    unfold call_calculate_emi.
    repeat match goal with
           | |- context [try_bind ?m _] =>
               destruct m; cbn [try_bind finish fst]; [|eexists; reflexivity]
           end.
    destruct (Tools.calculate_emi _ _ _); cbn; eexists; reflexivity.
  - change (TOOL_FUNCTIONS "check_ltv" arguments) with (call_check_ltv arguments).
    unfold call_check_ltv.
    repeat match goal with
           | |- context [try_bind ?m _] =>
               destruct m; cbn [try_bind finish fst]; [|eexists; reflexivity]
           end.
    destruct (Tools.check_ltv _ _) as [e | f]; [cbn; eexists; reflexivity|].
    cbn [payload_dict fst]. unfold format_ltv, dict_get_default.
    cbn [ltv_dict dict_get String.eqb Ascii.eqb Bool.eqb truthy].
    destruct (Tools.is_valid f); cbn; eexists; reflexivity.
  - change (TOOL_FUNCTIONS "calculate_upfront_costs" arguments)
      with (call_calculate_upfront_costs arguments).
    unfold call_calculate_upfront_costs.
    repeat match goal with
           | |- context [try_bind ?m _] =>
               destruct m; cbn [try_bind finish fst]; [|eexists; reflexivity]
           end.
    destruct (Tools.calculate_upfront_costs _); cbn; eexists; reflexivity.
  - change (TOOL_FUNCTIONS "buy_vs_rent_analysis" arguments)
      with (call_buy_vs_rent_analysis arguments).
    unfold call_buy_vs_rent_analysis.
    repeat match goal with
           | |- context [try_bind ?m _] =>
               destruct m; cbn [try_bind finish fst]; [|eexists; reflexivity]
           end.
    destruct (Tools.buy_vs_rent_analysis _ _ _ _ _ _) as [e [details|] | f | key];
      try (cbn; eexists; reflexivity).
    cbn [bvr_outcome fst]. unfold format_bvr, dict_get_default.
    cbn [bvr_dict dict_has dict_get String.eqb Ascii.eqb Bool.eqb truthy].
    destruct (Tools.reasoning f); cbn [List.map iterate try_bind];
      destruct (negb (Qeq_bool (Tools.bvr_emi f) 0)); cbn; eexists; reflexivity.
Qed.

Lemma skipped_result_formats (entry : tool_result) (reason : string) :
  result entry = skipped_result reason -> format_entry py_str entry = Ok [].
Proof. intros H. unfold format_entry. rewrite H. reflexivity. Qed.

Lemma recorded_results_format (results : list tool_result) :
  Forall (fun entry => recorded_by TOOL_FUNCTIONS entry) results ->
  exists text, format_tool_results_response py_str results = Ok text.
Proof.
  intros Hall.
  assert (Hparts : exists parts, response_parts py_str results = Ok parts).
  { induction Hall as [|entry rest Hentry _ [more IH]]; [eexists; reflexivity|].
    cbn [response_parts]. rewrite IH.
    destruct Hentry as [[reason Hskip] | Hrun].
    - rewrite (skipped_result_formats _ _ Hskip). eexists. reflexivity.
    - destruct (dispatcher_answer_formats _ _ entry eq_refl Hrun) as [parts ->].
      eexists. reflexivity. }
  destruct Hparts as [parts Hparts]. unfold format_tool_results_response.
  destruct results; [eexists; reflexivity|]. rewrite Hparts. eexists. reflexivity.
Qed.

Local Abbreviation loop_body :=
  (loop_body py_str exn_str TOOL_FUNCTIONS py_int py_float json_loads json_dumps
     trace_groq_call).
Local Abbreviation while_loop :=
  (while_loop py_str exn_str TOOL_FUNCTIONS py_int py_float json_loads json_dumps
     trace_groq_call).

Lemma loop_body_records (st : loop_state) :
  Forall (fun entry => recorded_by TOOL_FUNCTIONS entry) (tool_results_list st) ->
  match loop_body st with
  | Continue s | Break s | Fault s _ =>
      Forall (fun entry => recorded_by TOOL_FUNCTIONS entry) (tool_results_list s)
  end.
Proof.
  intros Hst. unfold Main.loop_body. cbv zeta. cbn [messages].
  destruct (trace_groq_call (messages st)) as [reply | e]; [|exact Hst].
  set (text := default EmptyString (completion_content reply)).
  destruct (completion_tool_calls reply) as [|call calls].
  - match goal with
    | |- context [say_if_any text say_chunks ?s] =>
        destruct (proj2 (say_if_any_text text s)) as (_ & -> & _)
    end.
    exact Hst.
  - match goal with
    | |- context [say_if_any text say ?s] =>
        pose proof (proj1 (say_if_any_text text s)) as (_ & Hsaid & _);
        set (said := say_if_any text say s) in *
    end.
    destruct (run_tools _ _ _ _ _ _ _ text (call :: calls) said) as [st2 | e] eqn:Hrun.
    + destruct (run_tools_records _ _ _ _ _ Hrun) as (added & -> & Hadded).
      apply Forall_app. split; [rewrite Hsaid; exact Hst | exact Hadded].
    + rewrite Hsaid. exact Hst.
Qed.

Lemma while_loop_records (fuel : nat) (st : loop_state) (r : loop_result) :
  Forall (fun entry => recorded_by TOOL_FUNCTIONS entry) (tool_results_list st) ->
  while_loop fuel st = Some r ->
  Forall (fun entry => recorded_by TOOL_FUNCTIONS entry)
    (tool_results_list (result_state r)).
Proof.
  revert st. induction fuel as [|fuel IH]; intros st Hst; cbn [Main.while_loop].
  - destruct (iteration st <? max_iterations); [discriminate|].
    intros [= <-]. exact Hst.
  - destruct (iteration st <? max_iterations); [|intros [= <-]; exact Hst].
    pose proof (loop_body_records st Hst) as Hbody.
    destruct (loop_body st) as [s | s | s e].
    + apply IH. exact Hbody.
    + intros [= <-]. exact Hbody.
    + intros [= <-]. exact Hbody.
Qed.

(** With the calculators of the registry behind the dispatcher, the
    fallback summary cannot fail: whatever the model requests, the tool
    results the loop has gathered when it ends are accepted by the summary
    templates. *)
Theorem summary_of_gathered_results_exists
    (fuel : nat) (transcript : list message) (r : loop_result) :
  while_loop fuel (initial_state transcript) = Some r ->
  exists text,
    format_tool_results_response py_str (tool_results_list (result_state r)) = Ok text.
Proof.
  intros Hloop. apply recorded_results_format.
  apply (while_loop_records fuel (initial_state transcript) r); [constructor | exact Hloop].
Qed.

End RecordedResults.

Lemma every_call_is_recorded_witness :
  exists st' parsed,
    Sample.run_tools "" [Sample.emi_request; Sample.ltv_zero_request]
      (Main.initial_state Sample.opening) = Json.Ok st' /\
    Forall2 (fun call args =>
               Main.parse_arguments Sample.py_int Sample.py_float Sample.json_loads
                 (State.arguments call) = Json.Ok args)
      [Sample.emi_request; Sample.ltv_zero_request] parsed /\
    Main.tool_results_list st'
    = []
      ++ List.map
           (fun request =>
              {| Main.tool_name := State.name (fst request);
                 Main.tr_arguments := snd request;
                 Main.result :=
                   Main.skipped_result
                     (snd (Agent.validate_tool_arguments Sample.py_str
                             (State.name (fst request)) (snd request))) |})
           (List.filter
              (fun request =>
                 negb (fst (Agent.validate_tool_arguments Sample.py_str
                              (State.name (fst request)) (snd request))))
              (combine [Sample.emi_request; Sample.ltv_zero_request] parsed))
      ++ List.map
           (fun request =>
              {| Main.tool_name := State.name (fst request);
                 Main.tr_arguments := snd request;
                 Main.result :=
                   Agent.execute_tool Sample.py_str Sample.exn_str
                     Calculators.TOOL_FUNCTIONS (State.name (fst request)) (snd request) |})
           (List.filter
              (fun request =>
                 fst (Agent.validate_tool_arguments Sample.py_str
                        (State.name (fst request)) (snd request)))
              (combine [Sample.emi_request; Sample.ltv_zero_request] parsed)).
Proof.
  eexists.
  destruct (every_call_is_recorded Sample.py_str Sample.exn_str Sample.py_int
              Sample.py_float Sample.json_loads Sample.json_dumps
              Calculators.TOOL_FUNCTIONS
              "" [Sample.emi_request; Sample.ltv_zero_request]
              (Main.initial_state Sample.opening) _ eq_refl) as (parsed & H).
  exists parsed. split; [reflexivity | exact H].
Defined.

Lemma summary_of_gathered_results_exists_witness :
  exists r text,
    Sample.run_loop (Sample.scripted Sample.skipped_then_silence) Sample.opening = Some r /\
    Main.format_tool_results_response Sample.py_str
      (Main.tool_results_list (Main.result_state r)) = Json.Ok text.
Proof.
  eexists.
  destruct (summary_of_gathered_results_exists Sample.py_str Sample.exn_str
              Sample.py_int Sample.py_float Sample.json_loads Sample.json_dumps
              (Sample.scripted Sample.skipped_then_silence)
              Main.max_iterations Sample.opening _ eq_refl) as (text & H).
  exists text. split; [reflexivity | exact H].
Defined.

(** ** What a call streams and what it stores *)
Section StreamFacts.

Import Json Agent State Main.

Variable py_str : value -> string.
Variable exn_str : exn -> string.
Variable invoke : string -> dict -> outcome.
Variable py_int : string -> option Z.
Variable py_float : string -> option Q.
Variable json_loads : string -> option value.
Variable json_dumps : dict -> string.
Variable trace_groq_call : list message -> try completion.
Variable SYSTEM_PROMPT : string.

Local Abbreviation run_tools :=
  (run_tools py_str exn_str invoke py_int py_float json_loads json_dumps).
Local Abbreviation loop_body :=
  (loop_body py_str exn_str invoke py_int py_float json_loads json_dumps trace_groq_call).
Local Abbreviation while_loop :=
  (while_loop py_str exn_str invoke py_int py_float json_loads json_dumps trace_groq_call).
Local Abbreviation stream_chat_response :=
  (stream_chat_response py_str exn_str invoke py_int py_float json_loads
     json_dumps trace_groq_call SYSTEM_PROMPT).
Local Abbreviation finalize := (finalize py_str exn_str).
Local Abbreviation error_event := (error_event exn_str).

(** The events yielded so far are content events, and their texts put
    together are [full_response]. *)
Local Abbreviation streams st :=
  (exists texts, events st = List.map ContentEvent texts /\
                 full_response st = String.concat "" texts).

Lemma concat_empty_sep_app (xs ys : list string) :
  String.concat "" (xs ++ ys) = String.concat "" xs +:+ String.concat "" ys.
Proof.
  induction xs as [|x xs IH]; [reflexivity|].
  rewrite <- app_comm_cons, !concat_empty_sep_cons, IH, append_assoc. reflexivity.
Qed.

Lemma say_streams (text : string) (st : loop_state) : streams st -> streams (say text st).
Proof.
  intros (texts & He & Hf). exists (texts ++ [text]). cbn [say events full_response].
  rewrite He, Hf, List.map_app, concat_empty_sep_app. split; reflexivity.
Qed.

Lemma say_fold_streams (pieces : list string) (st : loop_state) :
  streams st -> streams (fold_left (fun acc chunk => say chunk acc) pieces st).
Proof.
  revert st. induction pieces as [|piece rest IH]; intros st Hst; cbn [fold_left];
    [exact Hst|].
  apply IH, say_streams, Hst.
Qed.

Lemma say_if_any_streams (text : string) (st : loop_state) :
  streams st ->
  streams (say_if_any text say st) /\ streams (say_if_any text say_chunks st).
Proof.
  intros Hst. unfold say_if_any. destruct (String.eqb text ""); [split; exact Hst|].
  split; [apply say_streams | apply say_fold_streams]; exact Hst.
Qed.

Lemma run_tools_streams (assistant_content : string) (calls : list tool_call)
    (st st' : loop_state) :
  run_tools assistant_content calls st = Ok st' -> streams st -> streams st'.
Proof.
  unfold Main.run_tools.
  destruct (classify py_str py_int py_float json_loads calls); cbn [try_bind];
    [intros [= <-]; trivial | discriminate].
Qed.

Lemma loop_body_streams (st : loop_state) :
  streams st ->
  match loop_body st with
  | Continue s | Break s | Fault s _ => streams s
  end.
Proof.
  intros Hst. unfold Main.loop_body. cbv zeta. cbn [messages].
  destruct (trace_groq_call (messages st)) as [reply | e]; [|exact Hst].
  set (text := default EmptyString (completion_content reply)).
  destruct (completion_tool_calls reply) as [|call calls].
  - match goal with
    | |- context [say_if_any text say_chunks ?s] =>
        apply (proj2 (say_if_any_streams text s Hst))
    end.
  - match goal with
    | |- context [say_if_any text say ?s] =>
        pose proof (proj1 (say_if_any_streams text s Hst)) as Hsaid;
        set (said := say_if_any text say s) in *
    end.
    destruct (run_tools text (call :: calls) said) as [st2 | e] eqn:Hrun.
    + exact (run_tools_streams _ _ _ _ Hrun Hsaid).
    + exact Hsaid.
Qed.

Lemma while_loop_streams (fuel : nat) (st : loop_state) (r : loop_result) :
  streams st -> while_loop fuel st = Some r -> streams (result_state r).
Proof.
  revert st. induction fuel as [|fuel IH]; intros st Hst; cbn [Main.while_loop].
  - destruct (iteration st <? max_iterations); [discriminate|].
    intros [= <-]. exact Hst.
  - destruct (iteration st <? max_iterations); [|intros [= <-]; exact Hst].
    pose proof (loop_body_streams st Hst) as Hbody.
    destruct (loop_body st) as [s | s | s e].
    + apply IH. exact Hbody.
    + intros [= <-]. exact Hbody.
    + intros [= <-]. exact Hbody.
Qed.

(** How a call ends, read off its events: after content events only, a
    done event, with the streamed text stored as the reply unless it is
    empty, or an error event, with nothing stored. *)
Local Abbreviation closes session_id now store store' texts final :=
  (match final with
   | DoneEvent =>
       if String.eqb (String.concat "" texts) ""
       then store' = store
       else add_message session_id "assistant" (String.concat "" texts) now store
            = Ok store'
   | ErrorEvent _ => store' = store
   | ContentEvent _ => False
   end).

Lemma finalize_outcome (session_id now : string) (store : gmap string session)
    (s : session) (st : loop_state) :
  store !! session_id = Some s -> streams st ->
  exists store' texts final,
    finalize session_id now store st = (store', List.map ContentEvent texts ++ [final]) /\
    closes session_id now store store' texts final.
Proof.
  intros Hs (texts & He & Hf).
  assert (Hadd : forall reply, exists store',
             add_message session_id "assistant" reply now store = Ok store').
  { intros reply. destruct (add_message_appends store session_id "assistant" reply now s Hs)
      as (store' & H & _). eauto. }
  assert (Hdone : forall st1 texts1,
            events st1 = List.map ContentEvent texts1 ->
            full_response st1 = String.concat "" texts1 ->
            String.eqb (full_response st1) "" = false ->
            exists store' texts' final,
              (match add_message session_id "assistant" (full_response st1) now store with
               | Ok store' => (store', events st1 ++ [DoneEvent])
               | Throw e => (store, events st1 ++ [error_event e])
               end) = (store', List.map ContentEvent texts' ++ [final]) /\
              closes session_id now store store' texts' final).
  { intros st1 texts1 He1 Hf1 Hne. destruct (Hadd (full_response st1)) as (store' & Hstore).
    rewrite Hstore. exists store', texts1, DoneEvent. rewrite He1.
    split; [reflexivity|]. rewrite <- Hf1, Hne. exact Hstore. }
  unfold Main.finalize.
  destruct (String.eqb (full_response st) "") eqn:Hempty.
  - destruct (tool_results_list st) as [|entry rest] eqn:Hresults.
    + rewrite Hempty. cbn [negb]. rewrite Hresults.
      exists store, texts, DoneEvent. rewrite He. split; [reflexivity|].
      rewrite <- Hf, Hempty. reflexivity.
    + destruct (format_tool_results_response py_str (entry :: rest)) as [summary | e];
        cbn [try_bind].
      * destruct (proj2 (say_if_any_streams summary st
                           (ex_intro _ texts (conj He Hf)))) as (texts2 & He2 & Hf2).
        destruct (say_if_any_text summary st) as (_ & Hf3 & Ht3 & _).
        set (st2 := say_if_any summary say_chunks st) in *.
        destruct (String.eqb (full_response st2) "") eqn:Hempty2; cbn [negb].
        -- rewrite Ht3, Hresults.
           destruct (Hadd basic_response) as (store' & Hstore). rewrite Hstore.
           exists store', (texts2 ++ [basic_response]), DoneEvent.
           rewrite He2, List.map_app, <- app_assoc. split; [reflexivity|].
           rewrite concat_empty_sep_app, <- Hf2.
           apply String.eqb_eq in Hempty2. rewrite Hempty2. exact Hstore.
        -- apply (Hdone st2 texts2 He2 Hf2 Hempty2).
      * exists store, texts, (error_event e). rewrite He. split; reflexivity.
  - cbn [negb]. rewrite Hempty. cbn [negb]. apply (Hdone st texts He Hf Hempty).
Qed.

Lemma stream_outcome (session_id user_message now_user now_reply : string)
    (store : gmap string session) :
  exists store' texts final,
    stream_chat_response session_id user_message now_user now_reply store
    = Some (store', List.map ContentEvent texts ++ [final]) /\
    match store !! session_id with
    | None =>
        store' = store /\ texts = [] /\
        final = error_event (ValueError ("Session " +:+ session_id +:+ " not found"))
    | Some _ =>
        exists store1,
          add_message session_id "user" user_message now_user store = Ok store1 /\
          closes session_id now_reply store1 store' texts final
    end.
Proof.
  unfold Main.stream_chat_response, Main.stream_chat_response_fuel.
  destruct (store !! session_id) as [s|] eqn:Hs.
  - destruct (add_message_appends store session_id "user" user_message now_user s Hs)
      as (store1 & Hadd & _ & _).
    assert (Hs1 : exists s1, store1 !! session_id = Some s1).
    { unfold add_message in Hadd. rewrite Hs in Hadd. injection Hadd as <-.
      rewrite lookup_insert_eq. eauto. }
    destruct Hs1 as [s1 Hs1]. rewrite Hadd.
    set (start := initial_state (with_system_prompt SYSTEM_PROMPT (get_history session_id store1))).
    destruct (while_loop_terminates py_str exn_str invoke py_int py_float json_loads
                json_dumps trace_groq_call max_iterations start) as [r Hr];
      [cbn [start initial_state iteration]; lia|].
    rewrite Hr.
    assert (Hstart : streams start) by (exists []; split; reflexivity).
    pose proof (while_loop_streams _ _ _ Hstart Hr) as Hend.
    destruct r as [st | st e]; cbn [result_state] in Hend.
    + destruct (finalize_outcome session_id now_reply store1 s1 st Hs1 Hend)
        as (store' & texts & final & Hfin & Hclose).
      exists store', texts, final. split; [rewrite Hfin; reflexivity|].
      exists store1. split; [reflexivity | exact Hclose].
    + destruct Hend as (texts & He & _).
      exists store1, texts, (error_event e). rewrite He. split; [reflexivity|].
      exists store1. split; reflexivity.
  - unfold add_message. rewrite Hs.
    exists store, [], (error_event (ValueError ("Session " +:+ session_id +:+ " not found"))).
    split; [reflexivity|]. repeat split.
Qed.

(** Every call returns, and what it yields is a run of content events
    closed by exactly one terminal event, done or error.  On a session that
    does not exist it yields the session-not-found error alone and stores
    nothing. *)
Theorem stream_ends_with_one_terminal_event
    (session_id user_message now_user now_reply : string)
    (store : gmap string session) :
  exists store' texts final,
    stream_chat_response session_id user_message now_user now_reply store
    = Some (store', List.map ContentEvent texts ++ [final]) /\
    (final = DoneEvent \/ exists detail, final = ErrorEvent detail) /\
    (store !! session_id = None ->
     store' = store /\ texts = [] /\
     final = ErrorEvent ("Error processing chat: " +:+
               exn_str (ValueError ("Session " +:+ session_id +:+ " not found")))).
Proof.
  destruct (stream_outcome session_id user_message now_user now_reply store)
    as (store' & texts & final & Hout & Hcase).
  exists store', texts, final. split; [exact Hout|].
  destruct (store !! session_id) as [s|].
  - split; [|discriminate].
    destruct Hcase as (store1 & _ & Hclose).
    destruct final; [destruct Hclose | left; reflexivity | right; eauto].
  - destruct Hcase as (-> & -> & ->). split; [right; eexists; reflexivity|].
    intros _. repeat split.
Qed.

(** What the client has seen is what the history keeps: on an existing
    session the call appends the user's message and, when it ends with the
    done event, the streamed texts put together as the assistant's reply,
    unless that text is empty; when it ends with an error event, text
    already streamed is not stored. *)
Theorem stored_reply_is_the_streamed_text
    (session_id user_message now_user now_reply : string)
    (store : gmap string session) (s : session) :
  store !! session_id = Some s ->
  exists store' texts final,
    stream_chat_response session_id user_message now_user now_reply store
    = Some (store', List.map ContentEvent texts ++ [final]) /\
    get_history session_id store'
    = get_history session_id store ++
      plain_message "user" user_message ::
      match final with
      | DoneEvent =>
          if String.eqb (String.concat "" texts) "" then []
          else [plain_message "assistant" (String.concat "" texts)]
      | _ => []
      end.
Proof.
  intros Hs.
  destruct (stream_outcome session_id user_message now_user now_reply store)
    as (store' & texts & final & Hout & Hcase).
  exists store', texts, final. split; [exact Hout|].
  rewrite Hs in Hcase. destruct Hcase as (store1 & Hadd & Hclose).
  destruct (add_message_appends store session_id "user" user_message now_user s Hs)
    as (store1' & Hadd' & Hhist & _).
  rewrite Hadd in Hadd'. injection Hadd' as <-.
  assert (Hs1 : exists s1, store1 !! session_id = Some s1).
  { unfold add_message in Hadd. rewrite Hs in Hadd. injection Hadd as <-.
    rewrite lookup_insert_eq. eauto. }
  destruct Hs1 as [s1 Hs1].
  destruct final as [c | | c]; [destruct Hclose | | subst store'; exact Hhist].
  destruct (String.eqb (String.concat "" texts) ""); [subst store'; exact Hhist|].
  destruct (add_message_appends store1 session_id "assistant" (String.concat "" texts)
              now_reply s1 Hs1) as (store2 & Hadd2 & Hhist2 & _).
  rewrite Hclose in Hadd2. injection Hadd2 as <-.
  rewrite Hhist2, Hhist, <- app_assoc. reflexivity.
Qed.

(** A call changes the session it is made on and nothing else: every other
    session is as it was, and the session itself keeps its creation time
    and its user data. *)
Theorem stream_changes_one_session_only
    (session_id user_message now_user now_reply : string)
    (store : gmap string session) :
  exists store' yielded,
    stream_chat_response session_id user_message now_user now_reply store
    = Some (store', yielded) /\
    (forall other, other <> session_id -> store' !! other = store !! other) /\
    session_exists session_id store' = session_exists session_id store /\
    get_user_data session_id store' = get_user_data session_id store /\
    (created_at <$> store' !! session_id) = (created_at <$> store !! session_id).
Proof.
  assert (Hkeep : forall role content now (a b : gmap string session),
            add_message session_id role content now a = Ok b ->
            (forall other, other <> session_id -> b !! other = a !! other) /\
            session_exists session_id b = session_exists session_id a /\
            get_user_data session_id b = get_user_data session_id a /\
            (created_at <$> b !! session_id) = (created_at <$> a !! session_id)).
  { intros role content now a b. unfold add_message, session_exists, get_user_data.
    destruct (a !! session_id) as [sa|] eqn:Ha; [|discriminate].
    intros [= <-]. rewrite lookup_insert_eq. split; [|split; [|split; reflexivity]].
    - intros other Hne. apply lookup_insert_ne. congruence.
    - apply bool_decide_ext. split; eauto. }
  destruct (stream_outcome session_id user_message now_user now_reply store)
    as (store' & texts & final & Hout & Hcase).
  exists store', (List.map ContentEvent texts ++ [final]). split; [exact Hout|].
  destruct (store !! session_id) as [s|] eqn:Hs; rewrite <- Hs.
  - destruct Hcase as (store1 & Hadd & Hclose).
    destruct (Hkeep _ _ _ _ _ Hadd) as (Ho1 & He1 & Hu1 & Hc1).
    assert (Hsame : store' = store1 \/
                    exists reply, add_message session_id "assistant" reply now_reply store1
                                  = Ok store').
    { destruct final; [destruct Hclose | | left; exact Hclose].
      destruct (String.eqb (String.concat "" texts) ""); [left; exact Hclose | right; eauto]. }
    destruct Hsame as [-> | [reply Hadd2]].
    + repeat split; assumption.
    + destruct (Hkeep _ _ _ _ _ Hadd2) as (Ho2 & He2 & Hu2 & Hc2).
      split; [intros other Hne; rewrite (Ho2 other Hne); apply Ho1; exact Hne|].
      split; [congruence|]. split; congruence.
  - destruct Hcase as (-> & _ & _). repeat split.
Qed.

End StreamFacts.

Lemma stored_reply_is_the_streamed_text_witness :
  exists store' texts final,
    Sample.chat (Sample.scripted Sample.text_with_tools_then_text) "What is my EMI?"
    = Some (store', List.map Main.ContentEvent texts ++ [final]) /\
    State.get_history "s1" store'
    = State.get_history "s1" Sample.one_session ++
      State.plain_message "user" "What is my EMI?" ::
      match final with
      | Main.DoneEvent =>
          if String.eqb (String.concat "" texts) "" then []
          else [State.plain_message "assistant" (String.concat "" texts)]
      | _ => []
      end.
Proof.
  apply (stored_reply_is_the_streamed_text Sample.py_str Sample.exn_str
           Calculators.TOOL_FUNCTIONS Sample.py_int Sample.py_float Sample.json_loads
           Sample.json_dumps (Sample.scripted Sample.text_with_tools_then_text)
           Sample.SYSTEM_PROMPT "s1" "What is my EMI?" "t1" "t2" Sample.one_session
           {| State.messages := []; State.created_at := "t0"; State.user_data := [] |}).
  apply lookup_insert_eq.
Defined.

(** ** Slices of a streamed text *)
Section SliceFacts.

Import Main.

Lemma substring_length (s : string) (n m : nat) :
  String.length (substring n m s) = Nat.min m (String.length s - n).
Proof.
  revert n m. induction s as [|ch s IH]; intros n m.
  - rewrite substring_empty. cbn [String.length]. lia.
  - destruct n as [|n].
    + destruct m as [|m]; [reflexivity|].
      cbn [substring String.length]. rewrite IH. lia.
    + cbn [substring String.length]. rewrite IH. reflexivity.
Qed.

(** The slices in which a text is streamed: put together they are the
    text; there are as many as 10-character blocks are needed to cover it
    (none for the empty text); the slice number [k] is the 10 characters
    from position [10 k], so no slice is empty, none is longer than 10
    characters, and only the last one can be shorter. *)
Theorem slices_cover_the_text (text : string) :
  String.concat "" (chunks chunk_size text) = text /\
  length (chunks chunk_size text) = (String.length text + 9) / 10 /\
  forall k c,
    nth_error (chunks chunk_size text) k = Some c ->
    c = substring (10 * k) 10 text /\
    1 <= String.length c <= 10 /\
    (S k < length (chunks chunk_size text) -> String.length c = 10).
Proof.
  split; [apply chunks_concat|].
  unfold chunks, chunk_starts, chunk_size.
  replace (String.length text + 10 - 1) with (String.length text + 9) by lia.
  set (blocks := (String.length text + 9) / 10).
  assert (Hblocks : 10 * blocks <= String.length text + 9 < 10 * blocks + 10).
  { unfold blocks.
    pose proof (Nat.div_mod_eq (String.length text + 9) 10) as D.
    pose proof (Nat.mod_upper_bound (String.length text + 9) 10 ltac:(lia)) as U.
    lia. }
  split; [rewrite !length_map, length_seq; reflexivity|].
  intros k c Hk. rewrite !length_map, length_seq.
  rewrite !nth_error_map in Hk.
  destruct (nth_error (seq 0 blocks) k) as [j|] eqn:Hj; [|discriminate].
  assert (Hlt : k < blocks).
  { rewrite <- (length_seq blocks 0). apply (proj1 (nth_error_Some _ _)).
    rewrite Hj. discriminate. }
  rewrite nth_error_seq in Hj.
  assert (Hjk : j = k).
  { destruct (Nat.ltb_spec k blocks); [|lia]. cbn in Hj. congruence. }
  subst j. cbn [option_map] in Hk. injection Hk as <-.
  replace (k * 10) with (10 * k) by lia.
  split; [reflexivity|]. rewrite substring_length. lia.
Qed.

End SliceFacts.

(** ** The transcripts sent to the model *)
Section TranscriptFacts.

Import Json Agent State Main.

Variable py_str : value -> string.
Variable exn_str : exn -> string.
Variable invoke : string -> dict -> outcome.
Variable py_int : string -> option Z.
Variable py_float : string -> option Q.
Variable json_loads : string -> option value.
Variable json_dumps : dict -> string.
Variable trace_groq_call : list message -> try completion.
Variable SYSTEM_PROMPT : string.

Local Abbreviation run_tools :=
  (run_tools py_str exn_str invoke py_int py_float json_loads json_dumps).
Local Abbreviation loop_body :=
  (loop_body py_str exn_str invoke py_int py_float json_loads json_dumps trace_groq_call).
Local Abbreviation while_loop :=
  (while_loop py_str exn_str invoke py_int py_float json_loads json_dumps trace_groq_call).
Local Abbreviation with_system_prompt := (with_system_prompt SYSTEM_PROMPT).

(** An iteration only appends to the transcript. *)
Lemma loop_body_messages (st : loop_state) :
  match loop_body st with
  | Continue s | Break s | Fault s _ => exists extra, messages s = messages st ++ extra
  end.
Proof.
  unfold Main.loop_body. cbv zeta. cbn [messages].
  destruct (trace_groq_call (messages st)) as [reply | e];
    [|exists []; cbn [messages]; rewrite app_nil_r; reflexivity].
  set (text := default EmptyString (completion_content reply)).
  destruct (completion_tool_calls reply) as [|call calls].
  - match goal with
    | |- context [say_if_any text say_chunks ?s] =>
        destruct (proj2 (say_if_any_text text s)) as (_ & _ & ->)
    end.
    exists []. cbn [messages]. rewrite app_nil_r. reflexivity.
  - match goal with
    | |- context [say_if_any text say ?s] =>
        pose proof (proj1 (say_if_any_text text s)) as (_ & _ & Hsaid);
        set (said := say_if_any text say s) in *
    end.
    cbn [messages] in Hsaid.
    destruct (run_tools text (call :: calls) said) as [st2 | e] eqn:Hrun.
    + unfold Main.run_tools in Hrun.
      destruct (classify py_str py_int py_float json_loads (call :: calls));
        cbn [try_bind] in Hrun; [|discriminate].
      injection Hrun as <-. cbn [messages]. rewrite Hsaid. eexists. reflexivity.
    + exists []. rewrite Hsaid, app_nil_r. reflexivity.
Qed.

Lemma while_loop_requests (fuel : nat) (st : loop_state) (r : loop_result) :
  while_loop fuel st = Some r ->
  exists sent,
    requests (result_state r) = requests st ++ sent /\
    Forall (fun request => exists more, request = messages st ++ more) sent /\
    (iteration st < max_iterations -> hd_error sent = Some (messages st)).
Proof.
  revert st. induction fuel as [|fuel IH]; intros st; cbn [Main.while_loop].
  - destruct (iteration st <? max_iterations) eqn:G; [discriminate|].
    apply Nat.ltb_ge in G. intros [= <-]. exists []. cbn [result_state].
    rewrite app_nil_r. split; [reflexivity|]. split; [constructor | lia].
  - destruct (iteration st <? max_iterations) eqn:G.
    + pose proof (loop_body_messages st) as M.
      pose proof (loop_body_progress py_str exn_str invoke py_int py_float
                    json_loads json_dumps trace_groq_call st) as [_ P].
      cbv zeta in P.
      assert (Hself : exists more, messages st = messages st ++ more)
        by (exists []; rewrite app_nil_r; reflexivity).
      destruct (loop_body st) as [s | s | s e]; destruct M as [extra M].
      * intros Hloop. destruct (IH s Hloop) as (sent & Hs & Hall & _).
        exists (messages st :: sent). rewrite Hs, P, <- app_assoc.
        split; [reflexivity|]. split; [|reflexivity].
        constructor; [exact Hself|].
        eapply List.Forall_impl; [|exact Hall].
        intros request [more ->]. rewrite M, <- app_assoc. eauto.
      * intros [= <-]. exists [messages st]. cbn [result_state].
        split; [exact P|]. split; [constructor; [exact Hself | constructor] | reflexivity].
      * intros [= <-]. exists [messages st]. cbn [result_state].
        split; [exact P|]. split; [constructor; [exact Hself | constructor] | reflexivity].
    + apply Nat.ltb_ge in G. intros [= <-]. exists []. cbn [result_state].
      rewrite app_nil_r. split; [reflexivity|]. split; [constructor | lia].
Qed.

(** The model is asked at least once per call.  The first transcript it
    gets is the history of the session behind a system turn (the system
    prompt, unless the history starts with a system turn of its own), and
    every later transcript of the call extends the first one: nothing said
    before is dropped or rewritten. *)
Theorem requests_extend_the_history
    (fuel : nat) (history : list message) (r : loop_result) :
  while_loop fuel (initial_state (with_system_prompt history)) = Some r ->
  exists first later,
    requests (result_state r) = first :: later /\
    first = with_system_prompt history /\
    (exists system_turn, hd_error first = Some system_turn /\
                         msg_role system_turn = "system"%string) /\
    (first = history \/ first = plain_message "system" SYSTEM_PROMPT :: history) /\
    Forall (fun request => exists more, request = first ++ more) later.
Proof.
  intros Hloop.
  destruct (while_loop_requests _ _ _ Hloop) as (sent & Hsent & Hall & Hhead).
  cbn [initial_state requests messages iteration app] in Hsent, Hall, Hhead.
  specialize (Hhead ltac:(unfold max_iterations; lia)).
  destruct sent as [|first later]; [discriminate|].
  injection Hhead as ->. apply Forall_cons_iff in Hall as [_ Hall].
  exists (with_system_prompt history), later.
  split; [exact Hsent|]. split; [reflexivity|].
  split; [|split; [|exact Hall]].
  - unfold Main.with_system_prompt. destruct history as [|m rest]; [eexists; split; reflexivity|].
    destruct (String.eqb_spec (msg_role m) "system") as [E | _];
      eexists; split; try reflexivity. exact E.
  - unfold Main.with_system_prompt. destruct history as [|m rest]; [right; reflexivity|].
    destruct (String.eqb (msg_role m) "system"); [left | right]; reflexivity.
Qed.

End TranscriptFacts.

Lemma requests_extend_the_history_witness :
  exists r first later,
    Sample.run_loop (Sample.scripted Sample.skipped_then_silence)
      (Main.with_system_prompt Sample.SYSTEM_PROMPT
         [State.plain_message "user" "Check my LTV"]) = Some r /\
    Main.requests (Main.result_state r) = first :: later /\
    first = Main.with_system_prompt Sample.SYSTEM_PROMPT
              [State.plain_message "user" "Check my LTV"] /\
    (exists system_turn, hd_error first = Some system_turn /\
                         State.msg_role system_turn = "system"%string) /\
    (first = [State.plain_message "user" "Check my LTV"] \/
     first = State.plain_message "system" Sample.SYSTEM_PROMPT
             :: [State.plain_message "user" "Check my LTV"]) /\
    Forall (fun request => exists more, request = first ++ more) later.
Proof.
  eexists.
  destruct (requests_extend_the_history Sample.py_str Sample.exn_str
              Calculators.TOOL_FUNCTIONS Sample.py_int Sample.py_float
              Sample.json_loads Sample.json_dumps
              (Sample.scripted Sample.skipped_then_silence) Sample.SYSTEM_PROMPT
              Main.max_iterations [State.plain_message "user" "Check my LTV"] _ eq_refl)
    as (first & later & H).
  exists first, later. split; [reflexivity | exact H].
Defined.

(** * Properties of the endpoints *)
Section EndpointFacts.

Import Json Agent State Main Endpoints.

Variable py_str : value -> string.
Variable exn_str : exn -> string.
Variable invoke : string -> dict -> outcome.
Variable py_int : string -> option Z.
Variable py_float : string -> option Q.
Variable json_loads : string -> option value.
Variable json_dumps : dict -> string.
Variable trace_groq_call : list message -> try completion.
Variable SYSTEM_PROMPT : string.

Local Abbreviation chat :=
  (chat py_str exn_str invoke py_int py_float json_loads json_dumps trace_groq_call
     SYSTEM_PROMPT).

(** The chat endpoint answers 404 exactly for a session that does not
    exist, and then stores nothing.  For a session that exists it always
    answers with an event stream, the user's message is in the history
    afterwards, and the stream does not begin with the session-not-found
    failure of the store: its events are content events closed by one done
    or error event. *)
Theorem chat_answers (session_id message now_user now_reply : string)
    (store : gmap string session) :
  match chat session_id message now_user now_reply store with
  | HTTPException status_code detail =>
      status_code = 404 /\ detail = "Session not found"%string /\
      store !! session_id = None
  | Response out =>
      is_Some (store !! session_id) /\
      exists store' texts final rest,
        out = Some (store', List.map ContentEvent texts ++ [final]) /\
        (final = DoneEvent \/ exists detail, final = ErrorEvent detail) /\
        get_history session_id store'
        = get_history session_id store ++ plain_message "user" message :: rest
  end.
Proof.
  unfold Endpoints.chat, session_exists.
  destruct (store !! session_id) as [s|] eqn:Hs.
  - rewrite bool_decide_eq_true_2 by eauto. split; [eauto|].
    destruct (stream_outcome py_str exn_str invoke py_int py_float json_loads json_dumps
                trace_groq_call SYSTEM_PROMPT session_id message now_user now_reply store)
      as (store' & texts & final & Hout & Hcase).
    rewrite Hs in Hcase. destruct Hcase as (store1 & Hadd & Hclose).
    destruct (add_message_appends store session_id "user" message now_user s Hs)
      as (store1' & Hadd' & Hhist & _).
    rewrite Hadd in Hadd'. injection Hadd' as <-.
    assert (Hs1 : exists s1, store1 !! session_id = Some s1).
    { unfold add_message in Hadd. rewrite Hs in Hadd. injection Hadd as <-.
      rewrite lookup_insert_eq. eauto. }
    destruct Hs1 as [s1 Hs1].
    exists store', texts, final.
    destruct final as [c | | c]; [destruct Hclose | |].
    + destruct (String.eqb (String.concat "" texts) "").
      * subst store'. exists []. split; [exact Hout|]. split; [left; reflexivity | exact Hhist].
      * destruct (add_message_appends store1 session_id "assistant"
                    (String.concat "" texts) now_reply s1 Hs1)
          as (store2 & Hadd2 & Hhist2 & _).
        rewrite Hclose in Hadd2. injection Hadd2 as <-.
        eexists. split; [exact Hout|]. split; [left; reflexivity|].
        rewrite Hhist2, Hhist, <- app_assoc. reflexivity.
    + subst store'. exists []. split; [exact Hout|]. split; [right; eauto | exact Hhist].
  - rewrite bool_decide_eq_false_2 by (intros [? ?]; discriminate).
    repeat split.
Qed.

(** The entries a readable leads file holds. *)
Local Abbreviation entries file :=
  (match file with
   | Stored (VList leads) => leads
   | _ => []
   end).

(** Leads accumulate: two captures in a row, on sessions that exist and a
    file that is absent, unreadable or a list, both succeed and leave the
    file as the list of the entries it had (none, when it was absent or
    unreadable) followed by the two leads in the order of the calls; each
    lead is stamped with the creation time of its session.  The file one
    capture writes is always one the next capture can extend.  On a session
    that does not exist the answer is 404 and the file is not touched. *)
Theorem leads_accumulate
    (first_id first_name first_email first_phone : string)
    (second_id second_name second_email second_phone : string)
    (store : gmap string session) (first_session second_session : session)
    (file : leads_file) :
  store !! first_id = Some first_session ->
  store !! second_id = Some second_session ->
  (forall content, file = Stored content -> exists leads, content = VList leads) ->
  exists file1,
    capture_lead first_id first_name first_email first_phone store file None
    = Answered (Response (true, "Lead captured successfully"%string)) file1 /\
    capture_lead second_id second_name second_email second_phone store file1 None
    = Answered (Response (true, "Lead captured successfully"%string))
        (Stored (VList (entries file ++
           [ lead_data first_id first_name first_email first_phone
               (created_at first_session);
             lead_data second_id second_name second_email second_phone
               (created_at second_session) ]))) /\
    forall unknown name email phone write_failure,
      store !! unknown = None ->
      capture_lead unknown name email phone store file1 write_failure
      = Answered (HTTPException 404 "Session not found") file1.
Proof.
  intros Hfirst Hsecond Hfile. unfold capture_lead. rewrite Hfirst, Hsecond.
  assert (Hloaded :
    match file with
    | Absent | Unreadable => Ok []
    | Stored (VList leads) => Ok leads
    | Stored _ => Throw (AttributeError "object has no attribute 'append'")
    end = Ok (entries file)).
  { destruct file as [| |content]; try reflexivity.
    destruct (Hfile content eq_refl) as [leads ->]. reflexivity. }
  rewrite Hloaded. eexists. split; [reflexivity|].
  split; [rewrite <- app_assoc; reflexivity|].
  intros unknown name email phone write_failure Hnone. rewrite Hnone. reflexivity.
Qed.

End EndpointFacts.

Lemma leads_accumulate_witness :
  exists file1,
    Endpoints.capture_lead "s1" "Ana" "ana@example.com" "050" Sample.one_session
      Endpoints.Unreadable None
    = Endpoints.Answered
        (Endpoints.Response (true, "Lead captured successfully"%string)) file1 /\
    Endpoints.capture_lead "s1" "Ben" "ben@example.com" "055" Sample.one_session
      file1 None
    = Endpoints.Answered
        (Endpoints.Response (true, "Lead captured successfully"%string))
        (Endpoints.Stored (Json.VList ([] ++
           [ Endpoints.lead_data "s1" "Ana" "ana@example.com" "050" "t0";
             Endpoints.lead_data "s1" "Ben" "ben@example.com" "055" "t0" ]))) /\
    forall unknown name email phone write_failure,
      Sample.one_session !! unknown = None ->
      Endpoints.capture_lead unknown name email phone Sample.one_session file1
        write_failure
      = Endpoints.Answered (Endpoints.HTTPException 404 "Session not found") file1.
Proof.
  apply (leads_accumulate "s1" "Ana" "ana@example.com" "050"
           "s1" "Ben" "ben@example.com" "055" Sample.one_session
           {| State.messages := []; State.created_at := "t0"; State.user_data := [] |}
           {| State.messages := []; State.created_at := "t0"; State.user_data := [] |}
           Endpoints.Unreadable).
  - apply lookup_insert_eq.
  - apply lookup_insert_eq.
  - discriminate.
Defined.
